(** * OTPi: the rotary-encoder sampler and the OLED menu state machine

    A shallow embedding of [encoder.py] (class [Encoder]) and of [oled_ui.py]
    (class [OledUI]), followed by the properties of the two that the
    specification states.  Further modules embed the rest of the two files
    (the pin classes and their registry, [close], the burst reader, the
    scrolling text, the settings file, the language line of
    [wifi_config.txt], [perform_reset]), the seven-segment
    drawing of [led_display.py], and [load_user_settings] and
    [run_language_picker] of [main.py], each with properties of its own.

    Conventions of the embedding.
    - A Python [int] is a [Z]; a Python [float] is a binary64 value, Rocq's
      primitive [float], with the operations Python applies to it.
    - A Python [str] that is only compared or looked up is a [string]; the
      text of a file that the code cuts into lines is the list of its code
      points.
    - A pin level ([_PinBase.read() -> int], always [1] or [0]) is a [bool];
      [Z.b2z] gives the integer the code computes with.
    - A call that may raise hands back an [option]; [None] is the exception.
    - The sampler thread is a step function over its loop: one step is one
      read of the button line (and, in the outer loop, the read of the two
      quadrature lines before it).
    - What comes from outside is an input: the levels read (or the failure
      of a read), the readings of [time.perf_counter()] and [time.time()],
      which are floats as in the code, the outcome of writing the settings
      file. *)

From Stdlib Require Import ZArith List Bool String Lia.
From Stdlib Require Import PrimFloat SpecFloat FloatOps FloatAxioms.
Import ListNotations.
Open Scope Z_scope.

Set Warnings "-inexact-float".

(** ** Python's arithmetic, as far as the two classes use it *)

Module Py.

(** [max(a, b)] keeps the first argument unless the second is greater. *)
Definition max (a b : float) : float := if PrimFloat.ltb a b then b else a.

(** [x >= y] and [x > y] on floats. *)
Definition ge (x y : float) : bool := PrimFloat.leb y x.
Definition gt (x y : float) : bool := PrimFloat.ltb y x.

(** [lst[i]]: an index below zero counts from the end, anything outside the
    list raises [IndexError]. *)
Definition index {A : Type} (l : list A) (i : Z) : option A :=
  let n := Z.of_nat (List.length l) in
  if (0 <=? i) && (i <? n) then nth_error l (Z.to_nat i)
  else if (- n <=? i) && (i <? 0) then nth_error l (Z.to_nat (n + i))
  else None.

(** [float(z)] for an [int]: the nearest binary64, ties to even;
    [OverflowError] when that is not finite. *)
Definition float_of_int (z : Z) : option float :=
  match binary_normalize prec emax z 0 false with
  | S754_infinity _ | S754_nan => None
  | sf => Some (SF2Prim sf)
  end.

(** C's [fmod(x, 1.0)]: the fractional part of [x], exact, with the sign of
    [x].  A finite binary64 is [m * 2^e]; for [e < 0] its fraction is
    [(m mod 2^-e) * 2^e]. *)
Definition fmod1 (x : float) : float :=
  match Prim2SF x with
  | S754_nan | S754_infinity _ => nan
  | S754_zero _ => x
  | S754_finite s m e =>
      if 0 <=? e then (if s then neg_zero else zero)
      else match Z.pos m mod 2 ^ (- e) with
           | Z.pos r => SF2Prim (S754_finite s r e)
           | _ => if s then neg_zero else zero
           end
  end.

(** [x % 1.0] (CPython's [float_rem]): [fmod], then a remainder below zero is
    moved up by the divisor, in floating point; a zero remainder is [+0.0]. *)
Definition mod1 (x : float) : float :=
  let m := fmod1 x in
  if PrimFloat.eqb m zero then zero
  else if PrimFloat.ltb m zero then PrimFloat.add m one
  else m.

End Py.

(** ** encoder.py *)

Module Encoder.

(** The module constants come from the environment; [Env] holds the values
    read there, after [_envint] / [float(...)]. *)
Record Env := {
  env_ppr : Z;                (* OTPI_ENC_PPR *)
  env_btn_active_low : bool;  (* OTPI_ENC_BTN_ACTIVE_LOW *)
  env_btn_debounce_ms : float (* OTPI_ENC_BTN_DEBOUNCE_MS *)
}.

(** [PPR = max(1, _envint("OTPI_ENC_PPR", 4))] *)
Definition PPR (e : Env) : Z := Z.max 1 (env_ppr e).

Definition BTN_ACTIVE_LOW (e : Env) : bool := env_btn_active_low e.

(** [BTN_DEBOUNCE_S = max(0.001, float(...)/1000.0)] *)
Definition BTN_DEBOUNCE_S (e : Env) : float :=
  Py.max 0.001 (PrimFloat.div (env_btn_debounce_ms e) 1000).

(** The attributes of an [Encoder], with the two pieces of control state of
    its thread: whether [_poll_loop] is still running, and whether it stands
    in the inner loop that waits for the button's release.
    [consecutive_errors] is the loop's local counter. *)
Record Sampler := {
  _ok : bool;
  has_sw : bool;               (* self._sw is not None *)
  _stop : bool;
  alive : bool;
  in_release_wait : bool;
  consecutive_errors : Z;
  _state : Z;
  _accum : Z;
  _steps : Z;
  _press_latch : bool;
  _btn_last : bool;
  _btn_last_change : float
}.

Definition set_alive (v : bool) (s : Sampler) : Sampler :=
  {| _ok := _ok s; has_sw := has_sw s; _stop := _stop s; alive := v;
     in_release_wait := in_release_wait s;
     consecutive_errors := consecutive_errors s; _state := _state s;
     _accum := _accum s; _steps := _steps s; _press_latch := _press_latch s;
     _btn_last := _btn_last s; _btn_last_change := _btn_last_change s |}.

Definition set_release_wait (v : bool) (s : Sampler) : Sampler :=
  {| _ok := _ok s; has_sw := has_sw s; _stop := _stop s; alive := alive s;
     in_release_wait := v;
     consecutive_errors := consecutive_errors s; _state := _state s;
     _accum := _accum s; _steps := _steps s; _press_latch := _press_latch s;
     _btn_last := _btn_last s; _btn_last_change := _btn_last_change s |}.

Definition set_errors (v : Z) (s : Sampler) : Sampler :=
  {| _ok := _ok s; has_sw := has_sw s; _stop := _stop s; alive := alive s;
     in_release_wait := in_release_wait s;
     consecutive_errors := v; _state := _state s;
     _accum := _accum s; _steps := _steps s; _press_latch := _press_latch s;
     _btn_last := _btn_last s; _btn_last_change := _btn_last_change s |}.

Definition set_quad (st acc stp : Z) (s : Sampler) : Sampler :=
  {| _ok := _ok s; has_sw := has_sw s; _stop := _stop s; alive := alive s;
     in_release_wait := in_release_wait s;
     consecutive_errors := consecutive_errors s; _state := st;
     _accum := acc; _steps := stp; _press_latch := _press_latch s;
     _btn_last := _btn_last s; _btn_last_change := _btn_last_change s |}.

Definition set_latch (v : bool) (s : Sampler) : Sampler :=
  {| _ok := _ok s; has_sw := has_sw s; _stop := _stop s; alive := alive s;
     in_release_wait := in_release_wait s;
     consecutive_errors := consecutive_errors s; _state := _state s;
     _accum := _accum s; _steps := _steps s; _press_latch := v;
     _btn_last := _btn_last s; _btn_last_change := _btn_last_change s |}.

Definition set_btn (lvl : bool) (t : float) (s : Sampler) : Sampler :=
  {| _ok := _ok s; has_sw := has_sw s; _stop := _stop s; alive := alive s;
     in_release_wait := in_release_wait s;
     consecutive_errors := consecutive_errors s; _state := _state s;
     _accum := _accum s; _steps := _steps s; _press_latch := _press_latch s;
     _btn_last := lvl; _btn_last_change := t |}.

(** [self._tbl] *)
Definition _tbl : list Z :=
  [0; -1; 1; 0;   1; 0; 0; -1;   -1; 0; 0; 1;   0; 1; -1; 0].

(** [(a<<1)|b] *)
Definition pack (a b : bool) : Z := Z.lor (Z.shiftl (Z.b2z a) 1) (Z.b2z b).

(** [self._tbl[((self._state<<2)|s) & 0xF]]; the index is within [0..15]. *)
Definition delta_of (prev s : Z) : Z :=
  nth (Z.to_nat (Z.land (Z.lor (Z.shiftl prev 2) s) 15)) _tbl 0.

(** [__init__] when nothing raises: [a], [b], [sw] are the first readings
    ([sw] is not read without a button pin: it is [1 if BTN_ACTIVE_LOW else
    0]), [now] the clock. *)
Definition init (e : Env) (with_btn : bool) (a b sw : bool) (now : float)
  : Sampler :=
  {| _ok := true; has_sw := with_btn; _stop := false; alive := true;
     in_release_wait := false; consecutive_errors := 0;
     _state := pack a b; _accum := 0; _steps := 0; _press_latch := false;
     _btn_last := if with_btn then sw else BTN_ACTIVE_LOW e;
     _btn_last_change := now |}.

(** What one turn of the loop reads: the two quadrature lines (one failure
    for the pair: either [read] raising leaves the [try] at once), the button
    line, and the clock read after it. *)
Record Reads := {
  rd_quad : option (bool * bool);
  rd_sw : option bool;
  rd_now : float
}.

Definition max_errors : Z := 10.

(** The two [except] blocks: count, and [break] past [max_errors]. *)
Definition note_error (s : Sampler) : Sampler :=
  let n := consecutive_errors s + 1 in
  let s := set_errors n s in
  if max_errors <? n then set_alive false s else s.

(** Lines 194-208.  [int(self._accum / PPR)] truncates the true quotient
    toward zero: [Z.quot].  (The float quotient is exact enough for that
    whenever [|accum| <= PPR <= 2^53], which is all the loop produces.) *)
Definition decode (e : Env) (s : Sampler) (a b : bool) : Sampler :=
  let q := pack a b in
  let delta := delta_of (_state s) q in
  if delta =? 0 then set_quad q (_accum s) (_steps s) s
  else
    let acc := _accum s + delta in
    let det := Z.quot acc (PPR e) in
    if det =? 0 then set_quad q acc (_steps s) s
    else set_quad q (acc - det * PPR e) (_steps s + det) s.

(** Lines 192-217. *)
Definition quad_section (e : Env) (s : Sampler) (r : Reads) : Sampler :=
  match rd_quad r with
  | Some (a, b) => set_errors 0 (decode e s a b)
  | None => note_error s
  end.

Definition is_active (e : Env) (lvl : bool) : bool :=
  if BTN_ACTIVE_LOW e then negb lvl else lvl.

Definition is_released (e : Env) (lvl : bool) : bool :=
  if BTN_ACTIVE_LOW e then lvl else negb lvl.

(** Lines 220-231 and 240-243: the button section up to the latch.  After
    the latch control enters the inner loop. *)
Definition button_section (e : Env) (s : Sampler) (r : Reads) : Sampler :=
  if negb (has_sw s) then s
  else
    match rd_sw r with
    | None => note_error s
    | Some lvl =>
        if negb (Bool.eqb lvl (_btn_last s)) then set_btn lvl (rd_now r) s
        else if is_active e lvl
                && Py.ge (PrimFloat.sub (rd_now r) (_btn_last_change s))
                         (BTN_DEBOUNCE_S e)
        then set_release_wait true (set_latch true s)
        else s
    end.

(** Lines 233-239: one turn of [while not self._stop], which reads the button
    again and leaves on a released level; a raising read leaves through the
    [except] of line 240. *)
Definition release_wait (e : Env) (s : Sampler) (r : Reads) : Sampler :=
  if _stop s then set_release_wait false s
  else
    match rd_sw r with
    | None => set_release_wait false (note_error s)
    | Some lvl2 =>
        if is_released e lvl2
        then set_release_wait false (set_btn lvl2 (rd_now r) s)
        else s
    end.

(** One step of [_poll_loop].  A thread that has left the loop reads nothing
    any more. *)
Definition poll (e : Env) (s : Sampler) (r : Reads) : Sampler :=
  if negb (alive s) then s
  else if in_release_wait s then release_wait e s r
  else if _stop s then set_alive false s
  else
    let s1 := quad_section e s r in
    if negb (alive s1) then s1 else button_section e s1 r.

(** [steps()] and [pressed()]: the value returned and the encoder after. *)
Definition steps (s : Sampler) : Z * Sampler :=
  if negb (_ok s) then (0, s)
  else (_steps s, set_quad (_state s) (_accum s) 0 s).

Definition pressed (s : Sampler) : bool * Sampler :=
  if negb (_ok s) || negb (has_sw s) then (false, s)
  else if _press_latch s then (true, set_latch false s)
  else (false, s).

(** An interleaving of the thread's steps with the consumer's calls, and what
    the consumer saw. *)
Inductive event :=
| Poll (r : Reads)
| CallSteps
| CallPressed.

Inductive seen :=
| GotSteps (n : Z)
| GotPressed (b : bool).

Definition step (e : Env) (s : Sampler) (ev : event) : Sampler * list seen :=
  match ev with
  | Poll r => (poll e s r, [])
  | CallSteps => let '(n, s') := steps s in (s', [GotSteps n])
  | CallPressed => let '(b, s') := pressed s in (s', [GotPressed b])
  end.

Fixpoint run (e : Env) (s : Sampler) (evs : list event)
  : Sampler * list seen :=
  match evs with
  | [] => (s, [])
  | ev :: rest =>
      let '(s1, o1) := step e s ev in
      let '(s2, o2) := run e s1 rest in
      (s2, o1 ++ o2)
  end.

(** The detents handed out, and the number of [True] answers. *)
Fixpoint drained (o : list seen) : Z :=
  match o with
  | [] => 0
  | GotSteps n :: rest => n + drained rest
  | GotPressed _ :: rest => drained rest
  end.

Fixpoint presses (o : list seen) : Z :=
  match o with
  | [] => 0
  | GotPressed true :: rest => 1 + presses rest
  | _ :: rest => presses rest
  end.

(** The level pairs the thread really polled during [evs]: a step reads the
    quadrature lines only in the outer loop of a running thread. *)
Definition reads_quad (s : Sampler) : bool :=
  alive s && negb (in_release_wait s) && negb (_stop s).

Fixpoint polled (e : Env) (s : Sampler) (evs : list event)
  : list (bool * bool) :=
  match evs with
  | [] => []
  | ev :: rest =>
      match ev with
      | Poll r =>
          match rd_quad r with
          | Some p => if reads_quad s then [p] else []
          | None => []
          end
      | _ => []
      end ++ polled e (fst (step e s ev)) rest
  end.

(** The table's deltas along a sequence of level pairs, from state [prev]. *)
Fixpoint deltas (prev : Z) (l : list (bool * bool)) : list Z :=
  match l with
  | [] => []
  | (a, b) :: rest => delta_of prev (pack a b) :: deltas (pack a b) rest
  end.

Definition total (l : list Z) : Z := fold_right Z.add 0 l.

(** The three quadrature fields. *)
Definition qview (s : Sampler) : Z * Z * Z := (_state s, _accum s, _steps s).

(** The outer-loop turns of [evs] whose quadrature read raised. *)
Fixpoint failed_polls (e : Env) (s : Sampler) (evs : list event) : Z :=
  match evs with
  | [] => 0
  | ev :: rest =>
      match ev with
      | Poll r =>
          match rd_quad r with
          | None => if reads_quad s then 1 else 0
          | Some _ => 0
          end
      | _ => 0
      end + failed_polls e (fst (step e s ev)) rest
  end.

(** What the successive calls of [steps()], and of [pressed()], answered. *)
Fixpoint steps_seen (o : list seen) : list Z :=
  match o with
  | [] => []
  | GotSteps n :: rest => n :: steps_seen rest
  | GotPressed _ :: rest => steps_seen rest
  end.

Fixpoint pressed_seen (o : list seen) : list bool :=
  match o with
  | [] => []
  | GotPressed b :: rest => b :: pressed_seen rest
  | GotSteps _ :: rest => pressed_seen rest
  end.


(** No read of the button returned the released level: as far as the
    thread can tell, the button was down all along. *)
Definition never_seen_up (e : Env) (ev : event) : bool :=
  match ev with
  | Poll r =>
      match rd_sw r with
      | Some lvl => is_active e lvl
      | None => true
      end
  | _ => true
  end.





(** A running encoder with a button, the button up and nothing latched. *)
Definition released_idle (e : Env) (s : Sampler) : bool :=
  _ok s && has_sw s && alive s && negb (_stop s)
  && negb (in_release_wait s) && negb (_press_latch s)
  && is_released e (_btn_last s).

(** The thread stands in the release wait of a running encoder. *)
Definition waiting (s : Sampler) : bool :=
  _ok s && has_sw s && alive s && negb (_stop s) && in_release_wait s.



(** What the next [steps()] / [pressed()] will answer. *)
Definition pending_steps (s : Sampler) : Z := if _ok s then _steps s else 0.

Definition pending_press (s : Sampler) : bool :=
  _ok s && has_sw s && _press_latch s.

(** *** Concrete runs *)

(** The defaults: [PPR = 4], an active-low button, 5 ms of debounce. *)
Definition default_env : Env :=
  {| env_ppr := 4; env_btn_active_low := true; env_btn_debounce_ms := 5 |}.

(** All three lines high at start: the rest position with pull-ups. *)
Definition at_rest : Sampler := init default_env true true true true 0.

(** A poll that reads the lines fine, and one whose quadrature read raises. *)
Definition reading (a b sw : bool) (t : float) : event :=
  Poll {| rd_quad := Some (a, b); rd_sw := Some sw; rd_now := t |}.

Definition failing (sw : bool) (t : float) : event :=
  Poll {| rd_quad := None; rd_sw := Some sw; rd_now := t |}.


(** One hold during which a single read of the button pin raises: the
    button reads down at [t = 1] and [t = 1.006] (the latch), the consumer
    asks, the read raises once at [t = 1.05], the button still reads down
    at [t = 1.1], and the consumer asks again. *)
Definition hold_with_failed_read : list event :=
  [reading true true false 1; reading true true false 1.006; CallPressed;
   Poll {| rd_quad := Some (true, true); rd_sw := None; rd_now := 1.05 |};
   reading true true false 1.1; CallPressed].


(** One detent forward (four transitions). *)
Definition one_detent : list event :=
  [reading false true true 0; reading false false true 0;
   reading true false true 0; reading true true true 0].

(** Eleven turns in a row whose quadrature read raises. *)
Definition eleven_failures : list event := repeat (failing true 0) 11.

(** A detent and a full press that the consumer has not asked for yet. *)
Definition unread_input : list event :=
  one_detent
  ++ [reading true true false 1; reading true true false 1.006;
      reading true true true 1.1].

End Encoder.

(** ** oled_ui.py *)

Module OledUI.

Inductive ResetAction := NONE | WIFI | QR | BOTH.

Definition SETTINGS_SAVE_DELAY : float := 2.
Definition OLED_SLEEP_SECS : float := 10.

(** The record [_save_settings] writes. *)
Record Settings := {
  s_hue : float;
  s_brightness : Z;
  s_language : string;
  s_saved_at : float
}.

(** What [_load_settings] found: a key may be missing, the whole file too. *)
Record Saved := {
  sv_hue : option float;
  sv_brightness : option Z;
  sv_language : option string
}.

(** The attributes of an [OledUI] that its transitions read or write.
    [language] is the language in force in module [lang].  The rendering
    side ([_draw], [_get_scrolling_text], the blank frame of [_sleep_oled])
    reads these and writes only its own bookkeeping ([_last_draw_ts],
    [_force_draw_next], [_scroll_pos], [_scroll_timer]), which no transition
    reads: it is left out. *)
Record UI := {
  screen : Z;
  selection : Z;
  confirm_for : option ResetAction;
  hue : float;
  user_pct : Z;
  _lang_codes : list string;
  _lang_idx : Z;
  _last_saved_lang : string;
  _btn_was_pressed : bool;
  _btn_debounce_time : float;
  _last_screen_change : float;
  _last_setting_change : float;
  _settings_dirty : bool;
  _last_saved_hue : float;
  _last_saved_brightness : Z;
  _last_activity : float;
  _oled_sleeping : bool;
  language : string
}.

Definition set_screen (v : Z) (u : UI) : UI :=
  {| screen := v; selection := selection u; confirm_for := confirm_for u;
     hue := hue u; user_pct := user_pct u; _lang_codes := _lang_codes u;
     _lang_idx := _lang_idx u; _last_saved_lang := _last_saved_lang u;
     _btn_was_pressed := _btn_was_pressed u;
     _btn_debounce_time := _btn_debounce_time u;
     _last_screen_change := _last_screen_change u;
     _last_setting_change := _last_setting_change u;
     _settings_dirty := _settings_dirty u;
     _last_saved_hue := _last_saved_hue u;
     _last_saved_brightness := _last_saved_brightness u;
     _last_activity := _last_activity u; _oled_sleeping := _oled_sleeping u;
     language := language u |}.

Definition set_selection (v : Z) (u : UI) : UI :=
  {| screen := screen u; selection := v; confirm_for := confirm_for u;
     hue := hue u; user_pct := user_pct u; _lang_codes := _lang_codes u;
     _lang_idx := _lang_idx u; _last_saved_lang := _last_saved_lang u;
     _btn_was_pressed := _btn_was_pressed u;
     _btn_debounce_time := _btn_debounce_time u;
     _last_screen_change := _last_screen_change u;
     _last_setting_change := _last_setting_change u;
     _settings_dirty := _settings_dirty u;
     _last_saved_hue := _last_saved_hue u;
     _last_saved_brightness := _last_saved_brightness u;
     _last_activity := _last_activity u; _oled_sleeping := _oled_sleeping u;
     language := language u |}.

Definition set_confirm_for (v : option ResetAction) (u : UI) : UI :=
  {| screen := screen u; selection := selection u; confirm_for := v;
     hue := hue u; user_pct := user_pct u; _lang_codes := _lang_codes u;
     _lang_idx := _lang_idx u; _last_saved_lang := _last_saved_lang u;
     _btn_was_pressed := _btn_was_pressed u;
     _btn_debounce_time := _btn_debounce_time u;
     _last_screen_change := _last_screen_change u;
     _last_setting_change := _last_setting_change u;
     _settings_dirty := _settings_dirty u;
     _last_saved_hue := _last_saved_hue u;
     _last_saved_brightness := _last_saved_brightness u;
     _last_activity := _last_activity u; _oled_sleeping := _oled_sleeping u;
     language := language u |}.

Definition set_hue (v : float) (u : UI) : UI :=
  {| screen := screen u; selection := selection u;
     confirm_for := confirm_for u; hue := v; user_pct := user_pct u;
     _lang_codes := _lang_codes u; _lang_idx := _lang_idx u;
     _last_saved_lang := _last_saved_lang u;
     _btn_was_pressed := _btn_was_pressed u;
     _btn_debounce_time := _btn_debounce_time u;
     _last_screen_change := _last_screen_change u;
     _last_setting_change := _last_setting_change u;
     _settings_dirty := _settings_dirty u;
     _last_saved_hue := _last_saved_hue u;
     _last_saved_brightness := _last_saved_brightness u;
     _last_activity := _last_activity u; _oled_sleeping := _oled_sleeping u;
     language := language u |}.

Definition set_user_pct (v : Z) (u : UI) : UI :=
  {| screen := screen u; selection := selection u;
     confirm_for := confirm_for u; hue := hue u; user_pct := v;
     _lang_codes := _lang_codes u; _lang_idx := _lang_idx u;
     _last_saved_lang := _last_saved_lang u;
     _btn_was_pressed := _btn_was_pressed u;
     _btn_debounce_time := _btn_debounce_time u;
     _last_screen_change := _last_screen_change u;
     _last_setting_change := _last_setting_change u;
     _settings_dirty := _settings_dirty u;
     _last_saved_hue := _last_saved_hue u;
     _last_saved_brightness := _last_saved_brightness u;
     _last_activity := _last_activity u; _oled_sleeping := _oled_sleeping u;
     language := language u |}.

Definition set_lang_idx (v : Z) (u : UI) : UI :=
  {| screen := screen u; selection := selection u;
     confirm_for := confirm_for u; hue := hue u; user_pct := user_pct u;
     _lang_codes := _lang_codes u; _lang_idx := v;
     _last_saved_lang := _last_saved_lang u;
     _btn_was_pressed := _btn_was_pressed u;
     _btn_debounce_time := _btn_debounce_time u;
     _last_screen_change := _last_screen_change u;
     _last_setting_change := _last_setting_change u;
     _settings_dirty := _settings_dirty u;
     _last_saved_hue := _last_saved_hue u;
     _last_saved_brightness := _last_saved_brightness u;
     _last_activity := _last_activity u; _oled_sleeping := _oled_sleeping u;
     language := language u |}.

Definition set_btn_was_pressed (v : bool) (u : UI) : UI :=
  {| screen := screen u; selection := selection u;
     confirm_for := confirm_for u; hue := hue u; user_pct := user_pct u;
     _lang_codes := _lang_codes u; _lang_idx := _lang_idx u;
     _last_saved_lang := _last_saved_lang u; _btn_was_pressed := v;
     _btn_debounce_time := _btn_debounce_time u;
     _last_screen_change := _last_screen_change u;
     _last_setting_change := _last_setting_change u;
     _settings_dirty := _settings_dirty u;
     _last_saved_hue := _last_saved_hue u;
     _last_saved_brightness := _last_saved_brightness u;
     _last_activity := _last_activity u; _oled_sleeping := _oled_sleeping u;
     language := language u |}.

Definition set_btn_debounce_time (v : float) (u : UI) : UI :=
  {| screen := screen u; selection := selection u;
     confirm_for := confirm_for u; hue := hue u; user_pct := user_pct u;
     _lang_codes := _lang_codes u; _lang_idx := _lang_idx u;
     _last_saved_lang := _last_saved_lang u;
     _btn_was_pressed := _btn_was_pressed u; _btn_debounce_time := v;
     _last_screen_change := _last_screen_change u;
     _last_setting_change := _last_setting_change u;
     _settings_dirty := _settings_dirty u;
     _last_saved_hue := _last_saved_hue u;
     _last_saved_brightness := _last_saved_brightness u;
     _last_activity := _last_activity u; _oled_sleeping := _oled_sleeping u;
     language := language u |}.

Definition set_last_screen_change (v : float) (u : UI) : UI :=
  {| screen := screen u; selection := selection u;
     confirm_for := confirm_for u; hue := hue u; user_pct := user_pct u;
     _lang_codes := _lang_codes u; _lang_idx := _lang_idx u;
     _last_saved_lang := _last_saved_lang u;
     _btn_was_pressed := _btn_was_pressed u;
     _btn_debounce_time := _btn_debounce_time u; _last_screen_change := v;
     _last_setting_change := _last_setting_change u;
     _settings_dirty := _settings_dirty u;
     _last_saved_hue := _last_saved_hue u;
     _last_saved_brightness := _last_saved_brightness u;
     _last_activity := _last_activity u; _oled_sleeping := _oled_sleeping u;
     language := language u |}.

Definition set_dirty_since (v : float) (u : UI) : UI :=
  {| screen := screen u; selection := selection u;
     confirm_for := confirm_for u; hue := hue u; user_pct := user_pct u;
     _lang_codes := _lang_codes u; _lang_idx := _lang_idx u;
     _last_saved_lang := _last_saved_lang u;
     _btn_was_pressed := _btn_was_pressed u;
     _btn_debounce_time := _btn_debounce_time u;
     _last_screen_change := _last_screen_change u; _last_setting_change := v;
     _settings_dirty := true; _last_saved_hue := _last_saved_hue u;
     _last_saved_brightness := _last_saved_brightness u;
     _last_activity := _last_activity u; _oled_sleeping := _oled_sleeping u;
     language := language u |}.

Definition set_saved (l : string) (u : UI) : UI :=
  {| screen := screen u; selection := selection u;
     confirm_for := confirm_for u; hue := hue u; user_pct := user_pct u;
     _lang_codes := _lang_codes u; _lang_idx := _lang_idx u;
     _last_saved_lang := l; _btn_was_pressed := _btn_was_pressed u;
     _btn_debounce_time := _btn_debounce_time u;
     _last_screen_change := _last_screen_change u;
     _last_setting_change := _last_setting_change u;
     _settings_dirty := false; _last_saved_hue := hue u;
     _last_saved_brightness := user_pct u;
     _last_activity := _last_activity u; _oled_sleeping := _oled_sleeping u;
     language := language u |}.

Definition set_last_activity (v : float) (u : UI) : UI :=
  {| screen := screen u; selection := selection u;
     confirm_for := confirm_for u; hue := hue u; user_pct := user_pct u;
     _lang_codes := _lang_codes u; _lang_idx := _lang_idx u;
     _last_saved_lang := _last_saved_lang u;
     _btn_was_pressed := _btn_was_pressed u;
     _btn_debounce_time := _btn_debounce_time u;
     _last_screen_change := _last_screen_change u;
     _last_setting_change := _last_setting_change u;
     _settings_dirty := _settings_dirty u;
     _last_saved_hue := _last_saved_hue u;
     _last_saved_brightness := _last_saved_brightness u; _last_activity := v;
     _oled_sleeping := _oled_sleeping u; language := language u |}.

Definition set_oled_sleeping (v : bool) (u : UI) : UI :=
  {| screen := screen u; selection := selection u;
     confirm_for := confirm_for u; hue := hue u; user_pct := user_pct u;
     _lang_codes := _lang_codes u; _lang_idx := _lang_idx u;
     _last_saved_lang := _last_saved_lang u;
     _btn_was_pressed := _btn_was_pressed u;
     _btn_debounce_time := _btn_debounce_time u;
     _last_screen_change := _last_screen_change u;
     _last_setting_change := _last_setting_change u;
     _settings_dirty := _settings_dirty u;
     _last_saved_hue := _last_saved_hue u;
     _last_saved_brightness := _last_saved_brightness u;
     _last_activity := _last_activity u; _oled_sleeping := v;
     language := language u |}.

(** Modelled from the spec: [lang.set_language], of module [lang], which is
    not among the sources; the language "applies immediately". *)
Definition set_language (code : string) (u : UI) : UI :=
  {| screen := screen u; selection := selection u;
     confirm_for := confirm_for u; hue := hue u; user_pct := user_pct u;
     _lang_codes := _lang_codes u; _lang_idx := _lang_idx u;
     _last_saved_lang := _last_saved_lang u;
     _btn_was_pressed := _btn_was_pressed u;
     _btn_debounce_time := _btn_debounce_time u;
     _last_screen_change := _last_screen_change u;
     _last_setting_change := _last_setting_change u;
     _settings_dirty := _settings_dirty u;
     _last_saved_hue := _last_saved_hue u;
     _last_saved_brightness := _last_saved_brightness u;
     _last_activity := _last_activity u; _oled_sleeping := _oled_sleeping u;
     language := code |}.

(** Raising calls in sequence. *)
Definition bind {A B : Type} (c : option A) (k : A -> option B) : option B :=
  match c with
  | Some a => k a
  | None => None
  end.

Notation "x <- c ;; k" := (bind c (fun x => k))
  (at level 61, c at next level, right associativity).

(** [list.index(x)]: the first position of [x], or [ValueError]. *)
Fixpoint position (x : string) (l : list string) : option Z :=
  match l with
  | [] => None
  | y :: rest =>
      if String.eqb y x then Some 0
      else match position x rest with
           | Some i => Some (i + 1)
           | None => None
           end
  end.

(** [int(max(0, min(100, x)))] *)
Definition clamp_pct (x : Z) : Z := Z.max 0 (Z.min 100 x).

(** [__init__]: [codes] is [lang.LANGUAGES]' codes, [cur] is
    [lang.get_language()], [t_change] and [t_activity] the two clock
    readings. *)
Definition init (saved : Saved) (initial_hue : float)
    (user_brightness_pct : Z) (codes : list string) (cur : string)
    (t_change t_activity : float) : option UI :=
  let h :=
    Py.mod1 (match sv_hue saved with Some x => x | None => initial_hue end) in
  let pct :=
    clamp_pct (match sv_brightness saved with
               | Some x => x
               | None => user_brightness_pct
               end) in
  let cur_lang := match sv_language saved with Some l => l | None => cur end in
  let idx := match position cur_lang codes with Some i => i | None => 0 end in
  saved_lang <- Py.index codes idx ;;
  Some {| screen := 0; selection := 0; confirm_for := None;
          hue := h; user_pct := pct;
          _lang_codes := codes; _lang_idx := idx;
          _last_saved_lang := saved_lang;
          _btn_was_pressed := false; _btn_debounce_time := 0;
          _last_screen_change := t_change;
          _last_setting_change := 0; _settings_dirty := false;
          _last_saved_hue := h; _last_saved_brightness := pct;
          _last_activity := t_activity; _oled_sleeping := false;
          language := cur |}.

(** What a frame brings in from outside: the encoder (absent, or the outcomes
    of its successive [steps()] / [pressed()] call pairs, [None] for a call
    that raised), the clock readings of [handle], [_wake_oled] and
    [_check_auto_save], the wall clock of [_save_settings], and whether the
    write of the settings file goes through. *)
Record Frame := {
  encoder : option (list (option Z * option bool));
  now : float;
  now_wake : float;
  now_save : float;
  wall : float;
  save_ok : bool
}.

(** [_read_inputs_safer]: five call pairs, summed and or-ed; a raising call
    counts for nothing (and so does a pair the list does not hold). *)
Definition read_inputs_safer (enc : list (option Z * option bool))
  : Z * bool :=
  fold_left
    (fun acc sample =>
       let '(total_steps, any_press) := acc in
       let '(s, p) := sample in
       (match s with Some n => total_steps + n | None => total_steps end,
        match p with Some true => true | _ => any_press end))
    (firstn 5 enc) (0, false).

(** [_save_settings]: a failure anywhere inside the [try] leaves the tracking
    fields as they were. *)
Definition _save_settings (u : UI) (f : Frame) : UI * option Settings :=
  match Py.index (_lang_codes u) (_lang_idx u) with
  | None => (u, None)
  | Some cur_lang =>
      if save_ok f then
        (set_saved cur_lang u,
         Some {| s_hue := hue u; s_brightness := user_pct u;
                 s_language := cur_lang; s_saved_at := wall f |})
      else (u, None)
  end.

(** [_check_auto_save] *)
Definition _check_auto_save (u : UI) (f : Frame)
  : option (UI * option Settings) :=
  let now := now_save f in
  let hue_changed :=
    Py.gt (PrimFloat.abs (PrimFloat.sub (hue u) (_last_saved_hue u))) 0.001 in
  let brightness_changed := negb (user_pct u =? _last_saved_brightness u) in
  cur_lang <- Py.index (_lang_codes u) (_lang_idx u) ;;
  let lang_changed := negb (String.eqb cur_lang (_last_saved_lang u)) in
  let u :=
    if (hue_changed || brightness_changed || lang_changed)
       && negb (_settings_dirty u)
    then set_dirty_since now u else u in
  let time_since_change := PrimFloat.sub now (_last_setting_change u) in
  if _settings_dirty u && Py.ge time_since_change SETTINGS_SAVE_DELAY
  then Some (_save_settings u f)
  else Some (u, None).

Definition _sleep_oled (u : UI) : UI :=
  if _oled_sleeping u then u else set_oled_sleeping true u.

Definition _wake_oled (u : UI) (f : Frame) : UI :=
  set_last_activity (now_wake f) (set_oled_sleeping false u).

(** The press edge of lines 209-216 and the state after them. *)
Definition pressed_edge (u : UI) (f : Frame) (raw_press : bool) : bool :=
  raw_press && negb (_btn_was_pressed u)
  && Py.gt (PrimFloat.sub (now f) (_btn_debounce_time u)) 0.1.

Definition track_button (u : UI) (f : Frame) (raw_press : bool) : UI :=
  set_btn_was_pressed raw_press
    (if pressed_edge u f raw_press then set_btn_debounce_time (now f) u
     else u).

(** [can_change_screen] *)
Definition can_change_screen (u : UI) (f : Frame) : bool :=
  Py.gt (PrimFloat.sub (now f) (_last_screen_change u)) 0.2.

Definition truthy (c : option ResetAction) : bool :=
  match c with Some _ => true | None => false end.

(** Lines 241-304: the screen logic, giving the state and [reset_action]. *)
Definition screen_logic (u : UI) (f : Frame) (step : Z) (edge : bool)
  : option (UI * ResetAction) :=
  let can := can_change_screen u f in
  let go := edge && can in
  let moving := negb (step =? 0) in
  if screen u =? 0 then
    Some (if go then set_last_screen_change (now f) (set_screen 1 u) else u,
          NONE)
  else if screen u =? 1 then
    u1 <- (if moving then
             k <- Py.float_of_int step ;;
             Some (set_hue
                     (Py.mod1 (PrimFloat.add (hue u) (PrimFloat.mul k 0.01)))
                     u)
           else Some u) ;;
    Some (if go then set_last_screen_change (now f) (set_screen 2 u1) else u1,
          NONE)
  else if screen u =? 2 then
    let u1 :=
      if moving then set_user_pct (clamp_pct (user_pct u + step)) u else u in
    Some (if go then set_last_screen_change (now f) (set_screen 3 u1) else u1,
          NONE)
  else if screen u =? 3 then
    u1 <- (if moving then
             let n := Z.of_nat (List.length (_lang_codes u)) in
             if n =? 0 then None
             else
               let i := (_lang_idx u + step) mod n in
               code <- Py.index (_lang_codes u) i ;;
               Some (set_language code (set_lang_idx i u))
           else Some u) ;;
    Some (if go then set_last_screen_change (now f) (set_screen 4 u1) else u1,
          NONE)
  else if screen u =? 4 then
    let u1 :=
      if moving then set_selection ((selection u + step) mod 4) u else u in
    if go then
      if selection u1 =? 0 then
        Some (set_last_screen_change (now f) (set_screen 0 u1), NONE)
      else
        a <- Py.index [WIFI; QR; BOTH] (selection u1 - 1) ;;
        Some (set_last_screen_change (now f)
                (set_confirm_for (Some a) (set_screen 5 u1)), NONE)
    else Some (u1, NONE)
  else if screen u =? 5 then
    if moving && can then
      Some (set_last_screen_change (now f)
              (set_confirm_for None (set_screen 0 u)), NONE)
    else if go then
      Some (set_last_screen_change (now f)
              (set_confirm_for None (set_screen 0 u)),
            match confirm_for u with Some a => a | None => NONE end)
    else Some (u, NONE)
  else Some (u, NONE).

(** What a call of [handle] gives back, and the record it saved, if any. *)
Record Out := {
  out_hue : float;
  out_pct : Z;
  out_action : ResetAction;
  out_saved : option Settings
}.

Definition finish (u : UI) (f : Frame) (a : ResetAction)
  : option (UI * Out) :=
  r <- _check_auto_save u f ;;
  let '(u', saved) := r in
  Some (u', {| out_hue := hue u'; out_pct := user_pct u';
               out_action := a; out_saved := saved |}).

(** [handle] up to its last two lines: the state and the [reset_action] with
    which every branch goes on to [_check_auto_save] and [return]. *)
Definition transitions (u : UI) (f : Frame) : option (UI * ResetAction) :=
  match encoder f with
  | None =>
      let u :=
        if Py.ge (PrimFloat.sub (now f) (_last_activity u)) OLED_SLEEP_SECS
        then (if negb (_oled_sleeping u) then _sleep_oled u else u)
        else u in
      Some (u, NONE)
  | Some enc =>
      let '(step, raw_press) := read_inputs_safer enc in
      let edge := pressed_edge u f raw_press in
      let u := track_button u f raw_press in
      let has_activity := negb (step =? 0) || edge in
      if _oled_sleeping u then
        Some (if has_activity then _wake_oled u f else u, NONE)
      else if negb has_activity
              && Py.ge (PrimFloat.sub (now f) (_last_activity u))
                       OLED_SLEEP_SECS
      then Some (_sleep_oled u, NONE)
      else
        let u := if has_activity then set_last_activity (now f) u else u in
        screen_logic u f step edge
  end.

(** [handle] *)
Definition handle (u : UI) (f : Frame) : option (UI * Out) :=
  r <- transitions u f ;;
  let '(u, reset_action) := r in
  finish u f reset_action.

(** A run of frames and what each gave back. *)
Fixpoint frames (u : UI) (fs : list Frame) : option (UI * list Out) :=
  match fs with
  | [] => Some (u, [])
  | f :: rest =>
      r <- handle u f ;;
      let '(u1, o) := r in
      r' <- frames u1 rest ;;
      let '(u2, os) := r' in
      Some (u2, o :: os)
  end.

(** The step and the raw press a frame reads, and whether it shows activity. *)
Definition inputs (f : Frame) : Z * bool :=
  match encoder f with
  | Some enc => read_inputs_safer enc
  | None => (0, false)
  end.

Definition has_activity (u : UI) (f : Frame) : bool :=
  match encoder f with
  | Some _ =>
      negb (fst (inputs f) =? 0) || pressed_edge u f (snd (inputs f))
  | None => false
  end.

(** The frame on which Confirm's press goes through: an encoder, the display
    awake, screen 5, a press edge, no rotation, and the screen-change gate
    open. *)
Definition confirms (u : UI) (f : Frame) : bool :=
  match encoder f with
  | Some _ =>
      negb (_oled_sleeping u) && (screen u =? 5)
      && pressed_edge u f (snd (inputs f))
      && (fst (inputs f) =? 0)
      && can_change_screen u f
  | None => false
  end.

(** The action pending on the Confirm screen, [NONE] when there is none. *)
Definition pending_action (u : UI) : ResetAction :=
  match confirm_for u with Some a => a | None => NONE end.

(** The fields outside the autosave bookkeeping, and the bookkeeping. *)
Definition core (u : UI)
  : Z * Z * option ResetAction * float * Z * list string * Z
    * (bool * float * float * float * bool * string) :=
  (screen u, selection u, confirm_for u, hue u, user_pct u, _lang_codes u,
   _lang_idx u,
   (_btn_was_pressed u, _btn_debounce_time u, _last_screen_change u,
    _last_activity u, _oled_sleeping u, language u)).

Definition tracking (u : UI) : bool * float * float * Z * string :=
  (_settings_dirty u, _last_setting_change u, _last_saved_hue u,
   _last_saved_brightness u, _last_saved_lang u).

(** What the button tracking and the activity stamp leave alone. *)
Definition stable (u : UI)
  : Z * Z * option ResetAction * float * Z * list string * Z * string
    * bool * float :=
  (screen u, selection u, confirm_for u, hue u, user_pct u, _lang_codes u,
   _lang_idx u, language u, _oled_sleeping u, _last_screen_change u).

(** Confirm holds a pending action, and only Confirm does. *)
Definition confirm_invariant (u : UI) : Prop :=
  if screen u =? 5
  then In (confirm_for u) [Some WIFI; Some QR; Some BOTH]
  else confirm_for u = None.

(** *** Concrete runs *)

(** [OledUI(oled, 0.33, 50)] with no settings file and two languages, as in
    [test_ui_only.py]: the state [__init__] leaves. *)
Definition fresh : UI :=
  {| screen := 0; selection := 0; confirm_for := None;
     hue := 0.33; user_pct := 50;
     _lang_codes := ["en"%string; "de"%string]; _lang_idx := 0;
     _last_saved_lang := "en";
     _btn_was_pressed := false; _btn_debounce_time := 0;
     _last_screen_change := 0;
     _last_setting_change := 0; _settings_dirty := false;
     _last_saved_hue := 0.33; _last_saved_brightness := 50;
     _last_activity := 0; _oled_sleeping := false;
     language := "en" |}.

(** A frame at clock [t] whose burst summed to [step] and saw [press]. *)
Definition at_time (t : float) (step : Z) (press : bool) : Frame :=
  {| encoder := Some [(Some step, Some press)];
     now := t; now_wake := t; now_save := t; wall := t; save_ok := true |}.

(** Press, release, press, ... from Info to the Reset menu, one item down,
    and a press into Confirm (for Wi-Fi) at [t = 5]. *)
Definition to_confirm : list Frame :=
  [at_time 1 0 true; at_time 1.5 0 false; at_time 2 0 true;
   at_time 2.5 0 false; at_time 3 0 true; at_time 3.5 0 false;
   at_time 4 0 true; at_time 4.5 1 false; at_time 5 0 true].

(** From 0.33 on the Color screen, twelve frames of rotation back. *)
Definition rotate_back : list Frame :=
  [at_time 1 0 true; at_time 2 (-2) false; at_time 3 (-2) false;
   at_time 4 (-2) false; at_time 5 (-3) false; at_time 6 (-3) false;
   at_time 7 (-3) false; at_time 8 (-3) false; at_time 9 (-3) false;
   at_time 10 (-3) false; at_time 11 (-3) false; at_time 12 (-3) false;
   at_time 13 (-3) false].

(** The state a run of frames from [fresh] ends in, and what a frame gives
    from a state ([fresh], and a no-op answer, stand in where a call raises:
    none of the runs below does). *)
Definition after (fs : list Frame) : UI :=
  match frames fresh fs with
  | Some (u, _) => u
  | None => fresh
  end.

(** A press into the Color screen and the release. *)
Definition to_color : list Frame := [at_time 1 0 true; at_time 1.5 0 false].

(** The whole outcome of a run from [fresh]. *)
Definition run_of (fs : list Frame) : UI * list Out :=
  match frames fresh fs with
  | Some r => r
  | None => (fresh, [])
  end.

Definition result (u : UI) (f : Frame) : UI * Out :=
  match handle u f with
  | Some r => r
  | None =>
      (u, {| out_hue := hue u; out_pct := user_pct u; out_action := NONE;
             out_saved := None |})
  end.

End OledUI.

(** ** oled_ui.py, the rest of the class and [perform_reset] *)

Module OledParts.

Import OledUI.

(** The selection is one of the four menu items and the language index
    points into the list of codes. *)
Definition sound (u : UI) : Prop :=
  0 <= selection u < 4
  /\ 0 <= _lang_idx u < Z.of_nat (List.length (_lang_codes u)).

(** The step of a frame converts to a float ([step * 0.01] on the Color
    screen raises [OverflowError] otherwise). *)
Definition convertible (f : Frame) : Prop :=
  Py.float_of_int (fst (inputs f)) <> None.

(** What a frame without encoder cannot touch. *)
Definition values (u : UI)
  : Z * Z * option ResetAction * float * Z * Z * string :=
  (screen u, selection u, confirm_for u, hue u, user_pct u, _lang_idx u,
   language u).

(** [min(a, b)] keeps the first argument unless the second is smaller. *)
Definition py_min (a b : float) : float := if PrimFloat.ltb b a then b else a.

Definition MAX_LED_BRIGHT : float := 0.80.

(** [(user_pct / 100.0) * MAX_LED_BRIGHT], the expression of both
    [actual_brightness] and [run_totp_display]; the division converts the
    [int] first. *)
Definition scaled (pct : Z) : option float :=
  k <- Py.float_of_int pct ;;
  Some (PrimFloat.mul (PrimFloat.div k 100) MAX_LED_BRIGHT).

(** [OledUI.actual_brightness] *)
Definition actual_brightness (u : UI) : option float := scaled (user_pct u).

(** led_display.py, line 390: the level [run_totp_display] hands to the
    strip, [max(0.0, min(MAX_LED_BRIGHT, (user_pct / 100.0) *
    MAX_LED_BRIGHT))]. *)
Definition actual_bright (user_pct : Z) : option float :=
  x <- scaled user_pct ;; Some (Py.max 0 (py_min MAX_LED_BRIGHT x)).

(** The percentages a state can hold. *)
Definition percents : list Z := map Z.of_nat (seq 0 101).

(** Python's [l[a:b]], for any two integers. *)
Definition clip (n i : Z) : Z :=
  let i := if i <? 0 then i + n else i in
  Z.max 0 (Z.min n i).

Definition slice {A : Type} (l : list A) (a b : Z) : list A :=
  let n := Z.of_nat (List.length l) in
  firstn (Z.to_nat (clip n b - clip n a)) (skipn (Z.to_nat (clip n a)) l).

(** The two attributes [_get_scrolling_text] keeps. *)
Record Scroller := {
  _scroll_pos : Z;
  _scroll_timer : float
}.

Definition _scroll_speed : float := 0.5.

Section Scrolling.

(** The characters of a string, and the space. *)
Variable A : Type.
Variable space : A.

(** [text + "   "], one period of the marquee. *)
Definition marquee (text : list A) : list A := text ++ [space; space; space].

(** [_get_scrolling_text]; [now] is [time.time()]. *)
Definition _get_scrolling_text (sc : Scroller) (now : float)
    (text : list A) (max_width : Z) : Scroller * list A :=
  if Z.of_nat (List.length text) <=? max_width then (sc, text)
  else
    let sc :=
      if Py.ge (PrimFloat.sub now (_scroll_timer sc)) _scroll_speed
      then {| _scroll_pos :=
                (_scroll_pos sc + 1) mod (Z.of_nat (List.length text) + 3);
              _scroll_timer := now |}
      else sc in
    let extended_text := text ++ [space; space; space] ++ text in
    let start_pos :=
      _scroll_pos sc mod Z.of_nat (List.length extended_text) in
    let visible_text :=
      slice extended_text start_pos (start_pos + max_width) in
    let visible_text :=
      if Z.of_nat (List.length visible_text) <? max_width
      then visible_text
           ++ slice extended_text 0
                (max_width - Z.of_nat (List.length visible_text))
      else visible_text in
    (sc, visible_text).

End Scrolling.

(** *** The language line of wifi_config.txt

    A Python [str] is the list of its code points. *)

(** The line boundaries of [str.splitlines]: LF, CR, VT, FF, FS, GS, RS,
    NEL, LINE SEPARATOR and PARAGRAPH SEPARATOR. *)
Definition is_linebreak (c : Z) : bool :=
  (c =? 10) || (c =? 13) || (c =? 11) || (c =? 12) || (c =? 28)
  || (c =? 29) || (c =? 30) || (c =? 133) || (c =? 8232) || (c =? 8233).

(** [str.splitlines()]: the text is cut after each boundary, CR LF counting
    as one; the boundaries are dropped, and a boundary at the very end opens
    no further line.  [after_cr] says that the character before was a CR. *)
Fixpoint splitlines_from (after_cr : bool) (s : list Z) : list (list Z) :=
  match s with
  | [] => []
  | c :: rest =>
      if after_cr && (c =? 10) then splitlines_from false rest
      else if is_linebreak c then [] :: splitlines_from (c =? 13) rest
      else
        match splitlines_from false rest with
        | [] => [[c]]
        | l :: ls => (c :: l) :: ls
        end
  end.

Definition splitlines (s : list Z) : list (list Z) := splitlines_from false s.

(** What text-mode reading ([newline=None]) makes of the decoded file: CR LF
    and a lone CR come out as LF. *)
Fixpoint universal_newlines (after_cr : bool) (s : list Z) : list Z :=
  match s with
  | [] => []
  | c :: rest =>
      if after_cr && (c =? 10) then universal_newlines false rest
      else if c =? 13 then 10 :: universal_newlines true rest
      else c :: universal_newlines false rest
  end.

(** ["\n".join(lines)] *)
Fixpoint join (lines : list (list Z)) : list Z :=
  match lines with
  | [] => []
  | l :: rest =>
      match rest with
      | [] => l
      | _ :: _ => l ++ 10 :: join rest
      end
  end.

(** [wifi_config.txt] as [_persist_language_to_wifi_config] finds it: not
    there, there but raising when read (unreadable, or not UTF-8), or there
    with a text. *)
Inductive ConfigFile :=
| Missing
| Unreadable
| Holding (text : list Z).

(** [_persist_language_to_wifi_config]: the text written to
    [wifi_config.txt], [None] when nothing is written (no file, or an
    exception before the write).  The write itself is taken to go through,
    on a system whose line separator is LF. *)
Definition _persist_language_to_wifi_config (config : ConfigFile)
    (lang_code : list Z) : option (list Z) :=
  match config with
  | Missing => None
  | Unreadable => None
  | Holding text =>
      let lines := splitlines (universal_newlines false text) in
      let lines := lines ++ repeat [] (4 - List.length lines) in
      let lines := firstn 3 lines ++ lang_code :: skipn 4 lines in
      Some (join lines ++ [10])
  end.

(** A text of whole lines, each ended by LF, and a line that holds no
    boundary of [splitlines]. *)
Definition unlines (ls : list (list Z)) : list Z :=
  flat_map (fun l => l ++ [10]) ls.

Definition one_line (l : list Z) : bool :=
  forallb (fun c => negb (is_linebreak c)) l.

(** The code points of an ASCII string. *)
Definition code_points (s : string) : list Z :=
  map (fun a => Z.of_N (Ascii.N_of_ascii a)) (list_ascii_of_string s).

(** The files a reset can see, each there or not. *)
Record Files := {
  wifi_config : bool;
  otp_secret : bool;
  otp_qr : bool;
  user_settings : bool
}.

(** What the system does during a reset: which [unlink] and which
    [subprocess.run] raise. *)
Record Faults := {
  unlink_wifi_raises : bool;
  unlink_secret_raises : bool;
  unlink_qr_raises : bool;
  sync_raises : bool;
  reboot_raises : bool;
  reboot_f_raises : bool
}.

Inductive Command := Sync | Reboot | RebootForce | Sysrq.

(** Lines 510-517 *)
Definition reset_wifi (which : ResetAction) (fs : Files) (ft : Faults)
  : Files * list string :=
  match which with
  | WIFI | BOTH =>
      if wifi_config fs then
        if unlink_wifi_raises ft then (fs, [])
        else ({| wifi_config := false; otp_secret := otp_secret fs;
                 otp_qr := otp_qr fs; user_settings := user_settings fs |},
              ["wifi_config.txt"%string])
      else (fs, [])
  | _ => (fs, [])
  end.

(** Lines 519-534: one [try] around both deletions. *)
Definition reset_qr (which : ResetAction) (fs : Files) (ft : Faults)
  : Files * list string :=
  match which with
  | QR | BOTH =>
      let first :=
        if otp_secret fs then
          if unlink_secret_raises ft then None
          else Some ({| wifi_config := wifi_config fs; otp_secret := false;
                        otp_qr := otp_qr fs;
                        user_settings := user_settings fs |},
                     ["otp_secret.txt"%string])
        else Some (fs, []) in
      match first with
      | None => (fs, [])
      | Some (fs1, deleted) =>
          if otp_qr fs1 then
            if unlink_qr_raises ft then (fs1, deleted)
            else ({| wifi_config := wifi_config fs1;
                     otp_secret := otp_secret fs1; otp_qr := false;
                     user_settings := user_settings fs1 |},
                  deleted ++ ["otp_qr.png"%string])
          else (fs1, deleted)
      end
  | _ => (fs, [])
  end.

(** Lines 562-578: the commands tried, in order. *)
Definition reboot_commands (ft : Faults) : list Command :=
  let forced :=
    if reboot_f_raises ft then [RebootForce; Sysrq] else [RebootForce] in
  if sync_raises ft then Sync :: forced
  else if reboot_raises ft then Sync :: Reboot :: forced
  else [Sync; Reboot].

(** [perform_reset], without the two displays: the files after, the names
    in [files_deleted], the commands tried. *)
Definition perform_reset (which : ResetAction) (fs : Files) (ft : Faults)
  : Files * list string * list Command :=
  let '(fs1, d1) := reset_wifi which fs ft in
  let '(fs2, d2) := reset_qr which fs1 ft in
  (fs2, d1 ++ d2, reboot_commands ft).

(** What [json.load] gives back of what [_save_settings] wrote. *)
Definition reload (st : Settings) : Saved :=
  {| sv_hue := Some (s_hue st); sv_brightness := Some (s_brightness st);
     sv_language := Some (s_language st) |}.

(** A frame with an encoder whose burst saw no press: it clears
    [_btn_was_pressed]. *)
Definition button_up (h : Frame) : bool :=
  match encoder h with
  | Some enc => negb (snd (read_inputs_safer enc))
  | None => false
  end.

(** On Confirm, the run so far splits at the frame [g] that came in from the
    reset menu on a press: the last screen change is its clock, the pending
    action is the one it chose, and [_btn_was_pressed] is clear again only
    when a later frame saw the button up. *)
Definition entered_by (u0 : UI) (past : list Frame) (u : UI) : Prop :=
  screen u = 5 ->
  exists (pre : list Frame) (g : Frame) (post : list Frame) (ug ug' : UI)
         (outs : list Out) (og : Out),
    past = pre ++ g :: post
    /\ frames u0 pre = Some (ug, outs)
    /\ handle ug g = Some (ug', og)
    /\ screen ug = 4 /\ screen ug' = 5
    /\ snd (inputs g) = true
    /\ _last_screen_change u = now g
    /\ confirm_for u = confirm_for ug'
    /\ (_btn_was_pressed u = false -> existsb button_up post = true).


(** The four settings a rotation can change, with the menu selection. *)
Definition settings (u : UI) : float * Z * Z * string * Z :=
  (hue u, user_pct u, _lang_idx u, language u, selection u).

(** *** Concrete runs *)

(** A frame at clock [t] that finds no encoder. *)
Definition bare (t : float) : Frame :=
  {| encoder := None; now := t; now_wake := t; now_save := t; wall := t;
     save_ok := true |}.

(** Confirm is reached at [t = 5]; then the encoder is gone. *)
Definition left_alone : list Frame := [bare 6; bare 16; bare 17].

(** A run that changes the hue and then idles past the autosave delay, and
    the record its last frame writes. *)
Definition saving_run : list Frame :=
  to_color ++ [at_time 2 1 false; at_time 3 1 false; at_time 3.5 0 false].

Definition saving_frame : Frame := at_time 4 0 false.

Definition written : Settings :=
  match out_saved (snd (result (after saving_run) saving_frame)) with
  | Some st => st
  | None => {| s_hue := 0; s_brightness := 0; s_language := EmptyString;
               s_saved_at := 0 |}
  end.

(** A file with a form feed in the password, as the set-up page writes it,
    and the same file with plain credentials. *)
Definition form_feed_config : list Z :=
  code_points "MyNet" ++ [10] ++ code_points "pass" ++ [12]
  ++ code_points "word" ++ [10] ++ code_points "US" ++ [10]
  ++ code_points "en" ++ [10].

Definition plain_config : list (list Z) :=
  [code_points "MyNet"; code_points "password"; code_points "US";
   code_points "en"].

End OledParts.

(** ** encoder.py: the pin classes, [close], and the encoder under the
    burst reader of oled_ui.py *)

Module EncoderParts.
Import Encoder.

Definition set_stop (v : bool) (s : Sampler) : Sampler :=
  {| _ok := _ok s; has_sw := has_sw s; _stop := v; alive := alive s;
     in_release_wait := in_release_wait s;
     consecutive_errors := consecutive_errors s; _state := _state s;
     _accum := _accum s; _steps := _steps s; _press_latch := _press_latch s;
     _btn_last := _btn_last s; _btn_last_change := _btn_last_change s |}.

(** [close] / [_cleanup], as far as the sampler goes: [self._stop = True]. *)
Definition close (s : Sampler) : Sampler := set_stop true s.

(** The classes a pin can have. *)
Inductive Backend := Lgpio | PeriphCdev | PeriphSysfs | Dummy.

(** [pin.read()] for a pin of class [k], given what the library call under
    it does ([None]: it raises).  [_LgpioPin.read] answers 1 when
    [gpio_read] raises; the periphery pins let the exception through;
    [_DummyPin] inherits [_PinBase.read], which is 1. *)
Definition read (k : Backend) (raw : option bool) : option bool :=
  match k with
  | Lgpio => Some (match raw with Some lvl => lvl | None => true end)
  | PeriphCdev | PeriphSysfs => raw
  | Dummy => Some true
  end.

(** [order] in [_make_pin], from [OTPI_GPIO_BACKEND] lowered and stripped. *)
Definition order (force : string) : list Backend :=
  if String.eqb force "lgpio" then [Lgpio]
  else if existsb (String.eqb force)
            ["periphery_cdev"; "periphery-cdev"; "cdev"]%string
  then [PeriphCdev]
  else if existsb (String.eqb force)
            ["periphery_sysfs"; "periphery-sysfs"; "sysfs"]%string
  then [PeriphSysfs]
  else [Lgpio; PeriphCdev; PeriphSysfs].

(** [_make_pin]: the first class of [order] whose constructor does not
    raise, and [_DummyPin] when there is none. *)
Definition _make_pin (force : string) (constructs : Backend -> bool)
  : Backend :=
  match find constructs (order force) with
  | Some k => k
  | None => Dummy
  end.

(** The three pins of an [Encoder]; [sw] is [None] without a button pin. *)
Record Pins := {
  clk : Backend;
  dt : Backend;
  sw : option Backend
}.

(** What one turn of [_poll_loop] reads through [p], from what the library
    calls under the three pins do. *)
Definition reads_of (p : Pins) (a b s : option bool) (t : float) : Reads :=
  {| rd_quad :=
       match read (clk p) a, read (dt p) b with
       | Some x, Some y => Some (x, y)
       | _, _ => None
       end;
     rd_sw :=
       match sw p with
       | Some k => read k s
       | None => None
       end;
     rd_now := t |}.

(** What the thread and the consumer do, before the pins are read. *)
Inductive action :=
| Turn (a b s : option bool) (t : float)
| AskSteps
| AskPressed.

Definition on_pins (p : Pins) (x : action) : event :=
  match x with
  | Turn a b s t => Poll (reads_of p a b s t)
  | AskSteps => CallSteps
  | AskPressed => CallPressed
  end.

(** [__init__] on the pins [p]: the first readings go through the pins too,
    and a raising one lands in the [except], which leaves [_ok] false
    ([None] here). *)
Definition start (e : Env) (p : Pins) (a b s : option bool) (now : float)
  : option Sampler :=
  match read (clk p) a, read (dt p) b with
  | Some x, Some y =>
      match sw p with
      | Some k =>
          match read k s with
          | Some z => Some (init e true x y z now)
          | None => None
          end
      | None => Some (init e false x y true now)
      end
  | _, _ => None
  end.

(** The button reads as down on every turn of [evs]. *)
Definition down (e : Env) (ev : event) : bool :=
  match ev with
  | Poll r =>
      match rd_sw r with
      | Some lvl => is_active e lvl
      | None => false
      end
  | _ => true
  end.

(** Every turn of [evs] gets its two quadrature levels. *)
Definition quad_ok (ev : event) : bool :=
  match ev with
  | Poll r => match rd_quad r with Some _ => true | None => false end
  | _ => true
  end.

(** The number of turns among [evs]. *)
Fixpoint turns_in (evs : list event) : nat :=
  match evs with
  | [] => 0
  | Poll _ :: rest => S (turns_in rest)
  | _ :: rest => turns_in rest
  end.

(** The thread-owned fields that the consumer's calls leave alone. *)
Definition tview (s : Sampler) : Z * Z * Z * bool * float :=
  (consecutive_errors s, _state s, _accum s, _btn_last s,
   _btn_last_change s).

(** [_read_inputs_safer] against an [Encoder]: each of its samples calls
    [steps()] and then [pressed()]; the thread takes the turns [fst g]
    before the first call and [snd g] between the two. *)
Fixpoint burst (e : Env) (s : Sampler)
    (gaps : list (list Reads * list Reads))
  : Sampler * list (option Z * option bool) :=
  match gaps with
  | [] => (s, [])
  | g :: rest =>
      let s1 := fst (run e s (map Poll (fst g))) in
      let '(n, s2) := steps s1 in
      let s3 := fst (run e s2 (map Poll (snd g))) in
      let '(b, s4) := pressed s3 in
      let '(s5, l) := burst e s4 rest in
      (s5, (Some n, Some b) :: l)
  end.

(** The same burst as a sequence of events. *)
Definition burst_events (gaps : list (list Reads * list Reads))
  : list event :=
  flat_map (fun g => map Poll (fst g) ++ [CallSteps]
                     ++ map Poll (snd g) ++ [CallPressed]) gaps.

(** The class attributes of [_LgpioPin]: the chip handle and the set of
    claimed lines. *)
Record Registry := {
  _chip : option Z;
  _claimed_pins : list Z
}.

(** The calls into [lgpio], with what came of them ([None], [false]: the
    call raised). *)
Inductive Call :=
| GpiochipOpen (handle : option Z)
| GpioClaimInput (handle line : Z) (ok : bool)
| GpioFree (handle line : Z) (ok : bool).

Definition is_claimed (line : Z) (r : Registry) : bool :=
  existsb (Z.eqb line) (_claimed_pins r).

(** [_LgpioPin.__init__]: the registry after, the calls made, and whether a
    pin came out of it ([false]: [RuntimeError]). *)
Definition lgpio_new (line : Z) (opened : option Z) (claim_ok : bool)
    (r : Registry) : Registry * list Call * bool :=
  if is_claimed line r then (r, [], false)
  else
    let claim (h : Z) (calls : list Call) :=
      if claim_ok
      then ({| _chip := Some h; _claimed_pins := line :: _claimed_pins r |},
            calls ++ [GpioClaimInput h line true], true)
      else ({| _chip := Some h; _claimed_pins := _claimed_pins r |},
            calls ++ [GpioClaimInput h line false], false) in
    match _chip r with
    | Some h => claim h []
    | None =>
        match opened with
        | Some h => claim h [GpiochipOpen (Some h)]
        | None => (r, [GpiochipOpen None], false)
        end
    end.

(** [_LgpioPin.close] of a pin on [line].  ([gpio_free] on no chip raises
    before anything is freed.) *)
Definition lgpio_close (line : Z) (free_ok : bool) (r : Registry)
  : Registry * list Call :=
  if is_claimed line r then
    match _chip r with
    | Some h =>
        if free_ok
        then ({| _chip := _chip r;
                 _claimed_pins :=
                   filter (fun l => negb (l =? line)) (_claimed_pins r) |},
              [GpioFree h line true])
        else (r, [GpioFree h line false])
    | None => (r, [])
    end
  else (r, []).

(** [_LgpioPin.cleanup_all]: [cls._lg] is an attribute of the instances, not
    of the class, so both [cls._lg.gpio_free] and [cls._lg.gpiochip_close]
    raise [AttributeError] before any call, inside a [try] that passes. *)
Definition cleanup_all (r : Registry) : Registry * list Call :=
  match _chip r with
  | Some _ => ({| _chip := None; _claimed_pins := [] |}, [])
  | None => (r, [])
  end.

Inductive Op :=
| New (line : Z) (opened : option Z) (claim_ok : bool)
| Close (line : Z) (free_ok : bool)
| CleanupAll.

Definition apply_op (st : Registry * list Call) (op : Op)
  : Registry * list Call :=
  let '(r, log) := st in
  match op with
  | New line opened claim_ok =>
      let '(r', calls, _) := lgpio_new line opened claim_ok r in
      (r', log ++ calls)
  | Close line free_ok =>
      let '(r', calls) := lgpio_close line free_ok r in (r', log ++ calls)
  | CleanupAll =>
      let '(r', calls) := cleanup_all r in (r', log ++ calls)
  end.

(** The classes as the module leaves them, and a run of operations. *)
Definition unused : Registry * list Call :=
  ({| _chip := None; _claimed_pins := [] |}, []).

Definition run_ops (ops : list Op) : Registry * list Call :=
  fold_left apply_op ops unused.

(** The lines the library holds after the calls of a log: claimed, and not
    freed since. *)
Definition holds_step (acc : list Z) (c : Call) : list Z :=
  match c with
  | GpioClaimInput _ line true => line :: acc
  | GpioFree _ line true => filter (fun l => negb (l =? line)) acc
  | _ => acc
  end.

Definition library_holds (log : list Call) : list Z := fold_left holds_step log [].

Definition is_cleanup (op : Op) : bool :=
  match op with CleanupAll => true | _ => false end.

(** The registry is sound: no line twice, a chip handle whenever a line is
    claimed, and no line claimed that the library does not hold. *)
Definition tracked (st : Registry * list Call) : Prop :=
  NoDup (_claimed_pins (fst st))
  /\ (_claimed_pins (fst st) <> [] -> _chip (fst st) <> None)
  /\ (forall l, In l (_claimed_pins (fst st)) -> In l (library_holds (snd st))).

(** A thread that is running and will stay so as long as the quadrature
    reads succeed. *)
Definition running (s : Sampler) : Prop :=
  alive s = true /\ _stop s = false
  /\ consecutive_errors s <= max_errors
  /\ (in_release_wait s = true -> consecutive_errors s < max_errors).

(** The turns a thread that has been told to stop still takes. *)
Definition turns_left (s : Sampler) : nat :=
  if alive s then if in_release_wait s then 2 else 1 else 0.

(** The encoder as the dummy pins keep it: both lines high, nothing
    counted, and with an active-low button nothing latched. *)
Definition quiet (e : Env) (s : Sampler) : Prop :=
  _state s = 3 /\ _accum s = 0 /\ _steps s = 0
  /\ (BTN_ACTIVE_LOW e = true ->
      _press_latch s = false /\ in_release_wait s = false
      /\ _btn_last s = true).

(** *** Concrete runs *)

(** A button pin whose every read raises, on quadrature lines at rest. *)
Definition dead_button (t : float) : event :=
  Poll {| rd_quad := Some (true, true); rd_sw := None; rd_now := t |}.

Definition twelve_button_failures : list event :=
  map dead_button [1; 2; 3; 4; 5; 6; 7; 8; 9; 10; 11; 12]%float.

(** A latched press, the button still down. *)
Definition held : Sampler :=
  set_release_wait true (set_latch true (set_btn false 0 at_rest)).

(** Four Gray-code transitions with the button down. *)
Definition turn_while_held : list event :=
  [reading true false false 1; reading false false false 2;
   reading false true false 3; reading true true false 4].

(** One detent, read by a burst whose thread turns fall between the calls. *)
Definition one_burst : list (list Reads * list Reads) :=
  [([{| rd_quad := Some (true, false); rd_sw := Some true; rd_now := 1 |};
     {| rd_quad := Some (false, false); rd_sw := Some true; rd_now := 2 |}],
    [{| rd_quad := Some (false, true); rd_sw := Some true; rd_now := 3 |}]);
   ([{| rd_quad := Some (true, true); rd_sw := Some true; rd_now := 4 |}],
    []);
   ([], []); ([], []); ([], [])].

End EncoderParts.

(** ** led_display.py: the seven-segment mapping and [_draw_digits] *)

Module LedDisplay.
Import Ascii.

Definition NUM_DIGITS : Z := 6.
Definition LEDS_PER_DIGIT : Z := 21.
Definition TIMER_LED_COUNT : Z := 25.

(** [SEGMENT_MAP.get(ch, [])] *)
Definition _segments_for_digit_char (ch : ascii) : list ascii :=
  (if Ascii.eqb ch "0" then ["A"; "B"; "C"; "E"; "F"; "G"]
   else if Ascii.eqb ch "1" then ["A"; "B"]
   else if Ascii.eqb ch "2" then ["G"; "A"; "D"; "E"; "C"]
   else if Ascii.eqb ch "3" then ["G"; "A"; "D"; "B"; "C"]
   else if Ascii.eqb ch "4" then ["F"; "D"; "A"; "B"]
   else if Ascii.eqb ch "5" then ["G"; "F"; "D"; "B"; "C"]
   else if Ascii.eqb ch "6" then ["G"; "F"; "E"; "D"; "C"; "B"]
   else if Ascii.eqb ch "7" then ["G"; "A"; "B"]
   else if Ascii.eqb ch "8" then ["A"; "B"; "C"; "D"; "E"; "F"; "G"]
   else if Ascii.eqb ch "9" then ["G"; "F"; "D"; "A"; "B"; "C"]
   else [])%char.

(** [SEGMENT_TO_LEDS.get(seg, [])]: per-digit indices, from 1. *)
Definition SEGMENT_TO_LEDS (seg : ascii) : list Z :=
  (if Ascii.eqb seg "A" then [1; 2; 3]
   else if Ascii.eqb seg "B" then [4; 5; 6]
   else if Ascii.eqb seg "C" then [7; 8; 9]
   else if Ascii.eqb seg "D" then [10; 11; 12]
   else if Ascii.eqb seg "E" then [13; 14; 15]
   else if Ascii.eqb seg "F" then [16; 17; 18]
   else if Ascii.eqb seg "G" then [19; 20; 21]
   else [])%char.

Definition _digit_base (digit_index : Z) : Z := digit_index * LEDS_PER_DIGIT.

Definition _local_to_phys (digit_index local_led_1based : Z) : Z :=
  _digit_base digit_index + (local_led_1based - 1).

Definition _leds_for_segments (digit_index : Z) (segments : list ascii)
  : list Z :=
  flat_map (fun seg => map (_local_to_phys digit_index) (SEGMENT_TO_LEDS seg))
    segments.

(** [range(n)] *)
Definition range (n : Z) : list Z := map Z.of_nat (seq 0 (Z.to_nat n)).

(** [_timer_range()] *)
Definition _timer_range : list Z :=
  map (fun i => NUM_DIGITS * LEDS_PER_DIGIT + i) (range TIMER_LED_COUNT).

(** A pixel, and the buffer of a [_Strip]: [self.n] is its length. *)
Definition Pixel : Type := Z * Z * Z.
Definition Strip : Type := list Pixel.

(** [int(max(0, min(255, c)))] on each channel *)
Definition clamped (rgb : Pixel) : Pixel :=
  let '(r, g, b) := rgb in
  (Z.max 0 (Z.min 255 r), Z.max 0 (Z.min 255 g), Z.max 0 (Z.min 255 b)).

(** [buf[n] = x] for [n] within the buffer *)
Fixpoint put {A : Type} (n : nat) (x : A) (l : list A) : list A :=
  match l, n with
  | [], _ => []
  | _ :: t, O => x :: t
  | h :: t, S k => h :: put k x t
  end.

(** [_Strip.set] *)
Definition set (i : Z) (rgb : Pixel) (s : Strip) : Strip :=
  if (0 <=? i) && (i <? Z.of_nat (List.length s))
  then put (Z.to_nat i) (clamped rgb) s
  else s.

(** [code6[d] if d < len(code6) else ' '] *)
Definition char_at (code6 : list ascii) (d : Z) : ascii :=
  if d <? Z.of_nat (List.length code6)
  then nth (Z.to_nat d) code6 " "%char
  else " "%char.

(** [_draw_digits] *)
Definition _draw_digits (strip : Strip) (code6 : list ascii)
    (color_on color_off : Pixel) : Strip :=
  let cleared :=
    fold_left (fun s i => set i color_off s)
      (range (NUM_DIGITS * LEDS_PER_DIGIT)) strip in
  fold_left
    (fun s d =>
       let segs := _segments_for_digit_char (char_at code6 d) in
       fold_left (fun s idx => set idx color_on s)
         (_leds_for_segments d segs) s)
    (range NUM_DIGITS) cleared.

(** The segment a pixel of a digit belongs to, by its place in the digit's
    block of 21, and whether [code6] lights pixel [i]. *)
Definition segment_at (local : Z) : ascii :=
  nth (Z.to_nat (local / 3)) ["A"; "B"; "C"; "D"; "E"; "F"; "G"]%char
    " "%char.

Definition lit (code6 : list ascii) (i : Z) : bool :=
  existsb (Ascii.eqb (segment_at (i mod LEDS_PER_DIGIT)))
    (_segments_for_digit_char (char_at code6 (i / LEDS_PER_DIGIT))).

Definition is_digit (ch : ascii) : bool :=
  existsb (Ascii.eqb ch)
    ["0"; "1"; "2"; "3"; "4"; "5"; "6"; "7"; "8"; "9"]%char.

(** Which of the seven segments a character lights. *)
Definition signature (ch : ascii) : list bool :=
  map (fun seg => existsb (Ascii.eqb seg) (_segments_for_digit_char ch))
    ["A"; "B"; "C"; "D"; "E"; "F"; "G"]%char.

End LedDisplay.

(** ** main.py: [load_user_settings] *)

Module Main.
Import OledUI.
Import OledParts.

(** A key of [user_settings.json] as [load_user_settings] meets it: not
    there, there with a value [float()] takes, or there with one it
    refuses. *)
Inductive Entry := Absent | Value (x : float) | Bad.

Record UserSettings := {
  brightness : float;
  hue : float
}.

Definition default_settings : UserSettings :=
  {| brightness := 0.50; hue := 0.33 |}.

(** [max(0.0, min(1.0, x))] *)
Definition unit_clamp (x : float) : float := Py.max 0 (py_min 1 x).

(** [load_user_settings]; [None]: no file, or one [json.load] refuses. *)
Definition load_user_settings (file : option (Entry * Entry))
  : UserSettings :=
  match file with
  | Some (saved_hue, saved_brightness) =>
      match saved_hue, saved_brightness with
      | Bad, _ | _, Bad => default_settings
      | _, _ =>
          {| hue := match saved_hue with
                    | Value x => unit_clamp x
                    | _ => hue default_settings
                    end;
             brightness := match saved_brightness with
                           | Value x => unit_clamp x
                           | _ => brightness default_settings
                           end |}
      end
  | None => default_settings
  end.

(** The file as [_save_settings] of oled_ui.py leaves it: the hue, and the
    brightness as an integer percentage, which [float()] converts. *)
Definition read_back (st : Settings) : option (Entry * Entry) :=
  Some (Value (s_hue st),
        match Py.float_of_int (s_brightness st) with
        | Some k => Value k
        | None => Bad
        end).

Import Encoder.
Import EncoderParts.

(** One pass of the loop of [run_language_picker]: the turns the encoder's
    thread takes before the two calls, and whether drawing raises. *)
Record Pass := {
  before : list (option bool * option bool * option bool * float);
  draw_raises : bool
}.

(** The turns of a thread on the pins [p]. *)
Definition turns (p : Pins)
    (raw : list (option bool * option bool * option bool * float))
  : list event :=
  map Poll (map (fun '(a, b, l, t) => reads_of p a b l t) raw).

(** Where the picker stands: still in its loop, at [idx]; returned, with a
    language code; or left through the [IndexError] of [codes[idx]]. *)
Inductive Picked :=
| Running (idx : Z)
| Chose (code : string)
| Raised.

(** [chosen = codes[idx]] after the loop *)
Definition chosen (codes : list string) (idx : Z) : Picked :=
  match Py.index codes idx with
  | Some code => Chose code
  | None => Raised
  end.

(** The loop on an encoder with the pins [p]; it starts at [idx = 0] with
    [btn_was_pressed] false.  An exception in the loop (the modulus by the
    length of an empty list, an index off the list, the drawing) ends it. *)
Fixpoint picking (e : Env) (p : Pins) (codes : list string) (s : Sampler)
    (idx : Z) (btn_was_pressed : bool) (passes : list Pass) : Picked :=
  match passes with
  | [] => Running idx
  | pass :: rest =>
      let n := Z.of_nat (List.length codes) in
      let s1 := fst (run e s (turns p (before pass))) in
      let '(step, s2) := steps s1 in
      let '(raw_press, s3) := pressed s2 in
      if negb (step =? 0) && (n =? 0) then chosen codes idx
      else
        let idx := if negb (step =? 0) then (idx + step) mod n else idx in
        let confirmed := raw_press && negb btn_was_pressed in
        match Py.index codes idx with
        | None => chosen codes idx
        | Some _ =>
            if draw_raises pass then chosen codes idx
            else if confirmed then chosen codes idx
            else picking e p codes s3 idx raw_press rest
        end
  end.

(** The calls of the passes, as the encoder sees them. *)
Definition picker_events (p : Pins) (passes : list Pass) : list event :=
  flat_map (fun pass => turns p (before pass) ++ [CallSteps; CallPressed])
    passes.

(** *** Concrete runs *)

(** A detent forward, then a press held past the debounce window. *)
Definition two_passes : list Pass :=
  [{| before := [(Some false, Some true, Some true, 0%float);
                 (Some false, Some false, Some true, 0%float);
                 (Some true, Some false, Some true, 0%float);
                 (Some true, Some true, Some true, 0%float)];
      draw_raises := false |};
   {| before := [(Some true, Some true, Some false, 1%float);
                 (Some true, Some true, Some false, 1.006%float)];
      draw_raises := false |}].

Definition lgpio_pins : Pins :=
  {| clk := Lgpio; dt := Lgpio; sw := Some Lgpio |}.

End Main.

(** * Properties of encoder.py *)

Import Encoder.

(** ** Draining reads *)

(** C4: [steps()] hands out the pending detents and leaves the counter at
    zero; [pressed()] hands out the latch and leaves it cleared.  Called
    twice in a row, the second call of either answers [0] / [False], in every
    state of the encoder (one whose [__init__] failed answers [0] / [False]
    at once). *)
Theorem drain_read_twice (s : Sampler) :
  fst (steps s) = (if _ok s then _steps s else 0)
  /\ snd (steps s)
     = set_quad (_state s) (_accum s) (if _ok s then 0 else _steps s) s
  /\ fst (steps (snd (steps s))) = 0
  /\ fst (pressed s) = _ok s && has_sw s && _press_latch s
  /\ snd (pressed s)
     = set_latch (if _ok s && has_sw s then false else _press_latch s) s
  /\ fst (pressed (snd (pressed s))) = false.
Proof.
  destruct s as [ok sw stop al wait ce st acc stp latch bl blc].
  unfold steps, pressed; simpl.
  destruct ok, sw, latch; simpl; repeat split; reflexivity.
Qed.

(** ** Quadrature decoding *)

Lemma PPR_pos (e : Env) : 1 <= PPR e.
Proof. unfold PPR; lia. Qed.

Lemma delta_of_range (prev q : Z) : -1 <= delta_of prev q <= 1.
Proof.
  unfold delta_of.
  set (i := Z.land (Z.lor (Z.shiftl prev 2) q) 15).
  assert (Hi : 0 <= i < 16).
  { subst i. change 15 with (Z.ones 4). rewrite Z.land_ones by lia.
    apply Z.mod_pos_bound; lia. }
  assert (H : i = 0 \/ i = 1 \/ i = 2 \/ i = 3 \/ i = 4 \/ i = 5 \/ i = 6
              \/ i = 7 \/ i = 8 \/ i = 9 \/ i = 10 \/ i = 11 \/ i = 12
              \/ i = 13 \/ i = 14 \/ i = 15) by lia.
  repeat (destruct H as [H|H]); rewrite H; vm_compute; split; discriminate.
Qed.

(** A step between two level pairs counts when exactly one line changed. *)
Lemma gray_adjacent (a b a' b' : bool) :
  Z.abs (delta_of (pack a b) (pack a' b'))
  = Z.b2z (xorb (xorb a a') (xorb b b')).
Proof. destruct a, b, a', b'; reflexivity. Qed.

Lemma poll_qview (e : Env) (s : Sampler) (r : Reads) :
  _ok (poll e s r) = _ok s
  /\ qview (poll e s r)
     = if reads_quad s
       then match rd_quad r with
            | Some (a, b) => qview (decode e s a b)
            | None => qview s
            end
       else qview s.
Proof.
  destruct s as [ok sw stop al wait ce st acc stp latch bl blc].
  destruct r as [[[a b]|] rs t];
    unfold poll, reads_quad, release_wait, quad_section, button_section,
      note_error, decode, qview; simpl;
    destruct al, wait, stop; simpl; try (split; reflexivity);
    repeat match goal with
           | |- context [if ?c then _ else _] => destruct c; simpl
           | |- context [match ?c with Some _ => _ | None => _ end] =>
               destruct c; simpl
           end;
    split; reflexivity.
Qed.

Lemma decode_account (e : Env) (s : Sampler) (a b : bool) :
  let s' := decode e s a b in
  let d := delta_of (_state s) (pack a b) in
  _state s' = pack a b
  /\ _steps s' * PPR e + _accum s' = _steps s * PPR e + _accum s + d
  /\ (Z.abs (_accum s) < PPR e -> Z.abs (_accum s') < PPR e)
  /\ (0 <= _accum s -> 0 <= d -> 0 <= _accum s')
  /\ (_accum s <= 0 -> d <= 0 -> _accum s' <= 0).
Proof.
  intros s' d. subst s'. unfold decode. fold d.
  pose proof (PPR_pos e) as HP.
  pose proof (delta_of_range (_state s) (pack a b)) as Hd. fold d in Hd.
  destruct (d =? 0) eqn:E0; simpl.
  - apply Z.eqb_eq in E0. repeat split; lia.
  - set (acc := _accum s + d).
    pose proof (Z.quot_rem' acc (PPR e)) as Hqr.
    assert (Hr : Z.abs (Z.rem acc (PPR e)) < PPR e).
    { pose proof (Z.rem_bound_abs acc (PPR e)). lia. }
    assert (Hsp : 0 <= acc -> 0 <= Z.rem acc (PPR e)).
    { intros. apply Z.rem_nonneg; lia. }
    assert (Hsn : acc <= 0 -> Z.rem acc (PPR e) <= 0).
    { intros. apply Z.rem_nonpos; lia. }
    destruct (Z.quot acc (PPR e) =? 0) eqn:E1; simpl.
    + apply Z.eqb_eq in E1. rewrite E1 in Hqr.
      repeat split; try lia.
    + repeat split; try nia.
Qed.

Lemma run_cons (e : Env) (s : Sampler) (ev : event) (rest : list event) :
  run e s (ev :: rest)
  = (fst (run e (fst (step e s ev)) rest),
     snd (step e s ev) ++ snd (run e (fst (step e s ev)) rest)).
Proof.
  simpl. destruct (step e s ev) as [s1 o1]. simpl.
  destruct (run e s1 rest) as [s2 o2]. reflexivity.
Qed.

Lemma run_app (e : Env) (evs1 evs2 : list event) : forall s,
  run e s (evs1 ++ evs2)
  = (fst (run e (fst (run e s evs1)) evs2),
     snd (run e s evs1) ++ snd (run e (fst (run e s evs1)) evs2)).
Proof.
  induction evs1 as [|ev evs1 IH]; intros s.
  - simpl. destruct (run e s evs2); reflexivity.
  - rewrite <- app_comm_cons, !run_cons, IH. simpl.
    rewrite app_assoc. reflexivity.
Qed.

Lemma drained_app (o1 o2 : list seen) :
  drained (o1 ++ o2) = drained o1 + drained o2.
Proof.
  induction o1 as [|[n|b] o1 IH]; cbn [drained app]; try rewrite IH; lia.
Qed.

Lemma presses_app (o1 o2 : list seen) :
  presses (o1 ++ o2) = presses o1 + presses o2.
Proof.
  induction o1 as [|[n|[|]] o1 IH]; cbn [presses app]; try rewrite IH; lia.
Qed.

Lemma step_qview (e : Env) (s : Sampler) (ev : event) :
  _ok s = true ->
  _ok (fst (step e s ev)) = true
  /\ match ev with
     | Poll r =>
         snd (step e s ev) = []
         /\ qview (fst (step e s ev))
            = if reads_quad s
              then match rd_quad r with
                   | Some (a, b) => qview (decode e s a b)
                   | None => qview s
                   end
              else qview s
     | CallSteps =>
         snd (step e s ev) = [GotSteps (_steps s)]
         /\ qview (fst (step e s ev)) = (_state s, _accum s, 0)
     | CallPressed =>
         drained (snd (step e s ev)) = 0
         /\ qview (fst (step e s ev)) = qview s
     end.
Proof.
  intros Hok. destruct ev as [r| |]; simpl.
  - destruct (poll_qview e s r) as [H1 H2]. rewrite H1. auto.
  - unfold steps. rewrite Hok. simpl. auto.
  - unfold pressed. rewrite Hok. simpl.
    destruct (has_sw s), (_press_latch s); simpl; auto.
Qed.

(** The books of the decoder balance along any interleaving: what was handed
    out and what is pending, in transitions, plus the residue, is what the
    table gave for the pairs polled. *)
Lemma run_account (e : Env) (evs : list event) : forall s,
  _ok s = true -> Z.abs (_accum s) < PPR e ->
  let s' := fst (run e s evs) in
  let ds := deltas (_state s) (polled e s evs) in
  _ok s' = true
  /\ Z.abs (_accum s') < PPR e
  /\ (drained (snd (run e s evs)) + _steps s') * PPR e + _accum s'
     = _steps s * PPR e + _accum s + total ds
  /\ (0 <= _accum s -> Forall (fun d => 0 <= d) ds -> 0 <= _accum s')
  /\ (_accum s <= 0 -> Forall (fun d => d <= 0) ds -> _accum s' <= 0).
Proof.
  induction evs as [|ev rest IH]; intros s Hok Hacc.
  - simpl. repeat split; auto; lia.
  - rewrite run_cons. cbn zeta. cbn [fst snd polled].
    destruct (step_qview e s ev Hok) as [Hok1 Hev].
    set (s1 := fst (step e s ev)) in *.
    destruct ev as [r| |].
    + destruct Hev as [Ho Hq]. rewrite Ho. cbn [app].
      destruct (rd_quad r) as [[a b]|]; destruct (reads_quad s);
        unfold qview in Hq; injection Hq as Hst Hac Hsp;
        assert (Hacc1 : Z.abs (_accum s1) < PPR e)
          by (rewrite Hac; try apply decode_account; auto);
        specialize (IH s1 Hok1 Hacc1); cbn zeta in IH;
        cbn [app];
        try (rewrite Hst, Hac, Hsp in IH; exact IH).
      destruct (decode_account e s a b) as (D1 & D2 & D3 & D4 & D5).
      destruct IH as (I1 & I2 & I3 & I4 & I5).
      cbn [deltas total fold_right].
      fold (total (deltas (pack a b) (polled e s1 rest))).
      rewrite Hst, D1 in *. rewrite Hac, Hsp in *.
      repeat split; auto.
      * lia.
      * intros Hp HF. inversion HF; subst. apply I4; auto.
      * intros Hp HF. inversion HF; subst. apply I5; auto.
    + destruct Hev as [Ho Hq]. rewrite Ho.
      unfold qview in Hq. injection Hq as Hst Hac Hsp.
      assert (Hacc1 : Z.abs (_accum s1) < PPR e) by (rewrite Hac; auto).
      specialize (IH s1 Hok1 Hacc1). cbn zeta in IH.
      cbn [app drained]. rewrite Hst, Hac, Hsp in IH.
      destruct IH as (I1 & I2 & I3 & I4 & I5).
      repeat split; auto. lia.
    + destruct Hev as [Ho Hq].
      unfold qview in Hq. injection Hq as Hst Hac Hsp.
      assert (Hacc1 : Z.abs (_accum s1) < PPR e) by (rewrite Hac; auto).
      specialize (IH s1 Hok1 Hacc1). cbn zeta in IH.
      rewrite drained_app, Ho. cbn [app]. rewrite Hst, Hac, Hsp in IH.
      destruct IH as (I1 & I2 & I3 & I4 & I5).
      repeat split; auto.
Qed.

Lemma total_sign (ds : list Z) :
  (Forall (fun d => 0 <= d) ds -> 0 <= total ds)
  /\ (Forall (fun d => d <= 0) ds -> total ds <= 0).
Proof.
  unfold total. split; induction 1; simpl; lia.
Qed.

(** C2, as the code has it: along any interleaving of polls and reads that
    ends with a read, the detents [D] handed out by [steps()] and the residue
    [r] left in the accumulator satisfy [D * PPR + r = sum of the table's
    deltas] with [|r| < PPR] (every poll moves [trunc(accum / PPR)] detents
    out of the running accumulator).  So [D] is the quotient of the sum by
    [PPR], truncated toward zero, when the deltas all have one sign, and equal
    and opposite sequences cancel: a sum of zero gives [D = 0].  A transition
    between Gray-code neighbours counts [-1] or [+1], any other [0]. *)
Theorem detents_balance (e : Env) (with_btn a b sw : bool) (now : float)
    (evs : list event) :
  let s0 := init e with_btn a b sw now in
  let r := run e s0 (evs ++ [CallSteps]) in
  let ds := deltas (pack a b) (polled e s0 evs) in
  let D := drained (snd r) in
  let res := _accum (fst r) in
  (forall p q p' q' : bool,
      Z.abs (delta_of (pack p q) (pack p' q'))
      = Z.b2z (xorb (xorb p p') (xorb q q')))
  /\ D * PPR e + res = total ds
  /\ Z.abs res < PPR e
  /\ (Forall (fun d => 0 <= d) ds \/ Forall (fun d => d <= 0) ds ->
      D = Z.quot (total ds) (PPR e))
  /\ (total ds = 0 -> D = 0).
Proof.
  cbn zeta. split; [exact gray_adjacent|].
  pose proof (PPR_pos e) as HP.
  set (s0 := init e with_btn a b sw now).
  assert (Hok : _ok s0 = true) by reflexivity.
  assert (Hacc : Z.abs (_accum s0) < PPR e) by (simpl; lia).
  destruct (run_account e evs s0 Hok Hacc) as (I1 & I2 & I3 & I4 & I5).
  cbn zeta in *.
  rewrite run_app. cbn [fst snd run step].
  set (s1 := fst (run e s0 evs)) in *.
  unfold steps. rewrite I1. cbn [negb fst snd app].
  rewrite drained_app. cbn [drained _accum set_quad].
  change (_state s0) with (pack a b) in *.
  change (_steps s0) with 0 in I3. change (_accum s0) with 0 in *.
  set (ds := deltas (pack a b) (polled e s0 evs)) in *.
  rewrite Z.add_0_r. simpl in I3.
  set (D := drained (snd (run e s0 evs)) + _steps s1) in *.
  assert (Hbal : D * PPR e + _accum s1 = total ds) by exact I3.
  repeat split; try assumption.
  - intros [HF|HF].
    + specialize (I4 (Z.le_refl 0) HF).
      pose proof (proj1 (total_sign ds) HF) as Ht.
      rewrite Z.quot_div_nonneg by lia.
      apply Z.div_unique with (r := _accum s1); lia.
    + specialize (I5 (Z.le_refl 0) HF).
      pose proof (proj2 (total_sign ds) HF) as Ht.
      apply Z.opp_inj. rewrite <- Z.quot_opp_l by lia.
      rewrite Z.quot_div_nonneg by lia.
      apply Z.div_unique with (r := - _accum s1); lia.
  - intros H0. nia.
Qed.

Lemma detents_balance_witness :
  let s0 := init default_env true true true true 0 in
  let ds := deltas (pack true true) (polled default_env s0 one_detent) in
  Forall (fun d => 0 <= d) ds
  /\ drained (snd (run default_env s0 (one_detent ++ [CallSteps])))
     = Z.quot (total ds) (PPR default_env).
Proof.
  cbn zeta.
  assert (Hds : deltas (pack true true)
                  (polled default_env (init default_env true true true true 0)
                     one_detent)
                = [1; 1; 1; 1]) by (vm_compute; reflexivity).
  assert (HF : Forall (fun d => 0 <= d)
                 (deltas (pack true true)
                    (polled default_env
                       (init default_env true true true true 0) one_detent))).
  { rewrite Hds. repeat constructor; lia. }
  split; [exact HF|].
  pose proof (detents_balance default_env true true true true 0 one_detent)
    as K.
  cbn zeta in K. destruct K as (_ & _ & _ & K & _).
  exact (K (or_introl HF)).
Defined.

(** C2, as the claim words it, fails once the direction reverses: with
    [PPR = 4], four transitions forward and one back sum to [3], whose
    quotient by [4] is [0], yet [steps()] has handed out the detent that
    became due after the fourth. *)
Lemma reversal_keeps_detent :
  let evs := one_detent ++ [reading true false true 0] in
  deltas (pack true true) (polled default_env at_rest evs) = [1; 1; 1; 1; -1]
  /\ drained (snd (run default_env at_rest (evs ++ [CallSteps]))) = 1
  /\ Z.quot (total (deltas (pack true true) (polled default_env at_rest evs)))
       (PPR default_env) = 0.
Proof. vm_compute. repeat split; reflexivity. Qed.

(** ** The button latch *)

Lemma released_not_active (e : Env) (lvl : bool) :
  is_released e lvl = negb (is_active e lvl).
Proof.
  unfold is_released, is_active. destruct (BTN_ACTIVE_LOW e), lvl; reflexivity.
Qed.

(** In the release wait a poll that still reads the active level changes
    nothing: nothing can latch before the release. *)
Lemma release_wait_blocks (e : Env) (s : Sampler) (r : Reads) (lvl : bool) :
  alive s = true -> in_release_wait s = true -> _stop s = false ->
  rd_sw r = Some lvl -> is_active e lvl = true ->
  poll e s r = s.
Proof.
  intros Ha Hw Hs Hr Hact. unfold poll, release_wait.
  rewrite Ha, Hw, Hs, Hr, released_not_active, Hact. reflexivity.
Qed.







Ltac split_flags H :=
  repeat (let H' := fresh "F" in apply andb_prop in H; destruct H as [H H']);
  repeat match goal with
         | F : negb _ = true |- _ => apply negb_true_iff in F
         end.

Lemma waiting_fields (s : Sampler) :
  waiting s = true ->
  _ok s = true /\ has_sw s = true /\ alive s = true /\ _stop s = false
  /\ in_release_wait s = true.
Proof.
  unfold waiting. intros H. split_flags H. auto.
Qed.








Lemma presses_nonneg (o : list seen) : 0 <= presses o.
Proof.
  induction o as [|[n|[|]] o IH]; cbn [presses]; lia.
Qed.

(** C5: one hold can latch twice.  [hold_with_failed_read] is a single
    hold: no read of the button ever returns the released level.  The read
    that raises while the thread waits for the release leaves the wait
    through the [except] of line 240, with [_btn_last] still at the active
    level and [_btn_last_change] at the start of the hold, so the next turn
    of the outer loop latches again: [pressed()] answers [True] twice for
    the one press, against the "latch once per press" and "wait for release
    before latching again" of lines 230-232. *)
Theorem hold_latches_twice :
  released_idle default_env at_rest = true
  /\ forallb (never_seen_up default_env) hold_with_failed_read = true
  /\ pressed_seen (snd (run default_env at_rest hold_with_failed_read))
     = [true; true].
Proof. vm_compute. repeat split; reflexivity. Qed.






(** ** Soft-disable *)

Lemma poll_dead (e : Env) (s : Sampler) (r : Reads) :
  alive s = false -> poll e s r = s.
Proof. intros H. unfold poll. rewrite H. reflexivity. Qed.

Lemma step_dead (e : Env) (s : Sampler) (ev : event) :
  alive s = false ->
  alive (fst (step e s ev)) = false
  /\ steps_seen (snd (step e s ev))
     = match ev with CallSteps => [pending_steps s] | _ => [] end
  /\ pressed_seen (snd (step e s ev))
     = match ev with CallPressed => [pending_press s] | _ => [] end
  /\ pending_steps (fst (step e s ev))
     = match ev with CallSteps => 0 | _ => pending_steps s end
  /\ pending_press (fst (step e s ev))
     = match ev with CallPressed => false | _ => pending_press s end.
Proof.
  intros H. destruct ev as [r| |]; cbn [step].
  - rewrite poll_dead by assumption. simpl. auto.
  - destruct s as [ok sw stop al wait ce st acc stp latch bl blc].
    simpl in H. subst al. unfold steps, pending_steps, pending_press.
    destruct ok; simpl; auto.
  - destruct s as [ok sw stop al wait ce st acc stp latch bl blc].
    simpl in H. subst al. unfold pressed, pending_steps, pending_press.
    destruct ok, sw, latch; simpl; auto.
Qed.

Lemma steps_seen_app (o1 o2 : list seen) :
  steps_seen (o1 ++ o2) = steps_seen o1 ++ steps_seen o2.
Proof.
  induction o1 as [|[n|b] o1 IH]; cbn [steps_seen app]; congruence.
Qed.

Lemma pressed_seen_app (o1 o2 : list seen) :
  pressed_seen (o1 ++ o2) = pressed_seen o1 ++ pressed_seen o2.
Proof.
  induction o1 as [|[n|b] o1 IH]; cbn [pressed_seen app]; congruence.
Qed.

Lemma head_then_default {A : Type} (d : A) (l : list A) :
  l = match l with [] => [] | _ :: t => d :: map (fun _ => d) t end ->
  l = map (fun _ => d) l.
Proof.
  destruct l as [|x t]; [reflexivity|].
  intros H. injection H as Hx Ht. subst x. simpl. congruence.
Qed.

(** A thread that has left its loop adds nothing: the consumer gets what was
    pending, once, and nothing after. *)
Lemma run_dead (e : Env) (evs : list event) : forall s,
  alive s = false ->
  let o := snd (run e s evs) in
  alive (fst (run e s evs)) = false
  /\ steps_seen o
     = match steps_seen o with
       | [] => []
       | _ :: t => pending_steps s :: map (fun _ => 0) t
       end
  /\ pressed_seen o
     = match pressed_seen o with
       | [] => []
       | _ :: t => pending_press s :: map (fun _ => false) t
       end.
Proof.
  induction evs as [|ev rest IH]; intros s Hd; cbn zeta.
  - simpl. auto.
  - rewrite run_cons. cbn [fst snd].
    destruct (step_dead e s ev Hd) as (D1 & D2 & D3 & D4 & D5).
    destruct (IH _ D1) as (I1 & I2 & I3). cbn zeta in I2, I3.
    rewrite steps_seen_app, pressed_seen_app, D2, D3.
    rewrite D4 in I2. rewrite D5 in I3.
    split; [assumption|].
    destruct ev as [r| |]; cbn [app]; repeat split; try assumption.
    + f_equal. apply head_then_default. assumption.
    + f_equal. apply head_then_default. assumption.
Qed.

Lemma poll_errors (e : Env) (s : Sampler) (r : Reads) :
  consecutive_errors s <= max_errors ->
  (reads_quad s = true -> rd_quad r = None) ->
  alive (poll e s r) = true ->
  consecutive_errors s + (if reads_quad s then 1 else 0)
  <= consecutive_errors (poll e s r) <= max_errors.
Proof.
  destruct s as [ok sw stop al wait ce st acc stp latch bl blc].
  destruct r as [q rs t].
  unfold poll, reads_quad, release_wait, quad_section, button_section,
    note_error, max_errors; simpl.
  intros Hce Hq.
  destruct al; simpl; [|discriminate].
  destruct wait; simpl.
  - destruct stop; simpl; [intros; lia|].
    destruct rs as [lvl|]; simpl.
    + destruct (is_released e lvl); simpl; intros; lia.
    + destruct (10 <? ce + 1) eqn:E; simpl; [discriminate|].
      apply Z.ltb_ge in E. intros; lia.
  - destruct stop; simpl; [discriminate|].
    rewrite (Hq eq_refl). simpl.
    destruct (10 <? ce + 1) eqn:E; simpl; [discriminate|].
    apply Z.ltb_ge in E.
    destruct sw; simpl; [|intros; lia].
    destruct rs as [lvl|]; simpl.
    + destruct (negb (Bool.eqb lvl bl)); simpl; [intros; lia|].
      destruct (is_active e lvl && _); simpl; intros; lia.
    + destruct (10 <? ce + 1 + 1) eqn:E'; simpl; [discriminate|].
      apply Z.ltb_ge in E'. intros; lia.
Qed.

Lemma call_keeps_thread (e : Env) (s : Sampler) (ev : event) :
  match ev with Poll _ => False | _ => True end ->
  consecutive_errors (fst (step e s ev)) = consecutive_errors s.
Proof.
  destruct ev as [r| |]; [contradiction| |]; intros _; cbn [step].
  - unfold steps. destruct (_ok s); reflexivity.
  - unfold pressed.
    destruct (_ok s), (has_sw s), (_press_latch s); reflexivity.
Qed.

(** While no quadrature read succeeds the error counter only grows, by one
    at least for every outer-loop turn whose quadrature read raises, and a
    thread still running has it at [max_errors] at most. *)
Lemma errors_mount (e : Env) (evs : list event) : forall s,
  consecutive_errors s <= max_errors ->
  polled e s evs = [] ->
  alive (fst (run e s evs)) = true ->
  consecutive_errors s + failed_polls e s evs
  <= consecutive_errors (fst (run e s evs)) <= max_errors.
Proof.
  induction evs as [|ev rest IH]; intros s Hce Hp Hal.
  - simpl. lia.
  - rewrite run_cons in *. cbn [fst snd polled failed_polls] in *.
    apply app_eq_nil in Hp. destruct Hp as [Hp1 Hp2].
    assert (Hal1 : alive (fst (step e s ev)) = true).
    { destruct (alive (fst (step e s ev))) eqn:E; [reflexivity|].
      destruct (run_dead e rest _ E) as [D _]. congruence. }
    destruct ev as [r| |].
    + cbn [step fst] in *.
      assert (Hq : reads_quad s = true -> rd_quad r = None).
      { intros Hr. rewrite Hr in Hp1.
        destruct (rd_quad r); [discriminate|reflexivity]. }
      pose proof (poll_errors e s r Hce Hq Hal1) as [E1 E2].
      specialize (IH _ E2 Hp2 Hal).
      destruct (rd_quad r) as [p|].
      * destruct (reads_quad s); [discriminate|]. lia.
      * lia.
    + pose proof (call_keeps_thread e s CallSteps I) as Hk.
      specialize (IH (fst (step e s CallSteps))).
      rewrite Hk in IH. specialize (IH Hce Hp2 Hal). lia.
    + pose proof (call_keeps_thread e s CallPressed I) as Hk.
      specialize (IH (fst (step e s CallPressed))).
      rewrite Hk in IH. specialize (IH Hce Hp2 Hal). lia.
Qed.

(** C6, as the code has it: once more than [max_errors] (ten) outer-loop
    turns in a row had their quadrature read raise, with no successful
    quadrature read in between, the thread has left its loop (and raised
    nothing).  From then on it adds nothing: [steps()] hands the detents
    still pending out once and answers [0] on every later call, [pressed()]
    hands a still pending latch out once and answers [False] after. *)
Theorem soft_disable (e : Env) (s : Sampler) (errs after : list event) :
  0 <= consecutive_errors s <= max_errors ->
  polled e s errs = [] ->
  max_errors < failed_polls e s errs ->
  let s1 := fst (run e s errs) in
  let o := snd (run e s1 after) in
  alive s1 = false
  /\ alive (fst (run e s1 after)) = false
  /\ steps_seen o
     = match steps_seen o with
       | [] => []
       | _ :: t => pending_steps s1 :: map (fun _ => 0) t
       end
  /\ pressed_seen o
     = match pressed_seen o with
       | [] => []
       | _ :: t => pending_press s1 :: map (fun _ => false) t
       end.
Proof.
  intros Hce Hp Hf. cbn zeta.
  assert (Hd : alive (fst (run e s errs)) = false).
  { destruct (alive (fst (run e s errs))) eqn:E; [|reflexivity].
    pose proof (errors_mount e errs s (proj2 Hce) Hp E). lia. }
  split; [assumption|]. exact (run_dead e after _ Hd).
Qed.

Lemma soft_disable_witness :
  let s := fst (run default_env at_rest unread_input) in
  let s1 := fst (run default_env s eleven_failures) in
  (0 <= consecutive_errors s <= max_errors
   /\ polled default_env s eleven_failures = []
   /\ max_errors < failed_polls default_env s eleven_failures)
  /\ alive s1 = false
  /\ alive (fst (run default_env s1 [CallSteps; CallSteps])) = false.
Proof.
  cbn zeta.
  assert (H1 : 0 <= consecutive_errors
                      (fst (run default_env at_rest unread_input))
               <= max_errors) by (vm_compute; split; discriminate).
  assert (H2 : polled default_env
                 (fst (run default_env at_rest unread_input))
                 eleven_failures = []) by reflexivity.
  assert (H3 : max_errors
               < failed_polls default_env
                   (fst (run default_env at_rest unread_input))
                   eleven_failures) by reflexivity.
  split; [auto|].
  pose proof (soft_disable default_env _ eleven_failures
                [CallSteps; CallSteps] H1 H2 H3) as H.
  cbn zeta in H. destruct H as (A & B & _). auto.
Defined.

(** C6, as the claim words it, fails when something is pending at the moment
    the thread stops: a detent and a press that came in before eleven failing
    turns are still handed out by the first calls after them. *)
Lemma stopped_with_pending :
  let s1 :=
    fst (run default_env at_rest (unread_input ++ eleven_failures)) in
  alive s1 = false
  /\ snd (run default_env s1
            [CallSteps; CallPressed; CallSteps; CallPressed])
     = [GotSteps 1; GotPressed true; GotSteps 0; GotPressed false].
Proof. vm_compute. split; reflexivity. Qed.

(** * Properties of oled_ui.py *)

Import OledUI.

Lemma bind_some {A B : Type} (c : option A) (k : A -> option B) (b : B) :
  bind c k = Some b -> exists a, c = Some a /\ k a = Some b.
Proof.
  destruct c as [a|]; simpl; [|discriminate]. intros H. exists a. auto.
Qed.

Lemma core_fields (u1 u2 : UI) :
  core u1 = core u2 ->
  screen u1 = screen u2 /\ selection u1 = selection u2
  /\ confirm_for u1 = confirm_for u2 /\ hue u1 = hue u2
  /\ user_pct u1 = user_pct u2 /\ _lang_codes u1 = _lang_codes u2
  /\ _lang_idx u1 = _lang_idx u2 /\ language u1 = language u2
  /\ _oled_sleeping u1 = _oled_sleeping u2
  /\ _last_screen_change u1 = _last_screen_change u2
  /\ _last_activity u1 = _last_activity u2.
Proof.
  unfold core. intros H. injection H. intros. repeat split; assumption.
Qed.

(** [_check_auto_save] raises exactly when the language index is off the
    list, and writes nothing but its own bookkeeping. *)
Lemma check_auto_save_core (u : UI) (f : Frame) :
  match Py.index (_lang_codes u) (_lang_idx u) with
  | None => _check_auto_save u f = None
  | Some _ =>
      exists u' sv, _check_auto_save u f = Some (u', sv) /\ core u' = core u
  end.
Proof.
  unfold _check_auto_save, _save_settings.
  destruct (Py.index (_lang_codes u) (_lang_idx u)) as [l|] eqn:E;
    [|reflexivity].
  cbn [bind].
  match goal with
  | |- context [if ?c then set_dirty_since _ _ else _] => destruct c
  end;
  match goal with
  | |- context [if ?c then Some _ else _] => destruct c
  end; cbn [_lang_codes _lang_idx set_dirty_since]; rewrite ?E;
  try (destruct (save_ok f)); eexists; eexists; split; reflexivity.
Qed.

Lemma finish_spec (u : UI) (f : Frame) (a : ResetAction) :
  match Py.index (_lang_codes u) (_lang_idx u) with
  | None => finish u f a = None
  | Some _ =>
      exists u' out,
        finish u f a = Some (u', out)
        /\ core u' = core u /\ out_action out = a
        /\ out_hue out = hue u /\ out_pct out = user_pct u
        /\ _check_auto_save u f = Some (u', out_saved out)
  end.
Proof.
  pose proof (check_auto_save_core u f) as H. unfold finish.
  destruct (Py.index (_lang_codes u) (_lang_idx u)) as [l|].
  - destruct H as (u' & sv & H & Hc). rewrite H. cbn [bind].
    destruct (core_fields _ _ Hc) as (_ & _ & _ & Hh & Hp & _).
    eexists. eexists. split; [reflexivity|]. simpl. auto.
  - rewrite H. reflexivity.
Qed.

(** Case analysis of a successful [screen_logic]. *)
Ltac break_screen_logic H :=
  unfold screen_logic in H; cbv zeta in H;
  repeat match type of H with
         | context [if ?c then _ else _] =>
             let E := fresh "E" in destruct c eqn:E
         | context [bind ?c _] =>
             let B := fresh "B" in destruct c eqn:B; cbn [bind] in H
         | None = Some _ => discriminate H
         end;
  injection H as <- <-;
  repeat match goal with
         | B : bind _ _ = Some _ |- _ =>
             let x := fresh "x" in
             let e := fresh "B" in
             apply bind_some in B; destruct B as (x & e & B)
         | B : (if ?c then _ else _) = Some _ |- _ =>
             let E := fresh "E" in destruct c eqn:E
         | B : Some _ = Some _ |- _ => injection B as <-
         | B : None = Some _ |- _ => discriminate B
         end.

Ltac screen_number :=
  match goal with
  | E : (screen ?u =? _) = true |- _ => apply Z.eqb_eq in E
  end.

(** ** The reset action *)

Lemma screen_logic_action (u u1 : UI) (f : Frame) (step : Z) (edge : bool)
    (a : ResetAction) :
  screen_logic u f step edge = Some (u1, a) ->
  a = if (screen u =? 5) && edge && (step =? 0) && can_change_screen u f
      then pending_action u else NONE.
Proof.
  intros H. unfold pending_action.
  break_screen_logic H; try screen_number;
    repeat match goal with
           | E : screen u = _ |- _ => rewrite E
           | E : (screen u =? 5) = false |- _ => rewrite E
           end;
    try reflexivity.
  all: cbn [Z.eqb andb Pos.eqb].
  all: repeat match goal with
              | E : (_ && _) = true |- _ =>
                  apply andb_prop in E; destruct E
              | E : negb _ = true |- _ => apply negb_true_iff in E
              | E : negb _ = false |- _ => apply negb_false_iff in E
              | E : (_ && _) = false |- _ =>
                  apply andb_false_iff in E; destruct E
              end.
  all: repeat match goal with
              | E : ?x = _ |- context [?x] => rewrite E
              end; cbn [andb Z.eqb]; try reflexivity.
  all: try congruence.
  all: destruct edge, (step =? 0); reflexivity.
Qed.

Lemma stable_fields (u1 u2 : UI) :
  stable u1 = stable u2 ->
  screen u1 = screen u2 /\ selection u1 = selection u2
  /\ confirm_for u1 = confirm_for u2 /\ hue u1 = hue u2
  /\ user_pct u1 = user_pct u2 /\ _lang_codes u1 = _lang_codes u2
  /\ _lang_idx u1 = _lang_idx u2 /\ language u1 = language u2
  /\ _oled_sleeping u1 = _oled_sleeping u2
  /\ _last_screen_change u1 = _last_screen_change u2.
Proof.
  unfold stable. intros H. injection H. intros. repeat split; assumption.
Qed.

Lemma track_button_stable (u : UI) (f : Frame) (raw : bool) :
  stable (track_button u f raw) = stable u
  /\ tracking (track_button u f raw) = tracking u
  /\ _last_activity (track_button u f raw) = _last_activity u.
Proof.
  unfold track_button. destruct (pressed_edge u f raw); auto.
Qed.

Lemma transitions_action (u u1 : UI) (f : Frame) (a : ResetAction) :
  transitions u f = Some (u1, a) ->
  a = if confirms u f then pending_action u else NONE.
Proof.
  unfold transitions, confirms, inputs.
  destruct (encoder f) as [enc|]; [|intros H; injection H as _ <-; reflexivity].
  destruct (read_inputs_safer enc) as [step raw]. cbn [fst snd].
  destruct (track_button_stable u f raw) as (Hs & _ & _).
  destruct (stable_fields _ _ Hs) as (S1 & _ & S3 & _ & _ & _ & _ & _ & S9 & S10).
  rewrite S9.
  destruct (_oled_sleeping u); [intros H; injection H as _ <-; reflexivity|].
  cbn [negb andb].
  destruct (negb (negb (step =? 0) || pressed_edge u f raw) && _) eqn:E.
  - intros H; injection H as _ <-.
    apply andb_prop in E. destruct E as [E _].
    apply negb_true_iff, orb_false_iff in E. destruct E as [_ E].
    rewrite E. destruct (screen u =? 5); reflexivity.
  - intros H. apply screen_logic_action in H. rewrite H.
    unfold pending_action, can_change_screen.
    destruct (negb (step =? 0) || pressed_edge u f raw);
      cbn [screen confirm_for _last_screen_change set_last_activity];
      rewrite S1, S3, S10; reflexivity.
Qed.

Lemma handle_action (u u' : UI) (f : Frame) (out : Out) :
  handle u f = Some (u', out) ->
  out_action out = if confirms u f then pending_action u else NONE.
Proof.
  unfold handle. intros H.
  apply bind_some in H. destruct H as ([u1 a] & Ht & Hf).
  apply transitions_action in Ht. subst a.
  pose proof (finish_spec u1 f
                (if confirms u f then pending_action u else NONE)) as Hs.
  destruct (Py.index (_lang_codes u1) (_lang_idx u1)).
  - destruct Hs as (u2 & o2 & Hs & _ & Ha & _). rewrite Hf in Hs.
    injection Hs as <- <-. exact Ha.
  - congruence.
Qed.

(** C1, as the code has it: whenever [handle] returns, its [reset_action] is
    the no-op value, except on a frame that finds the display awake on the
    Confirm screen with a debounced press edge, no rotation in the same
    frame, and the screen-change gate open (more than 0.2 s since the last
    screen change); on that frame it is the pending [confirm_for] action. *)
Theorem reset_action_only_on_confirm (u u' : UI) (f : Frame) (out : Out) :
  handle u f = Some (u', out) ->
  out_action out
  = if match encoder f with
       | Some _ =>
           negb (_oled_sleeping u) && (screen u =? 5)
           && pressed_edge u f (snd (inputs f))
           && (fst (inputs f) =? 0)
           && can_change_screen u f
       | None => false
       end
    then match confirm_for u with Some a => a | None => NONE end
    else NONE.
Proof.
  intros H. exact (handle_action u u' f out H).
Qed.

Lemma reset_action_only_on_confirm_witness :
  let u := after (to_confirm ++ [at_time 5.5 0 false]) in
  let f := at_time 6 0 true in
  handle u f = Some (fst (result u f), snd (result u f))
  /\ out_action (snd (result u f)) = WIFI.
Proof.
  cbn zeta.
  assert (H : handle (after (to_confirm ++ [at_time 5.5 0 false]))
                (at_time 6 0 true)
              = Some (fst (result (after (to_confirm ++ [at_time 5.5 0 false]))
                             (at_time 6 0 true)),
                      snd (result (after (to_confirm ++ [at_time 5.5 0 false]))
                             (at_time 6 0 true))))
    by (vm_compute; reflexivity).
  split; [exact H|].
  rewrite (reset_action_only_on_confirm
             (after (to_confirm ++ [at_time 5.5 0 false]))
             (fst (result (after (to_confirm ++ [at_time 5.5 0 false]))
                     (at_time 6 0 true)))
             (at_time 6 0 true)
             (snd (result (after (to_confirm ++ [at_time 5.5 0 false]))
                     (at_time 6 0 true)))
             H).
  vm_compute. reflexivity.
Defined.

(** C1, as the claim words it, fails inside the screen-change gate: Confirm
    was entered at [t = 5]; a press edge at [t = 5.125] finds the screen on
    Confirm with [confirm_for] set, and the frame answers the no-op value. *)
Lemma press_inside_gate :
  let u := after (to_confirm ++ [at_time 5.0625 0 false]) in
  let f := at_time 5.125 0 true in
  screen u = 5
  /\ confirm_for u = Some WIFI
  /\ pressed_edge u f (snd (inputs f)) = true
  /\ handle u f = Some (result u f)
  /\ out_action (snd (result u f)) = NONE.
Proof. vm_compute. repeat split; reflexivity. Qed.

(** ** The Confirm screen *)

Lemma screen_logic_confirm (u : UI) (f : Frame) (step : Z) (edge : bool) :
  screen u = 5 -> can_change_screen u f = true ->
  negb (step =? 0) || edge = true ->
  screen_logic u f step edge
  = Some (set_last_screen_change (now f)
            (set_confirm_for None (set_screen 0 u)),
          if step =? 0 then pending_action u else NONE).
Proof.
  intros Hs Hc Ha. unfold screen_logic, pending_action. rewrite Hs, Hc.
  cbn [Z.eqb Pos.eqb]. rewrite !andb_true_r.
  destruct (step =? 0); simpl in *; [rewrite Ha|]; reflexivity.
Qed.

(** C3, as the code has it: with the display awake on the Confirm screen and
    the screen-change gate open, a frame with any rotation goes back to Info,
    clears [confirm_for] and answers the no-op value; a frame with a press
    edge and no rotation answers the pending action, goes back to Info and
    clears [confirm_for]. *)
Theorem confirm_cancel_or_emit (u : UI) (f : Frame) (l : string) :
  screen u = 5 ->
  _oled_sleeping u = false ->
  Py.index (_lang_codes u) (_lang_idx u) = Some l ->
  can_change_screen u f = true ->
  has_activity u f = true ->
  exists u' out,
    handle u f = Some (u', out)
    /\ screen u' = 0
    /\ confirm_for u' = None
    /\ out_action out
       = if fst (inputs f) =? 0 then pending_action u else NONE.
Proof.
  intros Hs Hsl Hl Hc Ha.
  unfold handle, transitions. unfold has_activity, inputs in *.
  destruct (encoder f) as [enc|]; [|discriminate].
  destruct (read_inputs_safer enc) as [step raw]. cbn [fst snd] in *.
  destruct (track_button_stable u f raw) as (Hst & _ & _).
  destruct (stable_fields _ _ Hst)
    as (S1 & _ & S3 & _ & _ & S6 & S7 & _ & S9 & S10).
  rewrite S9, Hsl, Ha. cbn [negb andb].
  set (w := set_last_activity (now f) (track_button u f raw)).
  assert (Hw : screen w = 5)
    by (unfold w; cbn [screen set_last_activity]; rewrite S1; exact Hs).
  assert (Hcw : can_change_screen w f = true).
  { unfold can_change_screen, w in *.
    cbn [_last_screen_change set_last_activity]. rewrite S10. exact Hc. }
  rewrite (screen_logic_confirm w f step _ Hw Hcw Ha). cbn [bind].
  set (w' := set_last_screen_change (now f)
               (set_confirm_for None (set_screen 0 w))).
  pose proof (finish_spec w' f (if step =? 0 then pending_action w else NONE))
    as Hf.
  assert (Hi : Py.index (_lang_codes w') (_lang_idx w') = Some l).
  { unfold w', w.
    cbn [_lang_codes _lang_idx set_last_screen_change set_confirm_for
         set_screen set_last_activity].
    rewrite S6, S7. exact Hl. }
  rewrite Hi in Hf. destruct Hf as (u' & out & Hf & Hco & Hact & _).
  exists u', out. split; [exact Hf|].
  destruct (core_fields _ _ Hco) as (C1 & _ & C3 & _).
  repeat split.
  - rewrite C1. reflexivity.
  - rewrite C3. reflexivity.
  - rewrite Hact. unfold pending_action, w.
    cbn [confirm_for set_last_activity]. rewrite S3. reflexivity.
Qed.

Lemma confirm_cancel_or_emit_witness :
  let u := after to_confirm in
  let f := at_time 6 1 false in
  (screen u = 5 /\ _oled_sleeping u = false
   /\ Py.index (_lang_codes u) (_lang_idx u) = Some "en"%string
   /\ can_change_screen u f = true /\ has_activity u f = true)
  /\ exists u' out,
       handle u f = Some (u', out)
       /\ screen u' = 0 /\ confirm_for u' = None
       /\ out_action out = NONE.
Proof.
  cbn zeta.
  assert (H : screen (after to_confirm) = 5
              /\ _oled_sleeping (after to_confirm) = false
              /\ Py.index (_lang_codes (after to_confirm))
                   (_lang_idx (after to_confirm)) = Some "en"%string
              /\ can_change_screen (after to_confirm) (at_time 6 1 false)
                 = true
              /\ has_activity (after to_confirm) (at_time 6 1 false) = true)
    by (vm_compute; repeat split; reflexivity).
  split; [exact H|].
  destruct H as (H1 & H2 & H3 & H4 & H5).
  exact (confirm_cancel_or_emit (after to_confirm) (at_time 6 1 false)
           "en"%string H1 H2 H3 H4 H5).
Defined.

(** C3, as the claim words it, fails inside the screen-change gate: a
    rotation 62.5 ms after Confirm was entered leaves the screen on Confirm
    with [confirm_for] still set. *)
Lemma rotation_inside_gate :
  let u := after to_confirm in
  let f := at_time 5.0625 1 false in
  screen u = 5
  /\ fst (inputs f) = 1
  /\ handle u f = Some (result u f)
  /\ screen (fst (result u f)) = 5
  /\ confirm_for (fst (result u f)) = Some WIFI.
Proof. vm_compute. repeat split; reflexivity. Qed.

Lemma fresh_is_initial :
  init {| sv_hue := None; sv_brightness := None; sv_language := None |}
    0.33 50 ["en"%string; "de"%string] "en"%string 0 0
  = Some fresh.
Proof. vm_compute. reflexivity. Qed.

(** ** Sleep *)

(** C8: a frame that finds the display asleep changes neither hue,
    brightness, screen, selection, [confirm_for] nor the language, whatever
    the encoder brought, and answers the current hue and brightness with the
    no-op action; step or press activity in the frame wakes the display and
    does nothing else. *)
Theorem sleeping_frame_only_wakes (u : UI) (f : Frame) (l : string) :
  _oled_sleeping u = true ->
  Py.index (_lang_codes u) (_lang_idx u) = Some l ->
  exists u' out,
    handle u f = Some (u', out)
    /\ hue u' = hue u /\ user_pct u' = user_pct u
    /\ screen u' = screen u /\ selection u' = selection u
    /\ confirm_for u' = confirm_for u
    /\ _lang_idx u' = _lang_idx u /\ language u' = language u
    /\ out_action out = NONE
    /\ out_hue out = hue u /\ out_pct out = user_pct u
    /\ _oled_sleeping u' = negb (has_activity u f).
Proof.
  intros Hsl Hl.
  assert (Ht : exists u1,
             transitions u f = Some (u1, NONE)
             /\ stable u1
                = stable (set_oled_sleeping (negb (has_activity u f)) u)).
  { unfold transitions, has_activity, inputs.
    destruct (encoder f) as [enc|].
    - destruct (read_inputs_safer enc) as [step raw]. cbn [fst snd].
      destruct (track_button_stable u f raw) as (Hst & _ & _).
      destruct (stable_fields _ _ Hst)
        as (S1 & S2 & S3 & S4 & S5 & S6 & S7 & S8 & S9 & S10).
      rewrite S9, Hsl.
      destruct (negb (step =? 0) || pressed_edge u f raw);
        eexists; (split; [reflexivity|]);
        unfold _wake_oled, stable;
        cbn [screen selection confirm_for hue user_pct _lang_codes _lang_idx
             language _oled_sleeping _last_screen_change set_last_activity
             set_oled_sleeping negb];
        rewrite S1, S2, S3, S4, S5, S6, S7, S8, S10, ?S9, ?Hsl; reflexivity.
    - exists u. rewrite Hsl. cbn [negb].
      split; [destruct (Py.ge _ _); reflexivity|].
      unfold stable; cbn. rewrite Hsl. reflexivity. }
  destruct Ht as (u1 & Ht & Hst).
  destruct (stable_fields _ _ Hst)
    as (S1 & S2 & S3 & S4 & S5 & S6 & S7 & S8 & S9 & _).
  cbn in S1, S2, S3, S4, S5, S6, S7, S8, S9.
  unfold handle. rewrite Ht. cbn [bind].
  pose proof (finish_spec u1 f NONE) as Hf.
  rewrite S6, S7, Hl in Hf.
  destruct Hf as (u' & out & Hf & Hco & Ha & Hh & Hp & _).
  exists u', out. split; [exact Hf|].
  destruct (core_fields _ _ Hco)
    as (C1 & C2 & C3 & C4 & C5 & C6 & C7 & C8 & C9 & _).
  repeat split; congruence.
Qed.

Lemma sleeping_frame_only_wakes_witness :
  let u := after (to_confirm ++ [at_time 20 0 false]) in
  let f := at_time 21 3 true in
  (_oled_sleeping u = true
   /\ Py.index (_lang_codes u) (_lang_idx u) = Some "en"%string)
  /\ exists u' out,
       handle u f = Some (u', out)
       /\ hue u' = hue u /\ user_pct u' = user_pct u
       /\ screen u' = screen u /\ selection u' = selection u
       /\ confirm_for u' = confirm_for u
       /\ _lang_idx u' = _lang_idx u /\ language u' = language u
       /\ out_action out = NONE
       /\ out_hue out = hue u /\ out_pct out = user_pct u
       /\ _oled_sleeping u' = negb (has_activity u f).
Proof.
  cbn zeta.
  assert (H : _oled_sleeping (after (to_confirm ++ [at_time 20 0 false]))
              = true
              /\ Py.index
                   (_lang_codes (after (to_confirm ++ [at_time 20 0 false])))
                   (_lang_idx (after (to_confirm ++ [at_time 20 0 false])))
                 = Some "en"%string)
    by (vm_compute; split; reflexivity).
  split; [exact H|]. destruct H as [H1 H2].
  exact (sleeping_frame_only_wakes
           (after (to_confirm ++ [at_time 20 0 false])) (at_time 21 3 true)
           "en"%string H1 H2).
Defined.

(** ** Confirm and its pending action *)

Lemma index_in {A : Type} (l : list A) (i : Z) (a : A) :
  Py.index l i = Some a -> In a l.
Proof.
  unfold Py.index.
  destruct ((0 <=? i) && (i <? Z.of_nat (List.length l)));
    [apply nth_error_In|].
  destruct ((- Z.of_nat (List.length l) <=? i) && (i <? 0));
    [apply nth_error_In|discriminate].
Qed.

Lemma screen_logic_invariant (u u1 : UI) (f : Frame) (step : Z)
    (edge : bool) (a : ResetAction) :
  confirm_invariant u ->
  screen_logic u f step edge = Some (u1, a) ->
  confirm_invariant u1.
Proof.
  unfold confirm_invariant. intros Hi H.
  break_screen_logic H; try screen_number;
    repeat match goal with
           | E : screen u = _ |- _ => rewrite E in Hi
           | E : (screen u =? 5) = false |- _ => rewrite E in Hi
           end;
    cbn [screen confirm_for set_last_screen_change set_screen set_hue
         set_user_pct set_language set_lang_idx set_selection
         set_confirm_for Z.eqb Pos.eqb] in *;
    repeat match goal with
           | E : screen u = _ |- _ => rewrite E
           | E : (screen u =? 5) = false |- _ => rewrite E
           end;
    cbn [Z.eqb Pos.eqb]; try assumption; try reflexivity.
  all: apply index_in in B; simpl in B; simpl;
    destruct B as [<-|[<-|[<-|[]]]]; auto.
Qed.

Lemma transitions_invariant (u u1 : UI) (f : Frame) (a : ResetAction) :
  confirm_invariant u ->
  transitions u f = Some (u1, a) ->
  confirm_invariant u1.
Proof.
  intros Hi. unfold transitions.
  assert (Hstable : forall w, stable w = stable u -> confirm_invariant w).
  { intros w Hw. destruct (stable_fields _ _ Hw) as (S1 & _ & S3 & _).
    unfold confirm_invariant in *. rewrite S1, S3. exact Hi. }
  destruct (encoder f) as [enc|].
  - destruct (read_inputs_safer enc) as [step raw].
    destruct (track_button_stable u f raw) as (Hst & _ & _).
    set (w := track_button u f raw) in *.
    destruct (_oled_sleeping w).
    + intros H. injection H as <- _.
      destruct (negb (step =? 0) || pressed_edge u f raw);
        [|apply Hstable; exact Hst].
      unfold confirm_invariant, _wake_oled.
      cbn [screen confirm_for set_last_activity set_oled_sleeping].
      apply (Hstable w Hst).
    + destruct (negb (negb (step =? 0) || pressed_edge u f raw) && _).
      * intros H. injection H as <- _.
        unfold _sleep_oled. destruct (_oled_sleeping w);
          [apply Hstable; exact Hst|].
        unfold confirm_invariant.
        cbn [screen confirm_for set_oled_sleeping]. apply (Hstable w Hst).
      * apply screen_logic_invariant.
        destruct (negb (step =? 0) || pressed_edge u f raw);
          [|apply Hstable; exact Hst].
        unfold confirm_invariant.
        cbn [screen confirm_for set_last_activity]. apply (Hstable w Hst).
  - intros H. injection H as <- _.
    destruct (Py.ge _ _); [|exact Hi].
    destruct (negb (_oled_sleeping u)); [|exact Hi].
    unfold _sleep_oled. destruct (_oled_sleeping u); exact Hi.
Qed.

Lemma handle_invariant (u u' : UI) (f : Frame) (out : Out) :
  confirm_invariant u -> handle u f = Some (u', out) ->
  confirm_invariant u'.
Proof.
  unfold handle. intros Hi H.
  apply bind_some in H. destruct H as ([u1 a] & Ht & Hf).
  apply (transitions_invariant u u1 f a Hi) in Ht.
  pose proof (finish_spec u1 f a) as Hs.
  destruct (Py.index (_lang_codes u1) (_lang_idx u1)); [|congruence].
  destruct Hs as (u2 & o2 & Hs & Hc & _). rewrite Hf in Hs.
  injection Hs as <- <-.
  destruct (core_fields _ _ Hc) as (C1 & _ & C3 & _).
  unfold confirm_invariant in *. rewrite C1, C3. exact Ht.
Qed.

(** A property that every frame keeps holds after any run of frames. *)
Lemma frames_keep (P : UI -> Prop) :
  (forall u u' f out, P u -> handle u f = Some (u', out) -> P u') ->
  forall fs u u' outs, P u -> frames u fs = Some (u', outs) -> P u'.
Proof.
  intros Hstep. induction fs as [|f rest IH]; intros u u' outs Hu H.
  - simpl in H. injection H as <- _. exact Hu.
  - simpl in H. apply bind_some in H. destruct H as ([u1 o] & Hh & H).
    apply bind_some in H. destruct H as ([u2 os] & Hr & H).
    injection H as <- _.
    apply (IH u1 u2 os); [|exact Hr]. apply (Hstep u u1 f o Hu Hh).
Qed.

Lemma init_invariant (saved : Saved) (initial_hue : float)
    (user_brightness_pct : Z) (codes : list string) (cur : string)
    (t_change t_activity : float) (u : UI) :
  init saved initial_hue user_brightness_pct codes cur t_change t_activity
  = Some u ->
  confirm_invariant u /\ 0 <= user_pct u <= 100.
Proof.
  unfold init. intros H. apply bind_some in H. destruct H as (l & _ & H).
  injection H as <-. unfold confirm_invariant, clamp_pct. simpl.
  split; [reflexivity|lia].
Qed.

(** C10: in every state that a run of frames reaches from [__init__], the
    Confirm screen holds one of the three actions in [confirm_for], and every
    other screen holds none: entering Confirm sets it, leaving clears it.
    So the frame on which Confirm's press goes through answers one of the
    three actions, never the no-op value. *)
Theorem confirm_holds_action (saved : Saved) (initial_hue : float)
    (user_brightness_pct : Z) (codes : list string) (cur : string)
    (t_change t_activity : float) (fs : list Frame) (u0 u : UI)
    (outs : list Out) :
  init saved initial_hue user_brightness_pct codes cur t_change t_activity
  = Some u0 ->
  frames u0 fs = Some (u, outs) ->
  (screen u = 5 -> In (confirm_for u) [Some WIFI; Some QR; Some BOTH])
  /\ (screen u <> 5 -> confirm_for u = None)
  /\ (forall f u' out,
        handle u f = Some (u', out) -> confirms u f = true ->
        In (out_action out) [WIFI; QR; BOTH]).
Proof.
  intros Hinit Hrun.
  assert (Hi : confirm_invariant u).
  { apply (frames_keep confirm_invariant handle_invariant fs u0 u outs);
      [|exact Hrun].
    apply (init_invariant _ _ _ _ _ _ _ _ Hinit). }
  unfold confirm_invariant in Hi.
  repeat split.
  - intros Hs. rewrite Hs in Hi. exact Hi.
  - intros Hs. apply Z.eqb_neq in Hs. rewrite Hs in Hi. exact Hi.
  - intros f u' out Hh Hc. rewrite (handle_action u u' f out Hh), Hc.
    assert (Hs : (screen u =? 5) = true).
    { unfold confirms in Hc. destruct (encoder f); [|discriminate].
      apply andb_prop in Hc. destruct Hc as [Hc _].
      apply andb_prop in Hc. destruct Hc as [Hc _].
      apply andb_prop in Hc. destruct Hc as [Hc _].
      apply andb_prop in Hc. destruct Hc as [_ Hc]. exact Hc. }
    rewrite Hs in Hi. unfold pending_action. simpl in Hi. simpl.
    destruct Hi as [<-|[<-|[<-|[]]]]; auto.
Qed.

Lemma confirm_holds_action_witness :
  (init {| sv_hue := None; sv_brightness := None; sv_language := None |}
     0.33 50 ["en"%string; "de"%string] "en"%string 0 0 = Some fresh
   /\ frames fresh to_confirm
      = Some (after to_confirm, snd (run_of to_confirm)))
  /\ screen (after to_confirm) = 5
  /\ In (confirm_for (after to_confirm)) [Some WIFI; Some QR; Some BOTH].
Proof.
  assert (H1 : init {| sv_hue := None; sv_brightness := None;
                       sv_language := None |}
                 0.33 50 ["en"%string; "de"%string] "en"%string 0 0
               = Some fresh) by (vm_compute; reflexivity).
  assert (H2 : frames fresh to_confirm
               = Some (after to_confirm, snd (run_of to_confirm)))
    by (vm_compute; reflexivity).
  assert (H3 : screen (after to_confirm) = 5) by (vm_compute; reflexivity).
  split; [auto|]. split; [exact H3|].
  exact (proj1 (confirm_holds_action _ _ _ _ _ _ _ to_confirm fresh
                  (after to_confirm) (snd (run_of to_confirm)) H1 H2) H3).
Defined.

(** ** Autosave *)

Lemma screen_logic_tracking (u u1 : UI) (f : Frame) (step : Z) (edge : bool)
    (a : ResetAction) :
  screen_logic u f step edge = Some (u1, a) -> tracking u1 = tracking u.
Proof.
  intros H. break_screen_logic H; reflexivity.
Qed.

Lemma transitions_tracking (u u1 : UI) (f : Frame) (a : ResetAction) :
  transitions u f = Some (u1, a) -> tracking u1 = tracking u.
Proof.
  unfold transitions.
  destruct (encoder f) as [enc|].
  - destruct (read_inputs_safer enc) as [step raw].
    destruct (track_button_stable u f raw) as (_ & Ht & _).
    set (w := track_button u f raw) in *.
    destruct (_oled_sleeping w) eqn:Hsl.
    + intros H. injection H as <- _.
      destruct (negb (step =? 0) || pressed_edge u f raw); exact Ht.
    + destruct (negb (negb (step =? 0) || pressed_edge u f raw) && _).
      * intros H. injection H as <- _.
        unfold _sleep_oled. rewrite Hsl. exact Ht.
      * intros H. apply screen_logic_tracking in H. rewrite H.
        destruct (negb (step =? 0) || pressed_edge u f raw); exact Ht.
  - intros H. injection H as <- _.
    destruct (Py.ge _ _); [|reflexivity].
    destruct (negb (_oled_sleeping u)); [|reflexivity].
    unfold _sleep_oled. destruct (_oled_sleeping u); reflexivity.
Qed.

Lemma handle_autosave (u u' : UI) (f : Frame) (out : Out) :
  handle u f = Some (u', out) ->
  exists u1,
    tracking u1 = tracking u
    /\ _check_auto_save u1 f = Some (u', out_saved out)
    /\ out_hue out = hue u' /\ out_pct out = user_pct u'.
Proof.
  unfold handle. intros H.
  apply bind_some in H. destruct H as ([u1 a] & Ht & Hf).
  exists u1. split; [exact (transitions_tracking u u1 f a Ht)|].
  unfold finish in Hf. apply bind_some in Hf.
  destruct Hf as ([u2 sv] & Hc & Hf). injection Hf as <- <-.
  simpl. auto.
Qed.

Lemma tracking_fields (u1 u2 : UI) :
  tracking u1 = tracking u2 ->
  _settings_dirty u1 = _settings_dirty u2
  /\ _last_setting_change u1 = _last_setting_change u2.
Proof.
  unfold tracking. intros H. injection H. intros. split; assumption.
Qed.

(** One call of [_check_auto_save]: the timestamp moves only when the state
    was clean, and then to the clock of this call; a dirty state is saved
    when the delay has elapsed since the timestamp and the write goes
    through, and stays as it is otherwise. *)
Lemma check_auto_save_steps (u u' : UI) (f : Frame) (sv : option Settings) :
  _check_auto_save u f = Some (u', sv) ->
  (_settings_dirty u = true ->
   _last_setting_change u' = _last_setting_change u
   /\ (Py.ge (PrimFloat.sub (now_save f) (_last_setting_change u))
             SETTINGS_SAVE_DELAY = false ->
       sv = None /\ _settings_dirty u' = true)
   /\ (Py.ge (PrimFloat.sub (now_save f) (_last_setting_change u))
             SETTINGS_SAVE_DELAY = true ->
       save_ok f = true ->
       _settings_dirty u' = false
       /\ exists l,
            Py.index (_lang_codes u') (_lang_idx u') = Some l
            /\ sv = Some {| s_hue := hue u'; s_brightness := user_pct u';
                            s_language := l; s_saved_at := wall f |}))
  /\ (_settings_dirty u = false -> _settings_dirty u' = true ->
      _last_setting_change u' = now_save f /\ sv = None).
Proof.
  unfold _check_auto_save, _save_settings. intros H.
  apply bind_some in H. destruct H as (l & Hl & H).
  destruct (_settings_dirty u) eqn:Hd.
  - rewrite andb_false_r in H. rewrite Hd in H. cbn [andb] in H.
    rewrite Hl in H. split; [intros _|discriminate].
    destruct (Py.ge _ SETTINGS_SAVE_DELAY).
    + destruct (save_ok f); injection H as <- <-; simpl.
      * split; [reflexivity|]. split; [discriminate|].
        intros _ _. split; [reflexivity|]. exists l. auto.
      * split; [reflexivity|]. split; discriminate.
    + injection H as <- <-.
      split; [reflexivity|]. split; [auto|discriminate].
  - split; [discriminate|]. intros _ Hd'. rewrite andb_true_r in H.
    destruct (_ || _ || _).
    + cbn [_settings_dirty _last_setting_change set_dirty_since andb
           _lang_codes _lang_idx] in H.
      rewrite Hl in H.
      destruct (Py.ge _ SETTINGS_SAVE_DELAY).
      * destruct (save_ok f); injection H as <- <-; simpl in *;
          [discriminate|auto].
      * injection H as <- <-; simpl; auto.
    + rewrite Hd in H. cbn [andb] in H. injection H as <- <-.
      congruence.
Qed.

(** While the delay has not elapsed since the timestamp, frames save nothing
    and leave the timestamp where it is, whatever they change. *)
Lemma frames_stay_dirty (t0 : float) (mid : list Frame) :
  forall (u1 u2 : UI) (outs : list Out),
  _settings_dirty u1 = true -> _last_setting_change u1 = t0 ->
  frames u1 mid = Some (u2, outs) ->
  Forall (fun g => Py.ge (PrimFloat.sub (now_save g) t0)
                     SETTINGS_SAVE_DELAY = false) mid ->
  _settings_dirty u2 = true /\ _last_setting_change u2 = t0
  /\ Forall (fun o => out_saved o = None) outs.
Proof.
  induction mid as [|g rest IH]; intros u1 u2 outs Hd Ht H HF.
  - simpl in H. injection H as <- <-. auto.
  - simpl in H. apply bind_some in H. destruct H as ([v o] & Hh & H).
    apply bind_some in H. destruct H as ([v2 os] & Hr & H).
    injection H as <- <-.
    inversion HF as [|g' rest' Hg Hrest]; subst g' rest'.
    apply handle_autosave in Hh. destruct Hh as (w & Hw & Hc & _).
    destruct (tracking_fields _ _ Hw) as [Wd Wt].
    destruct (check_auto_save_steps w v g _ Hc) as [Hdirty _].
    rewrite Wd, Wt, Ht in Hdirty.
    destruct (Hdirty Hd) as (K1 & K2 & _).
    destruct (K2 Hg) as [K3 K4].
    destruct (IH v v2 os K4 K1 Hr Hrest) as (I1 & I2 & I3).
    repeat split; auto.
Qed.

(** C7: the autosave timestamp is set by the call that finds a clean state
    changed, to its own clock reading, and no later call moves it while the
    state is dirty.  So when a frame makes the state dirty and further
    changes follow before the delay is over, nothing is saved until the first
    frame that comes [SETTINGS_SAVE_DELAY] or more after the first change;
    that frame saves the current values, once, and leaves the state clean. *)
Theorem autosave_anchored_at_first_change
    (u u1 u2 u3 : UI) (f1 fl : Frame) (mid : list Frame)
    (o1 o3 : Out) (outs : list Out) :
  _settings_dirty u = false ->
  handle u f1 = Some (u1, o1) ->
  _settings_dirty u1 = true ->
  frames u1 mid = Some (u2, outs) ->
  Forall (fun g => Py.ge (PrimFloat.sub (now_save g) (now_save f1))
                     SETTINGS_SAVE_DELAY = false) mid ->
  handle u2 fl = Some (u3, o3) ->
  Py.ge (PrimFloat.sub (now_save fl) (now_save f1)) SETTINGS_SAVE_DELAY
  = true ->
  save_ok fl = true ->
  _last_setting_change u1 = now_save f1
  /\ _last_setting_change u2 = now_save f1
  /\ _settings_dirty u2 = true
  /\ out_saved o1 = None
  /\ Forall (fun o => out_saved o = None) outs
  /\ (exists l,
        Py.index (_lang_codes u3) (_lang_idx u3) = Some l
        /\ out_saved o3
           = Some {| s_hue := hue u3; s_brightness := user_pct u3;
                     s_language := l; s_saved_at := wall fl |})
  /\ _settings_dirty u3 = false
  /\ _last_setting_change u3 = now_save f1.
Proof.
  intros Hclean H1 Hd1 Hmid HF Hl Hgo Hok.
  apply handle_autosave in H1. destruct H1 as (w & Hw & Hc & _).
  destruct (tracking_fields _ _ Hw) as [Wd _].
  destruct (check_auto_save_steps w u1 f1 _ Hc) as [_ Hfirst].
  rewrite Wd in Hfirst. destruct (Hfirst Hclean Hd1) as [T1 S1].
  destruct (frames_stay_dirty (now_save f1) mid u1 u2 outs Hd1 T1 Hmid HF)
    as (D2 & T2 & Souts).
  apply handle_autosave in Hl. destruct Hl as (w2 & Hw2 & Hc2 & _).
  destruct (tracking_fields _ _ Hw2) as [Wd2 Wt2].
  destruct (check_auto_save_steps w2 u3 fl _ Hc2) as [Hdirty _].
  rewrite Wd2, Wt2, T2 in Hdirty.
  destruct (Hdirty D2) as (K1 & _ & K3).
  destruct (K3 Hgo Hok) as (K4 & l & K5 & K6).
  repeat split; auto. exists l. auto.
Qed.

Lemma autosave_anchored_at_first_change_witness :
  let u := after to_color in
  let f1 := at_time 2 1 false in
  let mid := [at_time 3 1 false; at_time 3.5 0 false] in
  let fl := at_time 4 0 false in
  let u1 := fst (result u f1) in
  let u2 := fst (run_of (to_color ++ f1 :: mid)) in
  let outs := skipn 3 (snd (run_of (to_color ++ f1 :: mid))) in
  (_settings_dirty u = false
   /\ handle u f1 = Some (u1, snd (result u f1))
   /\ _settings_dirty u1 = true
   /\ frames u1 mid = Some (u2, outs)
   /\ Forall (fun g => Py.ge (PrimFloat.sub (now_save g) (now_save f1))
                         SETTINGS_SAVE_DELAY = false) mid
   /\ handle u2 fl = Some (fst (result u2 fl), snd (result u2 fl))
   /\ Py.ge (PrimFloat.sub (now_save fl) (now_save f1)) SETTINGS_SAVE_DELAY
      = true
   /\ save_ok fl = true)
  /\ _last_setting_change u2 = 2%float
  /\ Forall (fun o => out_saved o = None) outs
  /\ _settings_dirty (fst (result u2 fl)) = false.
Proof.
  cbn zeta.
  set (u := after to_color).
  set (f1 := at_time 2 1 false).
  set (mid := [at_time 3 1 false; at_time 3.5 0 false]).
  set (fl := at_time 4 0 false).
  set (u1 := fst (result u f1)).
  set (u2 := fst (run_of (to_color ++ f1 :: mid))).
  set (outs := skipn 3 (snd (run_of (to_color ++ f1 :: mid)))).
  assert (H1 : _settings_dirty u = false) by (vm_compute; reflexivity).
  assert (H2 : handle u f1 = Some (u1, snd (result u f1)))
    by (vm_compute; reflexivity).
  assert (H3 : _settings_dirty u1 = true) by (vm_compute; reflexivity).
  assert (H4 : frames u1 mid = Some (u2, outs)) by (vm_compute; reflexivity).
  assert (H5 : Forall (fun g => Py.ge (PrimFloat.sub (now_save g)
                                         (now_save f1))
                                  SETTINGS_SAVE_DELAY = false) mid)
    by (constructor; [vm_compute; reflexivity|];
        constructor; [vm_compute; reflexivity|]; constructor).
  assert (H6 : handle u2 fl = Some (fst (result u2 fl), snd (result u2 fl)))
    by (vm_compute; reflexivity).
  assert (H7 : Py.ge (PrimFloat.sub (now_save fl) (now_save f1))
                 SETTINGS_SAVE_DELAY = true) by (vm_compute; reflexivity).
  assert (H8 : save_ok fl = true) by reflexivity.
  split; [exact (conj H1 (conj H2 (conj H3 (conj H4 (conj H5 (conj H6
                   (conj H7 H8)))))))|].
  pose proof (autosave_anchored_at_first_change u u1 u2 (fst (result u2 fl))
                f1 fl mid (snd (result u f1)) (snd (result u2 fl)) outs
                H1 H2 H3 H4 H5 H6 H7 H8) as K.
  destruct K as (_ & K2 & _ & _ & K5 & _ & K7 & _).
  exact (conj K2 (conj K5 K7)).
Defined.

(** ** The ranges of brightness and hue *)

Lemma screen_logic_pct (u u1 : UI) (f : Frame) (step : Z) (edge : bool)
    (a : ResetAction) :
  0 <= user_pct u <= 100 ->
  screen_logic u f step edge = Some (u1, a) ->
  0 <= user_pct u1 <= 100.
Proof.
  intros Hp H. break_screen_logic H;
    cbn [user_pct set_last_screen_change set_screen set_hue set_user_pct
         set_language set_lang_idx set_selection set_confirm_for];
    unfold clamp_pct; lia.
Qed.

Lemma transitions_pct (u u1 : UI) (f : Frame) (a : ResetAction) :
  0 <= user_pct u <= 100 ->
  transitions u f = Some (u1, a) ->
  0 <= user_pct u1 <= 100.
Proof.
  intros Hp. unfold transitions.
  destruct (encoder f) as [enc|].
  - destruct (read_inputs_safer enc) as [step raw].
    destruct (track_button_stable u f raw) as (Hst & _ & _).
    destruct (stable_fields _ _ Hst) as (_ & _ & _ & _ & S5 & _).
    set (w := track_button u f raw) in *.
    destruct (_oled_sleeping w) eqn:Hsl.
    + intros H. injection H as <- _.
      destruct (negb (step =? 0) || pressed_edge u f raw);
        unfold _wake_oled;
        cbn [user_pct set_last_activity set_oled_sleeping]; lia.
    + destruct (negb (negb (step =? 0) || pressed_edge u f raw) && _).
      * intros H. injection H as <- _. unfold _sleep_oled. rewrite Hsl.
        cbn [user_pct set_oled_sleeping]. lia.
      * apply screen_logic_pct.
        destruct (negb (step =? 0) || pressed_edge u f raw);
          cbn [user_pct set_last_activity]; lia.
  - intros H. injection H as <- _.
    destruct (Py.ge _ _); [|exact Hp].
    destruct (negb (_oled_sleeping u)); [|exact Hp].
    unfold _sleep_oled. destruct (_oled_sleeping u); exact Hp.
Qed.

Lemma handle_pct (u u' : UI) (f : Frame) (out : Out) :
  0 <= user_pct u <= 100 ->
  handle u f = Some (u', out) ->
  0 <= user_pct u' <= 100 /\ out_pct out = user_pct u'.
Proof.
  unfold handle. intros Hp H.
  apply bind_some in H. destruct H as ([u1 a] & Ht & Hf).
  apply (transitions_pct u u1 f a Hp) in Ht.
  pose proof (finish_spec u1 f a) as Hs.
  destruct (Py.index (_lang_codes u1) (_lang_idx u1)); [|congruence].
  destruct Hs as (u2 & o2 & Hs & Hc & _ & _ & Ho & _). rewrite Hf in Hs.
  injection Hs as <- <-.
  destruct (core_fields _ _ Hc) as (_ & _ & _ & _ & C5 & _).
  rewrite Ho, C5. split; [exact Ht|reflexivity].
Qed.

(** The brightness half of the range invariant holds on every run: the
    percentage is clamped at [__init__] and at every step on the Brightness
    screen, and every frame answers it. *)
Lemma brightness_in_range (fs : list Frame) :
  forall (u u' : UI) (outs : list Out),
  0 <= user_pct u <= 100 ->
  frames u fs = Some (u', outs) ->
  0 <= user_pct u' <= 100
  /\ Forall (fun o => 0 <= out_pct o <= 100) outs.
Proof.
  induction fs as [|f rest IH]; intros u u' outs Hp H.
  - simpl in H. injection H as <- <-. auto.
  - simpl in H. apply bind_some in H. destruct H as ([u1 o] & Hh & H).
    apply bind_some in H. destruct H as ([u2 os] & Hr & H).
    injection H as <- <-.
    destruct (handle_pct u u1 f o Hp Hh) as [Hp1 Ho].
    destruct (IH u1 u2 os Hp1 Hr) as [I1 I2].
    split; [exact I1|]. constructor; [rewrite Ho; exact Hp1|exact I2].
Qed.

(** C9 fails on the hue: [x % 1.0] is computed in binary64, and for a tiny
    negative [x] the remainder [x + 1.0] rounds to [1.0].  From the state
    [OledUI(oled, 0.33, 50)] starts in, a press into the Color screen and
    twelve frames of rotation back (steps -2, -2, -2 and nine times -3) bring
    the sum to [-2.8e-17] and the hue to exactly [1.0], which the last frame
    answers; no frame of the run raises. *)
Theorem hue_reaches_one :
  init {| sv_hue := None; sv_brightness := None; sv_language := None |}
    0.33 50 ["en"%string; "de"%string] "en"%string 0 0
  = Some fresh
  /\ frames fresh rotate_back = Some (run_of rotate_back)
  /\ screen (fst (run_of rotate_back)) = 1
  /\ hue (fst (run_of rotate_back)) = 1%float
  /\ PrimFloat.ltb (hue (fst (run_of rotate_back))) 1 = false
  /\ map out_hue (skipn 12 (snd (run_of rotate_back))) = [1%float].
Proof. vm_compute. repeat split; reflexivity. Qed.

(** * Further properties of oled_ui.py *)

(** ** The screen-change gate *)

Lemma screen_logic_gate (u u1 : UI) (f : Frame) (step : Z) (edge : bool)
    (a : ResetAction) :
  screen_logic u f step edge = Some (u1, a) ->
  (screen u1 = screen u /\ confirm_for u1 = confirm_for u
   /\ _last_screen_change u1 = _last_screen_change u /\ a = NONE)
  \/ (can_change_screen u f = true
      /\ negb (step =? 0) || edge = true
      /\ _last_screen_change u1 = now f).
Proof.
  intros H. break_screen_logic H;
    cbn [screen confirm_for _last_screen_change set_last_screen_change
         set_screen set_hue set_user_pct set_language set_lang_idx
         set_selection set_confirm_for];
    try (left; repeat split; reflexivity);
    right;
    repeat match goal with
           | E : (_ && _) = true |- _ => apply andb_prop in E; destruct E
           end;
    repeat split; try assumption; try reflexivity;
    repeat match goal with
           | E : ?x = true |- context [?x] => rewrite E
           end;
    try reflexivity; apply orb_true_r.
Qed.

Lemma transitions_gate (u u1 : UI) (f : Frame) (a : ResetAction) :
  transitions u f = Some (u1, a) ->
  (screen u1 = screen u /\ confirm_for u1 = confirm_for u
   /\ _last_screen_change u1 = _last_screen_change u /\ a = NONE)
  \/ (can_change_screen u f = true /\ _oled_sleeping u = false
      /\ has_activity u f = true /\ _last_screen_change u1 = now f).
Proof.
  unfold transitions, has_activity, inputs.
  destruct (encoder f) as [enc|].
  - destruct (read_inputs_safer enc) as [step raw]. cbn [fst snd].
    destruct (track_button_stable u f raw) as (Hst & _ & _).
    destruct (stable_fields _ _ Hst)
      as (S1 & _ & S3 & _ & _ & _ & _ & _ & S9 & S10).
    set (w := track_button u f raw) in *.
    rewrite S9. destruct (_oled_sleeping u) eqn:Hsl.
    + intros H. injection H as <- <-. left.
      destruct (negb (step =? 0) || pressed_edge u f raw);
        unfold _wake_oled;
        cbn [screen confirm_for _last_screen_change set_last_activity
             set_oled_sleeping];
        auto.
    + destruct (negb (negb (step =? 0) || pressed_edge u f raw) && _).
      * intros H. injection H as <- <-. left.
        unfold _sleep_oled. rewrite S9.
        cbn [screen confirm_for _last_screen_change set_oled_sleeping]. auto.
      * intros H. apply screen_logic_gate in H.
        assert (Hw :
          forall x : bool,
            screen (if x then set_last_activity (now f) w else w)
                    = screen u
                    /\ confirm_for
                         (if x then set_last_activity (now f) w else w)
                       = confirm_for u
                    /\ _last_screen_change
                         (if x then set_last_activity (now f) w else w)
                       = _last_screen_change u).
        { intros [|];
            cbn [screen confirm_for _last_screen_change set_last_activity];
            auto. }
        destruct (Hw (negb (step =? 0) || pressed_edge u f raw))
          as (W1 & W2 & W3).
        unfold can_change_screen in *. rewrite W1, W2, W3 in H.
        destruct H as [H|(H1 & H2 & H3)]; [left; exact H|right].
        rewrite H2. auto.
  - intros H. injection H as <- <-. left.
    destruct (Py.ge _ _); [|auto].
    destruct (negb (_oled_sleeping u)); [|auto].
    unfold _sleep_oled. destruct (_oled_sleeping u); auto.
Qed.

(** X1: the screen-change gate.  A frame either leaves the screen,
    [confirm_for] and the time of the last screen change as they were and
    answers the no-op action, or it found the display awake with step or
    press activity and the gate open (more than 0.2 s since the last screen
    change) and stamps the change with its own clock.  So a second press
    edge inside the gate never advances the screen a second time. *)
Theorem screen_moves_only_through_gate (u u' : UI) (f : Frame) (out : Out) :
  handle u f = Some (u', out) ->
  (screen u' = screen u /\ confirm_for u' = confirm_for u
   /\ _last_screen_change u' = _last_screen_change u
   /\ out_action out = NONE)
  \/ (can_change_screen u f = true /\ _oled_sleeping u = false
      /\ has_activity u f = true /\ _last_screen_change u' = now f).
Proof.
  unfold handle. intros H.
  apply bind_some in H. destruct H as ([u1 a] & Ht & Hf).
  apply transitions_gate in Ht.
  pose proof (finish_spec u1 f a) as Hs.
  destruct (Py.index (_lang_codes u1) (_lang_idx u1)); [|congruence].
  destruct Hs as (u2 & o2 & Hs & Hc & Ha & _). rewrite Hf in Hs.
  injection Hs as <- <-.
  destruct (core_fields _ _ Hc)
    as (C1 & _ & C3 & _ & _ & _ & _ & _ & _ & C10 & _).
  rewrite C1, C3, C10, Ha. exact Ht.
Qed.

Lemma screen_moves_only_through_gate_witness :
  let u := after [at_time 1 0 true; at_time 1.0625 0 false] in
  let f := at_time 1.125 0 true in
  handle u f = Some (fst (result u f), snd (result u f))
  /\ pressed_edge u f true = true
  /\ screen u = 1
  /\ screen (fst (result u f)) = 1.
Proof.
  cbn zeta.
  set (u := after [at_time 1 0 true; at_time 1.0625 0 false]).
  set (f := at_time 1.125 0 true).
  assert (H : handle u f = Some (fst (result u f), snd (result u f)))
    by (vm_compute; reflexivity).
  assert (He : pressed_edge u f true = true) by (vm_compute; reflexivity).
  assert (Hu : screen u = 1) by (vm_compute; reflexivity).
  assert (Hc : can_change_screen u f = false) by (vm_compute; reflexivity).
  split; [exact H|]. split; [exact He|]. split; [exact Hu|].
  destruct (screen_moves_only_through_gate u (fst (result u f)) f
              (snd (result u f)) H) as [(K & _)|(K & _)].
  - rewrite K. exact Hu.
  - rewrite Hc in K. discriminate K.
Defined.

(** ** No frame raises *)

Import OledParts.

Lemma index_some {A : Type} (l : list A) (i : Z) :
  0 <= i < Z.of_nat (List.length l) -> exists a, Py.index l i = Some a.
Proof.
  intros H. unfold Py.index.
  assert (E : (0 <=? i) && (i <? Z.of_nat (List.length l)) = true).
  { apply andb_true_intro. split; [apply Z.leb_le|apply Z.ltb_lt]; lia. }
  rewrite E.
  destruct (nth_error l (Z.to_nat i)) as [a|] eqn:N; [exists a; reflexivity|].
  apply nth_error_None in N. lia.
Qed.

Lemma index_nonneg_range {A : Type} (l : list A) (i : Z) (a : A) :
  Py.index l i = Some a -> 0 <= i -> 0 <= i < Z.of_nat (List.length l).
Proof.
  unfold Py.index. intros H Hi.
  destruct ((0 <=? i) && (i <? Z.of_nat (List.length l))) eqn:E.
  - apply andb_prop in E. destruct E as [_ E]. apply Z.ltb_lt in E. lia.
  - destruct ((- Z.of_nat (List.length l) <=? i) && (i <? 0)) eqn:E';
      [|discriminate].
    apply andb_prop in E'. destruct E' as [_ E']. apply Z.ltb_lt in E'. lia.
Qed.

Lemma position_nonneg (x : string) (l : list string) (i : Z) :
  position x l = Some i -> 0 <= i.
Proof.
  revert i. induction l as [|y rest IH]; intros i; simpl; [discriminate|].
  destruct (String.eqb y x); [intros H; injection H as <-; lia|].
  destruct (position x rest) as [j|]; [|discriminate].
  intros H. injection H as <-. specialize (IH j eq_refl). lia.
Qed.

Lemma init_sound (saved : Saved) (initial_hue : float)
    (user_brightness_pct : Z) (codes : list string) (cur : string)
    (t_change t_activity : float) (u : UI) :
  init saved initial_hue user_brightness_pct codes cur t_change t_activity
  = Some u ->
  sound u.
Proof.
  unfold init. intros H. apply bind_some in H. destruct H as (l & Hl & H).
  injection H as <-. unfold sound. simpl. split; [lia|].
  apply (index_nonneg_range _ _ _ Hl).
  destruct (position _ codes) as [i|] eqn:P; [|lia].
  apply (position_nonneg _ _ _ P).
Qed.

Lemma screen_logic_sound (u u1 : UI) (f : Frame) (step : Z) (edge : bool)
    (a : ResetAction) :
  sound u -> screen_logic u f step edge = Some (u1, a) -> sound u1.
Proof.
  unfold sound. intros [Hs Hl] H.
  break_screen_logic H;
    cbn [selection _lang_idx _lang_codes set_last_screen_change set_screen
         set_hue set_user_pct set_language set_lang_idx set_selection
         set_confirm_for];
    split; try assumption;
    try (apply Z.mod_pos_bound; lia).
  all: match goal with
       | E : (_ =? 0) = false |- _ => apply Z.eqb_neq in E
       end;
    apply Z.mod_pos_bound; lia.
Qed.

Lemma screen_logic_returns (u : UI) (f : Frame) (step : Z) (edge : bool) :
  sound u -> Py.float_of_int step <> None ->
  exists r, screen_logic u f step edge = Some r.
Proof.
  intros [Hs Hl] Hc. unfold screen_logic. cbv zeta.
  destruct (screen u =? 0); [eexists; reflexivity|].
  destruct (screen u =? 1).
  { destruct (negb (step =? 0)); [|eexists; reflexivity].
    destruct (Py.float_of_int step) as [k|]; [|congruence].
    eexists; reflexivity. }
  destruct (screen u =? 2); [eexists; reflexivity|].
  destruct (screen u =? 3).
  { destruct (negb (step =? 0)); [|eexists; reflexivity].
    destruct (Z.of_nat (List.length (_lang_codes u)) =? 0) eqn:E0;
      [apply Z.eqb_eq in E0; lia|].
    destruct (index_some (_lang_codes u)
                ((_lang_idx u + step) mod
                   Z.of_nat (List.length (_lang_codes u))))
      as [code Hcode]; [apply Z.mod_pos_bound; lia|].
    rewrite Hcode. eexists; reflexivity. }
  destruct (screen u =? 4).
  { set (u1 := if negb (step =? 0)
               then set_selection ((selection u + step) mod 4) u else u).
    assert (H1 : 0 <= selection u1 < 4).
    { unfold u1. destruct (negb (step =? 0)); [|exact Hs].
      cbn [selection set_selection]. apply Z.mod_pos_bound; lia. }
    destruct (edge && can_change_screen u f); [|eexists; reflexivity].
    destruct (selection u1 =? 0) eqn:E0; [eexists; reflexivity|].
    apply Z.eqb_neq in E0.
    destruct (index_some [WIFI; QR; BOTH] (selection u1 - 1)) as [a Ha];
      [simpl; lia|].
    rewrite Ha. eexists; reflexivity. }
  destruct (screen u =? 5); [|eexists; reflexivity].
  destruct (negb (step =? 0) && can_change_screen u f);
    [eexists; reflexivity|].
  destruct (edge && can_change_screen u f); eexists; reflexivity.
Qed.

Lemma transitions_sound (u u1 : UI) (f : Frame) (a : ResetAction) :
  sound u -> transitions u f = Some (u1, a) -> sound u1.
Proof.
  intros Hs. unfold transitions.
  assert (Hstable : forall w, stable w = stable u -> sound w).
  { intros w Hw.
    destruct (stable_fields _ _ Hw) as (_ & S2 & _ & _ & _ & S6 & S7 & _).
    unfold sound in *. rewrite S2, S6, S7. exact Hs. }
  destruct (encoder f) as [enc|].
  - destruct (read_inputs_safer enc) as [step raw].
    destruct (track_button_stable u f raw) as (Hst & _ & _).
    set (w := track_button u f raw) in *.
    destruct (_oled_sleeping w) eqn:Hsl.
    + intros H. injection H as <- _.
      destruct (negb (step =? 0) || pressed_edge u f raw);
        [|apply Hstable; exact Hst].
      unfold sound, _wake_oled.
      cbn [selection _lang_idx _lang_codes set_last_activity
           set_oled_sleeping].
      apply (Hstable w Hst).
    + destruct (negb (negb (step =? 0) || pressed_edge u f raw) && _).
      * intros H. injection H as <- _.
        unfold _sleep_oled. rewrite Hsl. unfold sound.
        cbn [selection _lang_idx _lang_codes set_oled_sleeping].
        apply (Hstable w Hst).
      * apply screen_logic_sound.
        destruct (negb (step =? 0) || pressed_edge u f raw);
          [|apply Hstable; exact Hst].
        unfold sound.
        cbn [selection _lang_idx _lang_codes set_last_activity].
        apply (Hstable w Hst).
  - intros H. injection H as <- _.
    destruct (Py.ge _ _); [|exact Hs].
    destruct (negb (_oled_sleeping u)); [|exact Hs].
    unfold _sleep_oled. destruct (_oled_sleeping u); exact Hs.
Qed.

Lemma transitions_returns (u : UI) (f : Frame) :
  sound u -> convertible f -> exists r, transitions u f = Some r.
Proof.
  intros Hs Hc. unfold transitions. unfold convertible, inputs in Hc.
  destruct (encoder f) as [enc|]; [|eexists; reflexivity].
  destruct (read_inputs_safer enc) as [step raw]. cbn [fst] in Hc.
  destruct (track_button_stable u f raw) as (Hst & _ & _).
  set (w := track_button u f raw) in *.
  assert (Hw : sound w).
  { destruct (stable_fields _ _ Hst) as (_ & S2 & _ & _ & _ & S6 & S7 & _).
    unfold sound in *. rewrite S2, S6, S7. exact Hs. }
  destruct (_oled_sleeping w); [eexists; reflexivity|].
  destruct (negb (negb (step =? 0) || pressed_edge u f raw) && _);
    [eexists; reflexivity|].
  apply screen_logic_returns; [|exact Hc].
  destruct (negb (step =? 0) || pressed_edge u f raw); [|exact Hw].
  unfold sound. cbn [selection _lang_idx _lang_codes set_last_activity].
  exact Hw.
Qed.

Lemma handle_returns (u : UI) (f : Frame) :
  sound u -> convertible f ->
  exists u' out, handle u f = Some (u', out) /\ sound u'.
Proof.
  intros Hs Hc. unfold handle.
  destruct (transitions_returns u f Hs Hc) as ([u1 a] & Ht).
  pose proof (transitions_sound u u1 f a Hs Ht) as Hs1.
  rewrite Ht. cbn [bind].
  destruct (index_some (_lang_codes u1) (_lang_idx u1) (proj2 Hs1))
    as [l Hl].
  pose proof (finish_spec u1 f a) as Hf. rewrite Hl in Hf.
  destruct Hf as (u' & out & Hf & Hco & _).
  exists u', out. split; [exact Hf|].
  destruct (core_fields _ _ Hco) as (_ & C2 & _ & _ & _ & C6 & C7 & _).
  unfold sound in *. rewrite C2, C6, C7. exact Hs1.
Qed.

Lemma frames_return (fs : list Frame) : forall u : UI,
  sound u -> Forall convertible fs ->
  exists u' outs,
    frames u fs = Some (u', outs)
    /\ List.length outs = List.length fs /\ sound u'.
Proof.
  induction fs as [|f rest IH]; intros u Hs HF.
  - exists u, []. simpl. auto.
  - inversion HF as [|f' rest' Hf Hrest]; subst f' rest'.
    destruct (handle_returns u f Hs Hf) as (u1 & o & Hh & Hs1).
    destruct (IH u1 Hs1 Hrest) as (u2 & os & Hr & Hlen & Hs2).
    exists u2, (o :: os). simpl. rewrite Hh. cbn [bind]. rewrite Hr.
    cbn [bind]. simpl. auto.
Qed.

(** X2: no frame raises.  From the state [__init__] builds, every run of
    frames whose steps convert to a float returns a triple for each frame:
    the selection stays one of the four menu items and the language index
    stays on the list of codes, so neither index of [handle] nor of
    [_check_auto_save] is ever out of range, and the list of codes is never
    empty. *)
Theorem handle_never_raises (saved : Saved) (initial_hue : float)
    (user_brightness_pct : Z) (codes : list string) (cur : string)
    (t_change t_activity : float) (u0 : UI) (fs : list Frame) :
  init saved initial_hue user_brightness_pct codes cur t_change t_activity
  = Some u0 ->
  Forall convertible fs ->
  exists u outs,
    frames u0 fs = Some (u, outs)
    /\ List.length outs = List.length fs
    /\ 0 <= selection u < 4
    /\ 0 <= _lang_idx u < Z.of_nat (List.length (_lang_codes u)).
Proof.
  intros Hi HF.
  destruct (frames_return fs u0 (init_sound _ _ _ _ _ _ _ _ Hi) HF)
    as (u & outs & Hr & Hlen & Hs1 & Hs2).
  exists u, outs. auto.
Qed.

Lemma handle_never_raises_witness :
  (init {| sv_hue := None; sv_brightness := None; sv_language := None |}
     0.33 50 ["en"%string; "de"%string] "en"%string 0 0 = Some fresh
   /\ Forall convertible to_confirm)
  /\ exists u outs,
       frames fresh to_confirm = Some (u, outs)
       /\ List.length outs = List.length to_confirm
       /\ 0 <= selection u < 4
       /\ 0 <= _lang_idx u < Z.of_nat (List.length (_lang_codes u)).
Proof.
  assert (H1 : init {| sv_hue := None; sv_brightness := None;
                       sv_language := None |}
                 0.33 50 ["en"%string; "de"%string] "en"%string 0 0
               = Some fresh) by (vm_compute; reflexivity).
  assert (H2 : Forall convertible to_confirm).
  { unfold to_confirm.
    repeat (constructor; [vm_compute; discriminate|]). constructor. }
  split; [exact (conj H1 H2)|].
  exact (handle_never_raises _ _ _ _ _ _ _ fresh to_confirm H1 H2).
Defined.

(** ** Without an encoder *)

Lemma values_fields (u1 u2 : UI) :
  values u1 = values u2 ->
  hue u1 = hue u2 /\ user_pct u1 = user_pct u2.
Proof.
  unfold values. intros H. injection H. intros. split; assumption.
Qed.

Lemma handle_without_encoder (u u' : UI) (f : Frame) (out : Out) :
  encoder f = None -> handle u f = Some (u', out) ->
  values u' = values u
  /\ out_action out = NONE /\ out_hue out = hue u /\ out_pct out = user_pct u
  /\ (_oled_sleeping u = true -> _oled_sleeping u' = true)
  /\ (_oled_sleeping u' = true ->
      _oled_sleeping u = true
      \/ Py.ge (PrimFloat.sub (now f) (_last_activity u)) OLED_SLEEP_SECS
         = true).
Proof.
  unfold handle, transitions. intros He H. rewrite He in H. cbn [bind] in H.
  set (u1 := if Py.ge (PrimFloat.sub (now f) (_last_activity u))
                  OLED_SLEEP_SECS
             then if negb (_oled_sleeping u) then _sleep_oled u else u
             else u) in *.
  assert (Hv : values u1 = values u
               /\ (_oled_sleeping u = true -> _oled_sleeping u1 = true)
               /\ (_oled_sleeping u1 = true ->
                   _oled_sleeping u = true
                   \/ Py.ge (PrimFloat.sub (now f) (_last_activity u))
                        OLED_SLEEP_SECS = true)).
  { unfold u1, _sleep_oled.
    destruct (Py.ge _ _); [|auto].
    destruct (_oled_sleeping u) eqn:E; simpl; rewrite ?E;
      (split; [reflexivity|]); split; intros; auto; discriminate. }
  destruct Hv as (Hv & Hs1 & Hs2).
  pose proof (finish_spec u1 f NONE) as Hf.
  destruct (Py.index (_lang_codes u1) (_lang_idx u1)); [|congruence].
  destruct Hf as (u2 & o2 & Hf & Hc & Ha & Hh & Hp & _). rewrite H in Hf.
  injection Hf as <- <-.
  destruct (values_fields _ _ Hv) as [V1 V2].
  destruct (core_fields _ _ Hc)
    as (C1 & C2 & C3 & C4 & C5 & _ & C7 & C8 & C9 & _).
  split.
  { unfold values in *. rewrite C1, C2, C3, C4, C5, C7, C8. exact Hv. }
  rewrite Ha, Hh, Hp, V1, V2, C9. auto.
Qed.

(** X3: the no-encoder path.  Over a run of frames that find no encoder,
    the screen, the selection, [confirm_for], hue, brightness and language
    stay what they were, every frame answers the same hue and brightness with
    the no-op action, and a display that is asleep stays asleep: nothing on
    this path wakes it. *)
Theorem without_encoder_nothing_moves (fs : list Frame) :
  forall (u u' : UI) (outs : list Out),
  Forall (fun f => encoder f = None) fs ->
  frames u fs = Some (u', outs) ->
  values u' = values u
  /\ Forall (fun o => out_action o = NONE /\ out_hue o = hue u
                     /\ out_pct o = user_pct u) outs
  /\ (_oled_sleeping u = true -> _oled_sleeping u' = true).
Proof.
  induction fs as [|f rest IH]; intros u u' outs HF H.
  - simpl in H. injection H as <- <-. auto.
  - simpl in H. apply bind_some in H. destruct H as ([u1 o] & Hh & H).
    apply bind_some in H. destruct H as ([u2 os] & Hr & H).
    injection H as <- <-.
    inversion HF as [|f' rest' Hf Hrest]; subst f' rest'.
    destruct (handle_without_encoder u u1 f o Hf Hh)
      as (Hv & Ha & Hhue & Hp & Hs & _).
    destruct (IH u1 u2 os Hrest Hr) as (I1 & I2 & I3).
    destruct (values_fields _ _ Hv) as [V1 V2].
    split; [congruence|]. split; [|auto].
    constructor; [auto|].
    rewrite <- V1, <- V2. exact I2.
Qed.

Lemma without_encoder_nothing_moves_witness :
  (Forall (fun f => encoder f = None) left_alone
   /\ frames (after to_confirm) left_alone
      = Some (after (to_confirm ++ left_alone),
              skipn 9 (snd (run_of (to_confirm ++ left_alone)))))
  /\ values (after (to_confirm ++ left_alone)) = values (after to_confirm)
  /\ _oled_sleeping (after (to_confirm ++ left_alone)) = true.
Proof.
  assert (H1 : Forall (fun f => encoder f = None) left_alone)
    by (repeat constructor).
  assert (H2 : frames (after to_confirm) left_alone
               = Some (after (to_confirm ++ left_alone),
                       skipn 9 (snd (run_of (to_confirm ++ left_alone)))))
    by (vm_compute; reflexivity).
  assert (H3 : _oled_sleeping (after (to_confirm ++ left_alone)) = true)
    by (vm_compute; reflexivity).
  split; [exact (conj H1 H2)|].
  destruct (without_encoder_nothing_moves left_alone (after to_confirm)
              _ _ H1 H2) as (K1 & _ & _).
  exact (conj K1 H3).
Defined.

(** ** Brightness *)

Lemma percents_cover (P : Z -> Prop) :
  Forall P percents -> forall z, 0 <= z <= 100 -> P z.
Proof.
  intros HF z Hz. rewrite Forall_forall in HF. apply HF.
  unfold percents. replace z with (Z.of_nat (Z.to_nat z)) by lia.
  apply in_map. apply in_seq. lia.
Qed.

(** For each percentage from 0 to 100 the scaled level lies between 0 and
    [MAX_LED_BRIGHT], so that the clamp of [run_totp_display] leaves it as
    it is. *)
Lemma scaled_within_cap :
  Forall (fun pct =>
            actual_bright pct = scaled pct
            /\ match scaled pct with
               | Some b =>
                   PrimFloat.leb 0 b = true
                   /\ PrimFloat.leb b MAX_LED_BRIGHT = true
               | None => False
               end) percents.
Proof.
  unfold percents. cbn [seq map Z.of_nat].
  repeat (constructor; [vm_compute; repeat split; reflexivity|]).
  constructor.
Qed.

(** X4: the brightness cap.  In every state a run of frames reaches from
    [__init__] the brightness percentage is within [0, 100], and so is the
    one every frame answered; [actual_brightness] then lies between 0 and
    [MAX_LED_BRIGHT] (0.80), and the level [run_totp_display] computes from
    the answered percentage is that same value: its clamp never cuts. *)
Theorem brightness_capped (saved : Saved) (initial_hue : float)
    (user_brightness_pct : Z) (codes : list string) (cur : string)
    (t_change t_activity : float) (fs : list Frame) (u0 u : UI)
    (outs : list Out) :
  init saved initial_hue user_brightness_pct codes cur t_change t_activity
  = Some u0 ->
  frames u0 fs = Some (u, outs) ->
  0 <= user_pct u <= 100
  /\ Forall (fun o => 0 <= out_pct o <= 100
                     /\ actual_bright (out_pct o) = scaled (out_pct o)) outs
  /\ actual_bright (user_pct u) = actual_brightness u
  /\ match actual_brightness u with
     | Some b =>
         PrimFloat.leb 0 b = true /\ PrimFloat.leb b MAX_LED_BRIGHT = true
     | None => False
     end.
Proof.
  intros Hi Hr.
  destruct (init_invariant _ _ _ _ _ _ _ _ Hi) as [_ H0].
  destruct (brightness_in_range fs u0 u outs H0 Hr) as [Hu Ho].
  split; [exact Hu|]. split.
  - rewrite Forall_forall in *. intros o Hin. specialize (Ho o Hin).
    split; [exact Ho|].
    exact (proj1 (percents_cover _ scaled_within_cap (out_pct o) Ho)).
  - exact (percents_cover _ scaled_within_cap (user_pct u) Hu).
Qed.

Lemma brightness_capped_witness :
  (init {| sv_hue := None; sv_brightness := None; sv_language := None |}
     0.33 50 ["en"%string; "de"%string] "en"%string 0 0 = Some fresh
   /\ frames fresh to_confirm
      = Some (after to_confirm, snd (run_of to_confirm)))
  /\ 0 <= user_pct (after to_confirm) <= 100
  /\ actual_bright (user_pct (after to_confirm))
     = actual_brightness (after to_confirm).
Proof.
  assert (H1 : init {| sv_hue := None; sv_brightness := None;
                       sv_language := None |}
                 0.33 50 ["en"%string; "de"%string] "en"%string 0 0
               = Some fresh) by (vm_compute; reflexivity).
  assert (H2 : frames fresh to_confirm
               = Some (after to_confirm, snd (run_of to_confirm)))
    by (vm_compute; reflexivity).
  split; [exact (conj H1 H2)|].
  destruct (brightness_capped _ _ _ _ _ _ _ to_confirm fresh
              (after to_confirm) (snd (run_of to_confirm)) H1 H2)
    as (K1 & _ & K3 & _).
  exact (conj K1 K3).
Defined.

(** ** The scrolling text *)

Lemma clip_inside (n i : Z) : 0 <= i -> 0 <= n -> clip n i = Z.min n i.
Proof.
  intros Hi Hn. unfold clip.
  destruct (i <? 0) eqn:E; [apply Z.ltb_lt in E; lia|]. lia.
Qed.

Lemma slice_length {A : Type} (l : list A) (a b : Z) :
  0 <= a <= b ->
  Z.of_nat (List.length (slice l a b))
  = Z.min (Z.of_nat (List.length l)) b - Z.min (Z.of_nat (List.length l)) a.
Proof.
  intros H. unfold slice. rewrite !clip_inside by lia.
  rewrite length_firstn, length_skipn. lia.
Qed.

Lemma slice_nth {A : Type} (l : list A) (a b : Z) (i : nat) :
  0 <= a <= b -> (i < List.length (slice l a b))%nat ->
  nth_error (slice l a b) i = nth_error l (Z.to_nat a + i).
Proof.
  intros H Hi.
  pose proof (slice_length l a b H) as HL.
  unfold slice in *. rewrite !clip_inside in * by lia.
  rewrite nth_error_firstn.
  destruct (Nat.ltb_spec i
              (Z.to_nat (Z.min (Z.of_nat (List.length l)) b
                         - Z.min (Z.of_nat (List.length l)) a))) as [Hlt|Hge].
  - rewrite nth_error_skipn. f_equal. lia.
  - rewrite length_firstn, length_skipn in Hi. lia.
Qed.

Lemma extended_is_marquee {A : Type} (space : A) (text : list A) (j : nat) :
  (j < 2 * List.length text + 3)%nat ->
  nth_error (text ++ [space; space; space] ++ text) j
  = nth_error (marquee A space text) (j mod (List.length text + 3)).
Proof.
  intros Hj. unfold marquee. rewrite app_assoc.
  assert (HL : List.length (text ++ [space; space; space])
               = (List.length text + 3)%nat)
    by (rewrite length_app; reflexivity).
  destruct (Nat.lt_ge_cases j (List.length text + 3)) as [Hlt|Hge].
  - rewrite Nat.mod_small by exact Hlt.
    apply nth_error_app1. rewrite HL. exact Hlt.
  - rewrite nth_error_app2 by (rewrite HL; exact Hge). rewrite HL.
    replace (j mod (List.length text + 3))%nat
      with (j - (List.length text + 3))%nat.
    + symmetry. apply nth_error_app1. lia.
    + apply Nat.mod_unique with (q := 1%nat); lia.
Qed.

(** The window [_get_scrolling_text] cuts, for a start within the extended
    text: [max_width] characters read cyclically from [start]. *)
Lemma window_spec {A : Type} (ext : list A) (start max_width : Z) :
  0 <= start < Z.of_nat (List.length ext) ->
  0 <= max_width < Z.of_nat (List.length ext) ->
  let v := slice ext start (start + max_width) in
  let shown :=
    if Z.of_nat (List.length v) <? max_width
    then v ++ slice ext 0 (max_width - Z.of_nat (List.length v))
    else v in
  Z.of_nat (List.length shown) = max_width
  /\ forall i, 0 <= i < max_width ->
       nth_error shown (Z.to_nat i)
       = nth_error ext
           (Z.to_nat ((start + i) mod Z.of_nat (List.length ext))).
Proof.
  intros Hs Hw. cbn zeta.
  set (n := Z.of_nat (List.length ext)) in *.
  set (v := slice ext start (start + max_width)).
  assert (Hv : Z.of_nat (List.length v) = Z.min n (start + max_width) - start).
  { unfold v. rewrite slice_length by lia. fold n. lia. }
  assert (Hvn : forall i : nat, (i < List.length v)%nat ->
                nth_error v i = nth_error ext (Z.to_nat start + i)).
  { intros i Hi. unfold v. apply slice_nth; [lia|exact Hi]. }
  destruct (Z.of_nat (List.length v) <? max_width) eqn:E.
  - apply Z.ltb_lt in E.
    set (w := slice ext 0 (max_width - Z.of_nat (List.length v))).
    assert (Hwl : Z.of_nat (List.length w)
                  = max_width - Z.of_nat (List.length v)).
    { unfold w. rewrite slice_length by lia. fold n. lia. }
    assert (Hwn : forall i : nat, (i < List.length w)%nat ->
                  nth_error w i = nth_error ext i).
    { intros i Hi. unfold w. rewrite slice_nth by (try lia; exact Hi).
      reflexivity. }
    split; [rewrite length_app; lia|].
    intros i Hi.
    destruct (Z.lt_ge_cases i (Z.of_nat (List.length v))) as [Hlt|Hge].
    + rewrite nth_error_app1 by lia. rewrite Hvn by lia.
      rewrite Z.mod_small by lia. f_equal. lia.
    + rewrite nth_error_app2 by lia. rewrite Hwn by lia.
      f_equal.
      replace ((start + i) mod n) with (start + i - n).
      * lia.
      * apply Z.mod_unique with (q := 1); lia.
  - apply Z.ltb_ge in E. split; [lia|].
    intros i Hi. rewrite Hvn by lia.
    rewrite Z.mod_small by lia. f_equal. lia.
Qed.

(** X11: the scrolling window.  For a text longer than [max_width],
    [_get_scrolling_text] returns exactly [max_width] characters, read
    cyclically out of [text + "   " + text] from the scroll position; when
    that position is below [len(text) + 3] (it is whenever this call advanced
    it) the window is a stretch of the endless marquee [text + "   "],
    starting [_scroll_pos] characters in. *)
Theorem scrolling_text_window {A : Type} (space : A) (sc : Scroller)
    (now : float) (text : list A) (max_width : Z) :
  0 <= max_width < Z.of_nat (List.length text) ->
  let r := _get_scrolling_text A space sc now text max_width in
  let extended_text := text ++ [space; space; space] ++ text in
  let period := Z.of_nat (List.length text) + 3 in
  let start_pos :=
    _scroll_pos (fst r) mod Z.of_nat (List.length extended_text) in
  Z.of_nat (List.length (snd r)) = max_width
  /\ (forall i, 0 <= i < max_width ->
        nth_error (snd r) (Z.to_nat i)
        = nth_error extended_text
            (Z.to_nat ((start_pos + i)
                       mod Z.of_nat (List.length extended_text))))
  /\ (0 <= _scroll_pos (fst r) < period ->
      forall i, 0 <= i < max_width ->
        nth_error (snd r) (Z.to_nat i)
        = nth_error (marquee A space text)
            (Z.to_nat ((_scroll_pos (fst r) + i) mod period)))
  /\ (Py.ge (PrimFloat.sub now (_scroll_timer sc)) _scroll_speed = true ->
      _scroll_pos (fst r) = (_scroll_pos sc + 1) mod period
      /\ 0 <= _scroll_pos (fst r) < period).
Proof.
  intros Hw. cbn zeta. unfold _get_scrolling_text.
  destruct (Z.of_nat (List.length text) <=? max_width) eqn:E;
    [apply Z.leb_le in E; lia|]. clear E.
  set (sc' := if Py.ge (PrimFloat.sub now (_scroll_timer sc)) _scroll_speed
              then _ else sc).
  set (ext := text ++ [space; space; space] ++ text).
  assert (Hn : Z.of_nat (List.length ext)
               = 2 * Z.of_nat (List.length text) + 3).
  { unfold ext. rewrite !length_app. cbn [List.length]. lia. }
  set (start := _scroll_pos sc' mod Z.of_nat (List.length ext)).
  assert (Hstart : 0 <= start < Z.of_nat (List.length ext))
    by (apply Z.mod_pos_bound; lia).
  destruct (window_spec ext start max_width Hstart) as [W1 W2]; [lia|].
  cbn zeta in W1, W2. cbn [fst snd].
  split; [exact W1|]. split; [exact W2|]. split.
  - intros Hp i Hi. rewrite (W2 i Hi).
    assert (Hst : start = _scroll_pos sc')
      by (unfold start; apply Z.mod_small; lia).
    rewrite Hst, Z.mod_small by lia.
    unfold ext. rewrite extended_is_marquee by lia.
    f_equal.
    rewrite <- (Nat2Z.id (_ mod _)%nat).
    f_equal. rewrite Nat2Z.inj_mod, Z2Nat.id by lia.
    f_equal. lia.
  - intros Hup. unfold sc'. rewrite Hup. cbn [_scroll_pos].
    split; [reflexivity|]. apply Z.mod_pos_bound. lia.
Qed.

Lemma scrolling_text_window_witness :
  0 <= 3 < Z.of_nat (List.length [1; 2; 3; 4; 5])
  /\ snd (_get_scrolling_text Z 0 {| _scroll_pos := 0; _scroll_timer := 0 |}
            1 [1; 2; 3; 4; 5] 3) = [2; 3; 4]
  /\ Z.of_nat (List.length
                 (snd (_get_scrolling_text Z 0
                         {| _scroll_pos := 0; _scroll_timer := 0 |}
                         1 [1; 2; 3; 4; 5] 3))) = 3.
Proof.
  assert (H : 0 <= 3 < Z.of_nat (List.length [1; 2; 3; 4; 5]))
    by (cbn; lia).
  split; [exact H|]. split; [vm_compute; reflexivity|].
  exact (proj1 (scrolling_text_window 0
                  {| _scroll_pos := 0; _scroll_timer := 0 |} 1
                  [1; 2; 3; 4; 5] 3 H)).
Defined.

(** ** The language line of wifi_config.txt *)

Lemma universal_newlines_plain (s : list Z) :
  forallb (fun c => negb (c =? 13)) s = true ->
  universal_newlines false s = s.
Proof.
  induction s as [|c rest IH]; [reflexivity|].
  cbn [forallb universal_newlines andb]. intros H.
  apply andb_prop in H. destruct H as [Hc Hrest].
  apply negb_true_iff in Hc. rewrite Hc, (IH Hrest). reflexivity.
Qed.

Lemma one_line_no_cr (l : list Z) :
  one_line l = true -> forallb (fun c => negb (c =? 13)) l = true.
Proof.
  unfold one_line. induction l as [|c rest IH]; [reflexivity|].
  cbn [forallb]. intros H. apply andb_prop in H. destruct H as [Hc Hrest].
  rewrite (IH Hrest), andb_true_r.
  unfold is_linebreak in Hc. destruct (c =? 13); [|reflexivity].
  rewrite !orb_true_r in Hc. cbn in Hc. 
  destruct (c =? 10); cbn in Hc; discriminate Hc.
Qed.

Lemma unlines_cons (l : list Z) (rest : list (list Z)) :
  unlines (l :: rest) = l ++ 10 :: unlines rest.
Proof.
  unfold unlines. cbn [flat_map]. rewrite <- app_assoc. reflexivity.
Qed.

Lemma unlines_no_cr (ls : list (list Z)) :
  forallb one_line ls = true ->
  forallb (fun c => negb (c =? 13)) (unlines ls) = true.
Proof.
  induction ls as [|l rest IH]; [reflexivity|].
  cbn [forallb]. intros H. apply andb_prop in H. destruct H as [Hl Hrest].
  rewrite unlines_cons, forallb_app. cbn [forallb].
  rewrite (one_line_no_cr l Hl), (IH Hrest). reflexivity.
Qed.

Lemma splitlines_line (l : list Z) (rest : list Z) :
  one_line l = true ->
  splitlines_from false (l ++ 10 :: rest) = l :: splitlines_from false rest.
Proof.
  unfold one_line. induction l as [|c l IH]; intros H.
  - reflexivity.
  - cbn [forallb] in H. apply andb_prop in H. destruct H as [Hc Hl].
    apply negb_true_iff in Hc.
    cbn [app splitlines_from andb]. rewrite Hc, (IH Hl). reflexivity.
Qed.

Lemma splitlines_unlines (ls : list (list Z)) :
  forallb one_line ls = true -> splitlines (unlines ls) = ls.
Proof.
  unfold splitlines.
  induction ls as [|l rest IH]; [reflexivity|].
  cbn [forallb]. intros H. apply andb_prop in H. destruct H as [Hl Hrest].
  rewrite unlines_cons, splitlines_line by exact Hl.
  rewrite (IH Hrest). reflexivity.
Qed.

Lemma join_unlines (ls : list (list Z)) :
  ls <> [] -> join ls ++ [10] = unlines ls.
Proof.
  induction ls as [|l rest IH]; [congruence|]. intros _.
  rewrite unlines_cons.
  destruct rest as [|l2 rest].
  - reflexivity.
  - change (join (l :: l2 :: rest)) with (l ++ 10 :: join (l2 :: rest)).
    rewrite <- app_assoc. cbn [app].
    rewrite IH by discriminate. reflexivity.
Qed.

(** X12: [_persist_language_to_wifi_config] on a file of plain lines.
    When [wifi_config.txt] is made of lines that each end in a line feed and
    hold no other boundary of [str.splitlines], the text written is again
    made of such lines: the lines read, padded with empty lines to four,
    with the language code as the fourth; every other line that was there,
    the three credential lines among them, is written back as it was. *)
Theorem persist_language_keeps_credentials (ls : list (list Z))
    (lang_code : list Z) :
  forallb one_line ls = true ->
  exists out,
    _persist_language_to_wifi_config (Holding (unlines ls)) lang_code
    = Some (unlines out)
    /\ List.length out = Nat.max 4 (List.length ls)
    /\ nth_error out 3 = Some lang_code
    /\ (forall i, i <> 3%nat -> (i < List.length ls)%nat ->
         nth_error out i = nth_error ls i)
    /\ (forall i, (List.length ls <= i < 3)%nat ->
         nth_error out i = Some []).
Proof.
  intros Hls.
  cbn [_persist_language_to_wifi_config].
  rewrite universal_newlines_plain by (apply unlines_no_cr; exact Hls).
  rewrite splitlines_unlines by exact Hls.
  set (padded := ls ++ repeat [] (4 - List.length ls)).
  exists (firstn 3 padded ++ lang_code :: skipn 4 padded).
  assert (Hp : (4 <= List.length padded)%nat
               /\ List.length padded = Nat.max 4 (List.length ls)).
  { unfold padded. rewrite length_app, repeat_length. lia. }
  destruct Hp as [Hp4 Hpl].
  assert (Hf : List.length (firstn 3 padded) = 3%nat)
    by (rewrite length_firstn; lia).
  assert (Hpn : forall i, (i < List.length ls)%nat ->
                nth_error padded i = nth_error ls i).
  { intros i Hi. unfold padded. apply nth_error_app1. exact Hi. }
  split.
  { rewrite join_unlines; [reflexivity|].
    destruct (firstn 3 padded); discriminate. }
  split; [rewrite length_app; cbn [List.length];
          rewrite Hf, length_skipn; lia|].
  split; [rewrite nth_error_app2 by lia; rewrite Hf; reflexivity|].
  split.
  - intros i Hne Hi.
    destruct (Nat.lt_ge_cases i 3) as [Hlt|Hge].
    + rewrite nth_error_app1 by lia. rewrite nth_error_firstn.
      destruct (Nat.ltb_spec i 3); [|lia]. apply Hpn. exact Hi.
    + rewrite nth_error_app2 by lia. rewrite Hf.
      destruct (i - 3)%nat as [|k] eqn:Ek; [lia|].
      cbn [nth_error]. rewrite nth_error_skipn.
      replace (4 + k)%nat with i by lia. apply Hpn. exact Hi.
  - intros i Hi. rewrite nth_error_app1 by lia. rewrite nth_error_firstn.
    destruct (Nat.ltb_spec i 3); [|lia].
    unfold padded. rewrite nth_error_app2 by lia.
    apply nth_error_repeat. lia.
Qed.

Lemma persist_language_keeps_credentials_witness :
  forallb one_line plain_config = true
  /\ exists out,
       _persist_language_to_wifi_config (Holding (unlines plain_config))
         (code_points "de")
       = Some (unlines out)
       /\ List.length out = Nat.max 4 (List.length plain_config)
       /\ nth_error out 3 = Some (code_points "de")
       /\ (forall i, i <> 3%nat -> (i < List.length plain_config)%nat ->
            nth_error out i = nth_error plain_config i)
       /\ (forall i, (List.length plain_config <= i < 3)%nat ->
            nth_error out i = Some []).
Proof.
  split; [reflexivity|].
  exact (persist_language_keeps_credentials plain_config (code_points "de")
           eq_refl).
Defined.

(** The hypothesis on the lines is needed: [splitlines] also cuts at a form
    feed, so a password holding one comes back as two lines, and the
    language code lands on the country line. *)
Lemma form_feed_splits_password :
  _persist_language_to_wifi_config (Holding form_feed_config)
    (code_points "de")
  = Some (unlines [code_points "MyNet"; code_points "pass";
                   code_points "word"; code_points "de";
                   code_points "en"]).
Proof. vm_compute. reflexivity. Qed.

(** ** The scope of a reset *)

(** X13: the scope of [perform_reset].  [user_settings.json] is never
    deleted and no file is created; a Wi-Fi reset leaves the secret and its
    QR image alone, a QR reset leaves [wifi_config.txt] alone;
    [files_deleted] names exactly the files that were there and are gone;
    when deleting the secret raises, the QR image is not deleted either; and
    whatever [which] is and whatever fails, a reboot command is tried. *)
Theorem reset_scope (which : ResetAction) (fs : Files) (ft : Faults) :
  let r := perform_reset which fs ft in
  let fs' := fst (fst r) in
  let deleted := snd (fst r) in
  user_settings fs' = user_settings fs
  /\ (wifi_config fs' = true -> wifi_config fs = true)
  /\ (otp_secret fs' = true -> otp_secret fs = true)
  /\ (otp_qr fs' = true -> otp_qr fs = true)
  /\ (which = NONE \/ which = QR -> wifi_config fs' = wifi_config fs)
  /\ (which = NONE \/ which = WIFI ->
      otp_secret fs' = otp_secret fs /\ otp_qr fs' = otp_qr fs)
  /\ (In "wifi_config.txt"%string deleted <->
      wifi_config fs = true /\ wifi_config fs' = false)
  /\ (In "otp_secret.txt"%string deleted <->
      otp_secret fs = true /\ otp_secret fs' = false)
  /\ (In "otp_qr.png"%string deleted <->
      otp_qr fs = true /\ otp_qr fs' = false)
  /\ (otp_secret fs = true -> unlink_secret_raises ft = true ->
      otp_qr fs' = otp_qr fs)
  /\ (In Reboot (snd r) \/ In RebootForce (snd r)).
Proof.
  destruct fs as [w s q us], ft as [fw fsec fq fsy fr ff].
  destruct which, w, s, q, fw, fsec, fq; cbn;
    (split; [reflexivity|]);
    repeat (split; [solve [intuition (try discriminate; try congruence)]|]);
    destruct fsy, fr, ff; cbn; intuition.
Qed.

(** ** Saved settings and the next start *)

Lemma position_first (c : string) (l : list string) :
  In c l ->
  exists i, position c l = Some i /\ Py.index l i = Some c.
Proof.
  induction l as [|y rest IH]; intros Hin; [destruct Hin|].
  cbn [position]. destruct (String.eqb y c) eqn:E.
  - apply String.eqb_eq in E. subst y. exists 0. split; reflexivity.
  - destruct Hin as [Hy|Hin];
      [subst y; rewrite String.eqb_refl in E; discriminate|].
    destruct (IH Hin) as (i & Hp & Hi). rewrite Hp.
    exists (i + 1). split; [reflexivity|].
    pose proof (position_nonneg _ _ _ Hp) as H0.
    pose proof (index_nonneg_range _ _ _ Hi H0) as Hr.
    unfold Py.index in *.
    assert (E1 : (0 <=? i) && (i <? Z.of_nat (List.length rest)) = true).
    { apply andb_true_intro. split; [apply Z.leb_le|apply Z.ltb_lt]; lia. }
    assert (E2 : (0 <=? i + 1)
                 && (i + 1 <? Z.of_nat (List.length (y :: rest))) = true).
    { apply andb_true_intro. cbn [List.length].
      split; [apply Z.leb_le|apply Z.ltb_lt]; lia. }
    rewrite E1 in Hi. rewrite E2.
    replace (Z.to_nat (i + 1)) with (S (Z.to_nat i)) by lia.
    exact Hi.
Qed.

Lemma check_auto_save_saved (u u' : UI) (f : Frame) (st : Settings) :
  _check_auto_save u f = Some (u', Some st) ->
  s_hue st = hue u /\ s_brightness st = user_pct u
  /\ Py.index (_lang_codes u) (_lang_idx u) = Some (s_language st)
  /\ _settings_dirty u' = false
  /\ _last_saved_hue u' = hue u'
  /\ _last_saved_brightness u' = user_pct u'
  /\ _last_saved_lang u' = s_language st.
Proof.
  unfold _check_auto_save, _save_settings. intros H.
  apply bind_some in H. destruct H as (l & Hl & H).
  match type of H with
  | context [if ?c then set_dirty_since _ _ else _] => destruct c
  end;
  cbn [_settings_dirty _last_setting_change set_dirty_since _lang_codes
       _lang_idx hue user_pct] in H;
  match type of H with
  | (if ?c then _ else _) = _ => destruct c; [|discriminate]
  end;
  rewrite Hl in H;
  (destruct (save_ok f); [|discriminate]);
  injection H as <- <-; cbn; repeat split; auto.
Qed.

(** Reachable states keep the index on the list and the percentage in
    range. *)
Lemma handle_keeps_ranges (u u' : UI) (f : Frame) (out : Out) :
  sound u /\ 0 <= user_pct u <= 100 ->
  handle u f = Some (u', out) ->
  sound u' /\ 0 <= user_pct u' <= 100.
Proof.
  intros [Hs Hp] H. split; [|exact (proj1 (handle_pct u u' f out Hp H))].
  unfold handle in H. apply bind_some in H.
  destruct H as ([u1 a] & Ht & Hf).
  pose proof (transitions_sound u u1 f a Hs Ht) as Hs1.
  pose proof (finish_spec u1 f a) as Hfs.
  destruct (Py.index (_lang_codes u1) (_lang_idx u1)); [|congruence].
  destruct Hfs as (u2 & o2 & Hfs & Hco & _). rewrite Hf in Hfs.
  injection Hfs as <- <-.
  destruct (core_fields _ _ Hco) as (_ & C2 & _ & _ & _ & C6 & C7 & _).
  unfold sound in *. rewrite C2, C6, C7. exact Hs1.
Qed.

(** X14: what the autosave writes, the next start restores.  When a frame
    of a run from [__init__] saves, the record holds the hue and the
    brightness that frame returns and the language code in force; an
    [OledUI] built from that record over the same language list starts with
    the same brightness and the same language code, with the saved hue taken
    [% 1.0], and clean. *)
Theorem saved_settings_restore (saved : Saved) (initial_hue : float)
    (user_brightness_pct : Z) (codes : list string) (cur : string)
    (t_change t_activity : float) (fs : list Frame) (u0 u u' : UI)
    (outs : list Out) (f : Frame) (o : Out) (st : Settings)
    (initial_hue' : float) (user_brightness_pct' : Z) (cur' : string)
    (t_change' t_activity' : float) :
  init saved initial_hue user_brightness_pct codes cur t_change t_activity
  = Some u0 ->
  frames u0 fs = Some (u, outs) ->
  handle u f = Some (u', o) ->
  out_saved o = Some st ->
  s_hue st = out_hue o /\ s_brightness st = out_pct o
  /\ Py.index (_lang_codes u') (_lang_idx u') = Some (s_language st)
  /\ _settings_dirty u' = false
  /\ exists u2,
       init (reload st) initial_hue' user_brightness_pct' (_lang_codes u')
         cur' t_change' t_activity' = Some u2
       /\ user_pct u2 = user_pct u'
       /\ Py.index (_lang_codes u2) (_lang_idx u2) = Some (s_language st)
       /\ hue u2 = Py.mod1 (hue u')
       /\ _settings_dirty u2 = false.
Proof.
  intros Hi Hr Hh Hsv.
  assert (H0 : sound u0 /\ 0 <= user_pct u0 <= 100).
  { split; [exact (init_sound _ _ _ _ _ _ _ _ Hi)|].
    exact (proj2 (init_invariant _ _ _ _ _ _ _ _ Hi)). }
  pose proof (frames_keep (fun w => sound w /\ 0 <= user_pct w <= 100)
                handle_keeps_ranges fs u0 u outs H0 Hr) as Hu.
  destruct (handle_keeps_ranges u u' f o Hu Hh) as [Hs' Hp'].
  destruct (handle_autosave u u' f o Hh) as (u1 & _ & Hc & Hoh & Hop).
  rewrite Hsv in Hc.
  pose proof (check_auto_save_core u1 f) as Hcore.
  destruct (check_auto_save_saved u1 u' f st Hc)
    as (S1 & S2 & S3 & S4 & _).
  rewrite S3 in Hcore. destruct Hcore as (w & sv & Hw & Hco).
  rewrite Hc in Hw. injection Hw as <- _.
  destruct (core_fields _ _ Hco) as (_ & _ & _ & C4 & C5 & C6 & C7 & _).
  rewrite <- C6, <- C7 in S3. rewrite <- C4 in S1. rewrite <- C5 in S2.
  split; [congruence|]. split; [congruence|]. split; [exact S3|].
  split; [exact S4|].
  destruct (position_first (s_language st) (_lang_codes u')
              (index_in _ _ _ S3)) as (i & Hpos & Hidx).
  unfold init, reload. cbn [sv_hue sv_brightness sv_language].
  rewrite Hpos, Hidx. cbn [bind].
  eexists. split; [reflexivity|].
  cbn [user_pct _lang_codes _lang_idx hue _settings_dirty].
  split; [unfold clamp_pct; lia|]. split; [exact Hidx|].
  split; [rewrite S1; reflexivity|reflexivity].
Qed.

Lemma saved_settings_restore_witness :
  (init {| sv_hue := None; sv_brightness := None; sv_language := None |}
     0.33 50 ["en"%string; "de"%string] "en"%string 0 0 = Some fresh
   /\ frames fresh saving_run
      = Some (after saving_run, snd (run_of saving_run))
   /\ handle (after saving_run) saving_frame
      = Some (fst (result (after saving_run) saving_frame),
              snd (result (after saving_run) saving_frame))
   /\ out_saved (snd (result (after saving_run) saving_frame))
      = Some written)
  /\ s_brightness written
     = out_pct (snd (result (after saving_run) saving_frame))
  /\ _settings_dirty (fst (result (after saving_run) saving_frame)) = false.
Proof.
  assert (H1 : init {| sv_hue := None; sv_brightness := None;
                       sv_language := None |}
                 0.33 50 ["en"%string; "de"%string] "en"%string 0 0
               = Some fresh) by (vm_compute; reflexivity).
  assert (H2 : frames fresh saving_run
               = Some (after saving_run, snd (run_of saving_run)))
    by (vm_compute; reflexivity).
  assert (H3 : handle (after saving_run) saving_frame
               = Some (fst (result (after saving_run) saving_frame),
                       snd (result (after saving_run) saving_frame)))
    by (vm_compute; reflexivity).
  assert (H4 : out_saved (snd (result (after saving_run) saving_frame))
               = Some written) by (vm_compute; reflexivity).
  split; [exact (conj H1 (conj H2 (conj H3 H4)))|].
  destruct (saved_settings_restore _ _ _ _ _ _ _ saving_run fresh
              (after saving_run)
              (fst (result (after saving_run) saving_frame))
              (snd (run_of saving_run)) saving_frame
              (snd (result (after saving_run) saving_frame)) written
              0.33 50 "en"%string 0 0 H1 H2 H3 H4)
    as (_ & K2 & _ & K4 & _).
  exact (conj K2 K4).
Defined.

(** ** A reset takes two presses *)

Lemma screen_logic_enters (u u1 : UI) (f : Frame) (step : Z) (edge : bool)
    (a : ResetAction) :
  screen_logic u f step edge = Some (u1, a) ->
  screen u1 = 5 ->
  (screen u = 5 /\ _last_screen_change u1 = _last_screen_change u
   /\ confirm_for u1 = confirm_for u)
  \/ (screen u = 4 /\ edge = true /\ _last_screen_change u1 = now f).
Proof.
  intros H. break_screen_logic H; try screen_number;
    cbn [screen _last_screen_change confirm_for set_last_screen_change
         set_screen set_hue set_user_pct set_language set_lang_idx
         set_selection set_confirm_for];
    intros H5; try lia; try discriminate H5;
    try (left; split; [assumption|split; reflexivity]);
    try (left; split; [lia|split; reflexivity]).
  all: right;
    repeat match goal with
           | E : (_ && _) = true |- _ => apply andb_prop in E; destruct E
           end;
    repeat split; try assumption; try reflexivity.
Qed.

Lemma screen_logic_button (u u1 : UI) (f : Frame) (step : Z) (edge : bool)
    (a : ResetAction) :
  screen_logic u f step edge = Some (u1, a) ->
  _btn_was_pressed u1 = _btn_was_pressed u.
Proof.
  intros H. break_screen_logic H;
    cbn [_btn_was_pressed set_last_screen_change set_screen set_hue
         set_user_pct set_language set_lang_idx set_selection
         set_confirm_for];
    reflexivity.
Qed.

Lemma pressed_edge_raw (u : UI) (f : Frame) (raw : bool) :
  pressed_edge u f raw = true -> raw = true /\ _btn_was_pressed u = false.
Proof.
  unfold pressed_edge. intros H.
  apply andb_prop in H. destruct H as [H _].
  apply andb_prop in H. destruct H as [H H'].
  apply negb_true_iff in H'. auto.
Qed.

Lemma transitions_enters (u u1 : UI) (f : Frame) (a : ResetAction) :
  transitions u f = Some (u1, a) ->
  screen u1 = 5 ->
  (screen u = 5 /\ _last_screen_change u1 = _last_screen_change u
   /\ confirm_for u1 = confirm_for u)
  \/ (screen u = 4 /\ snd (inputs f) = true
      /\ _last_screen_change u1 = now f).
Proof.
  unfold transitions, inputs.
  destruct (encoder f) as [enc|].
  - destruct (read_inputs_safer enc) as [step raw]. cbn [fst snd].
    destruct (track_button_stable u f raw) as (Hst & _ & _).
    destruct (stable_fields _ _ Hst)
      as (S1 & _ & S3 & _ & _ & _ & _ & _ & S9 & S10).
    set (w := track_button u f raw) in *.
    assert (Hsame : forall v, screen v = screen w ->
                      _last_screen_change v = _last_screen_change w ->
                      confirm_for v = confirm_for w ->
                      screen v = 5 ->
                      (screen u = 5
                       /\ _last_screen_change v = _last_screen_change u
                       /\ confirm_for v = confirm_for u)
                      \/ (screen u = 4 /\ raw = true
                          /\ _last_screen_change v = now f)).
    { intros v V1 V2 V3 V5. left. repeat split; congruence. }
    destruct (_oled_sleeping w).
    + intros H. injection H as <- _.
      apply Hsame;
        destruct (negb (step =? 0) || pressed_edge u f raw); reflexivity.
    + destruct (negb (negb (step =? 0) || pressed_edge u f raw) && _).
      * intros H. injection H as <- _. apply Hsame;
          unfold _sleep_oled; destruct (_oled_sleeping w); reflexivity.
      * intros H H5.
        set (v := if negb (step =? 0) || pressed_edge u f raw
                  then set_last_activity (now f) w else w) in H.
        assert (V1 : screen v = screen u)
          by (unfold v; destruct (negb (step =? 0) || pressed_edge u f raw);
              exact S1).
        assert (V2 : _last_screen_change v = _last_screen_change u)
          by (unfold v; destruct (negb (step =? 0) || pressed_edge u f raw);
              exact S10).
        assert (V3 : confirm_for v = confirm_for u)
          by (unfold v; destruct (negb (step =? 0) || pressed_edge u f raw);
              exact S3).
        destruct (screen_logic_enters v u1 f step _ a H H5)
          as [(E1 & E2 & E3)|(E1 & E2 & E3)].
        -- left. repeat split; congruence.
        -- right. split; [congruence|].
           split; [exact (proj1 (pressed_edge_raw u f raw E2))|exact E3].
  - intros H. injection H as <- _. intros H5. left.
    destruct (Py.ge _ OLED_SLEEP_SECS); [|auto].
    destruct (negb (_oled_sleeping u)); [|auto].
    unfold _sleep_oled in *. destruct (_oled_sleeping u); auto.
Qed.

(** A frame with an encoder leaves in [_btn_was_pressed] what its burst saw
    of the button; a frame without one leaves the flag alone. *)
Lemma transitions_button (u u1 : UI) (f : Frame) (a : ResetAction) :
  transitions u f = Some (u1, a) ->
  _btn_was_pressed u1
  = match encoder f with
    | Some enc => snd (read_inputs_safer enc)
    | None => _btn_was_pressed u
    end.
Proof.
  unfold transitions.
  destruct (encoder f) as [enc|].
  - destruct (read_inputs_safer enc) as [step raw]. cbn [fst snd].
    assert (Hw : _btn_was_pressed (track_button u f raw) = raw)
      by reflexivity.
    set (w := track_button u f raw) in *.
    destruct (_oled_sleeping w).
    + intros H. injection H as <- _.
      destruct (negb (step =? 0) || pressed_edge u f raw); exact Hw.
    + destruct (negb (negb (step =? 0) || pressed_edge u f raw) && _).
      * intros H. injection H as <- _.
        unfold _sleep_oled; destruct (_oled_sleeping w); exact Hw.
      * intros H. apply screen_logic_button in H. rewrite H.
        destruct (negb (step =? 0) || pressed_edge u f raw); exact Hw.
  - intros H. injection H as <- _.
    destruct (Py.ge _ OLED_SLEEP_SECS); [|reflexivity].
    destruct (negb (_oled_sleeping u)); [|reflexivity].
    unfold _sleep_oled. destruct (_oled_sleeping u); reflexivity.
Qed.

Lemma handle_enters (u u' : UI) (f : Frame) (o : Out) :
  handle u f = Some (u', o) ->
  _btn_was_pressed u'
  = match encoder f with
    | Some enc => snd (read_inputs_safer enc)
    | None => _btn_was_pressed u
    end
  /\ (screen u' = 5 ->
      (screen u = 5 /\ _last_screen_change u' = _last_screen_change u
       /\ confirm_for u' = confirm_for u)
      \/ (screen u = 4 /\ snd (inputs f) = true
          /\ _last_screen_change u' = now f)).
Proof.
  unfold handle. intros H.
  apply bind_some in H. destruct H as ([u1 a] & Ht & Hf).
  pose proof (finish_spec u1 f a) as Hs.
  destruct (Py.index (_lang_codes u1) (_lang_idx u1)); [|congruence].
  destruct Hs as (u2 & o2 & Hs & Hc & _). rewrite Hf in Hs.
  injection Hs as <- <-.
  destruct (core_fields _ _ Hc)
    as (C1 & _ & C3 & _ & _ & _ & _ & _ & _ & C10 & _).
  assert (Cb : _btn_was_pressed u' = _btn_was_pressed u1)
    by (unfold core in Hc; congruence).
  split.
  - rewrite Cb. exact (transitions_button u u1 f a Ht).
  - intros H5. rewrite C1 in H5. rewrite C10, C3.
    exact (transitions_enters u u1 f a Ht H5).
Qed.

Lemma frames_snoc (fs : list Frame) : forall (u u1 u2 : UI)
    (outs : list Out) (f : Frame) (o : Out),
  frames u fs = Some (u1, outs) -> handle u1 f = Some (u2, o) ->
  frames u (fs ++ [f]) = Some (u2, outs ++ [o]).
Proof.
  induction fs as [|g rest IH]; intros u u1 u2 outs f o H Hh.
  - simpl in H. injection H as <- <-. simpl. rewrite Hh. reflexivity.
  - simpl in H. apply bind_some in H. destruct H as ([v og] & Hg & H).
    apply bind_some in H. destruct H as ([v2 os] & Hr & H).
    injection H as <- <-.
    cbn [app frames]. rewrite Hg. cbn [bind].
    rewrite (IH v v2 u2 os f o Hr Hh). reflexivity.
Qed.

Lemma frames_entered (u0 : UI) (fs : list Frame) :
  forall past u u' outs0 outs,
  frames u0 past = Some (u, outs0) ->
  entered_by u0 past u -> frames u fs = Some (u', outs) ->
  entered_by u0 (past ++ fs) u'.
Proof.
  induction fs as [|f rest IH]; intros past u u' outs0 outs Hp He H.
  - simpl in H. injection H as <- _. rewrite app_nil_r. exact He.
  - simpl in H. apply bind_some in H. destruct H as ([u1 o] & Hh & H).
    apply bind_some in H. destruct H as ([u2 os] & Hr & H).
    injection H as <- _.
    replace (past ++ f :: rest) with ((past ++ [f]) ++ rest)
      by (rewrite <- app_assoc; reflexivity).
    apply (IH (past ++ [f]) u1 u2 (outs0 ++ [o]) os);
      [exact (frames_snoc past u0 u u1 outs0 f o Hp Hh)| |exact Hr].
    intros H5. destruct (handle_enters u u1 f o Hh) as [Hb Hen].
    destruct (Hen H5) as [(E1 & E2 & E3)|(E1 & E2 & E3)].
    + destruct (He E1)
        as (pre & g & post & ug & ug' & og0 & og & K1 & K2 & K3 & K4 & K5
            & K6 & K7 & K8 & K9).
      exists pre, g, (post ++ [f]), ug, ug', og0, og.
      split; [rewrite K1, <- app_assoc; reflexivity|].
      repeat (split; [assumption || congruence|]).
      intros Hup. rewrite existsb_app. rewrite Hb in Hup.
      unfold button_up at 2. cbn [existsb].
      destruct (encoder f) as [enc|].
      * rewrite Hup. cbn [negb orb]. apply orb_true_r.
      * rewrite (K9 Hup). reflexivity.
    + exists past, f, [], u, u1, outs0, o.
      repeat (split; [assumption || reflexivity|]).
      intros Hup. rewrite Hb in Hup. unfold inputs in E2.
      destruct (encoder f) as [enc|]; cbn [snd] in E2; congruence.
Qed.

(** X16: a reset takes two press reports with a release between them.
    Whenever a frame [f] of a run from [__init__] returns a reset action,
    its burst saw a press, and the run before it splits at an earlier frame
    [g] that came from the reset menu into Confirm on a press: the action
    returned is the one [g] left pending, [g] lies more than 0.2 s before
    [f] by the frame clock, and some frame between the two had an encoder
    whose burst saw no press.  The presses are those [pressed()] reports to
    the bursts. *)
Theorem reset_takes_two_presses (saved : Saved) (initial_hue : float)
    (user_brightness_pct : Z) (codes : list string) (cur : string)
    (t_change t_activity : float) (fs : list Frame) (u0 u u' : UI)
    (outs : list Out) (f : Frame) (o : Out) :
  init saved initial_hue user_brightness_pct codes cur t_change t_activity
  = Some u0 ->
  frames u0 fs = Some (u, outs) ->
  handle u f = Some (u', o) ->
  out_action o <> NONE ->
  snd (inputs f) = true
  /\ exists (pre : list Frame) (g : Frame) (post : list Frame) (ug ug' : UI)
            (outs_pre : list Out) (og : Out),
       fs = pre ++ g :: post
       /\ frames u0 pre = Some (ug, outs_pre)
       /\ handle ug g = Some (ug', og)
       /\ screen ug = 4 /\ screen ug' = 5
       /\ snd (inputs g) = true
       /\ out_action o = pending_action ug'
       /\ Py.gt (PrimFloat.sub (now f) (now g)) 0.2 = true
       /\ existsb button_up post = true.
Proof.
  intros Hi Hr Hh Ha.
  assert (H0 : entered_by u0 [] u0).
  { unfold init in Hi. apply bind_some in Hi. destruct Hi as (l & _ & Hi).
    injection Hi as <-. intros H5. discriminate H5. }
  pose proof (frames_entered u0 fs [] u0 u [] outs eq_refl H0 Hr) as He.
  cbn [app] in He.
  pose proof (handle_action u u' f o Hh) as Hact. rewrite Hact in Ha.
  unfold confirms in Ha, Hact.
  destruct (encoder f) as [enc|] eqn:Ee; [|congruence].
  destruct (negb (_oled_sleeping u) && (screen u =? 5)
            && pressed_edge u f (snd (inputs f))
            && (fst (inputs f) =? 0) && can_change_screen u f) eqn:E;
    [|congruence].
  apply andb_prop in E. destruct E as [E Hcan].
  apply andb_prop in E. destruct E as [E _].
  apply andb_prop in E. destruct E as [E Hedge].
  apply andb_prop in E. destruct E as [_ H5]. apply Z.eqb_eq in H5.
  destruct (pressed_edge_raw _ _ _ Hedge) as [Hraw Hwas].
  split; [exact Hraw|].
  destruct (He H5)
    as (pre & g & post & ug & ug' & og0 & og & K1 & K2 & K3 & K4 & K5
        & K6 & K7 & K8 & K9).
  exists pre, g, post, ug, ug', og0, og.
  repeat (split; [assumption|]).
  split; [rewrite Hact; unfold pending_action; rewrite K8; reflexivity|].
  split; [|exact (K9 Hwas)].
  unfold can_change_screen in Hcan. rewrite K7 in Hcan. exact Hcan.
Qed.

Lemma reset_takes_two_presses_witness :
  (init {| sv_hue := None; sv_brightness := None; sv_language := None |}
     0.33 50 ["en"%string; "de"%string] "en"%string 0 0 = Some fresh
   /\ frames fresh (to_confirm ++ [at_time 5.5 0 false])
      = Some (after (to_confirm ++ [at_time 5.5 0 false]),
              snd (run_of (to_confirm ++ [at_time 5.5 0 false])))
   /\ handle (after (to_confirm ++ [at_time 5.5 0 false])) (at_time 6 0 true)
      = Some (fst (result (after (to_confirm ++ [at_time 5.5 0 false]))
                     (at_time 6 0 true)),
              snd (result (after (to_confirm ++ [at_time 5.5 0 false]))
                     (at_time 6 0 true)))
   /\ out_action (snd (result (after (to_confirm ++ [at_time 5.5 0 false]))
                         (at_time 6 0 true))) = WIFI)
  /\ snd (inputs (at_time 6 0 true)) = true
  /\ exists (pre : list Frame) (g : Frame) (post : list Frame)
            (ug ug' : UI) (outs_pre : list Out) (og : Out),
       to_confirm ++ [at_time 5.5 0 false] = pre ++ g :: post
       /\ frames fresh pre = Some (ug, outs_pre)
       /\ handle ug g = Some (ug', og)
       /\ screen ug = 4 /\ screen ug' = 5
       /\ snd (inputs g) = true
       /\ out_action (snd (result (after (to_confirm
                                           ++ [at_time 5.5 0 false]))
                              (at_time 6 0 true)))
          = pending_action ug'
       /\ Py.gt (PrimFloat.sub (now (at_time 6 0 true)) (now g)) 0.2 = true
       /\ existsb button_up post = true.
Proof.
  assert (H1 : init {| sv_hue := None; sv_brightness := None;
                       sv_language := None |}
                 0.33 50 ["en"%string; "de"%string] "en"%string 0 0
               = Some fresh) by (vm_compute; reflexivity).
  assert (H2 : frames fresh (to_confirm ++ [at_time 5.5 0 false])
               = Some (after (to_confirm ++ [at_time 5.5 0 false]),
                       snd (run_of (to_confirm ++ [at_time 5.5 0 false]))))
    by (vm_compute; reflexivity).
  assert (H3 : handle (after (to_confirm ++ [at_time 5.5 0 false]))
                 (at_time 6 0 true)
               = Some (fst (result (after (to_confirm
                                           ++ [at_time 5.5 0 false]))
                              (at_time 6 0 true)),
                       snd (result (after (to_confirm
                                           ++ [at_time 5.5 0 false]))
                              (at_time 6 0 true))))
    by (vm_compute; reflexivity).
  assert (H4 : out_action (snd (result (after (to_confirm
                                               ++ [at_time 5.5 0 false]))
                                  (at_time 6 0 true))) = WIFI)
    by (vm_compute; reflexivity).
  assert (H5 : out_action (snd (result (after (to_confirm
                                               ++ [at_time 5.5 0 false]))
                                  (at_time 6 0 true))) <> NONE)
    by (rewrite H4; discriminate).
  split; [exact (conj H1 (conj H2 (conj H3 H4)))|].
  exact (reset_takes_two_presses _ _ _ _ _ _ _
           (to_confirm ++ [at_time 5.5 0 false]) fresh
           (after (to_confirm ++ [at_time 5.5 0 false]))
           (fst (result (after (to_confirm ++ [at_time 5.5 0 false]))
                   (at_time 6 0 true)))
           (snd (run_of (to_confirm ++ [at_time 5.5 0 false])))
           (at_time 6 0 true)
           (snd (result (after (to_confirm ++ [at_time 5.5 0 false]))
                   (at_time 6 0 true)))
           H1 H2 H3 H5).
Defined.

(** ** Each setting changes on its own screen *)

Lemma screen_logic_own_screen (u u1 : UI) (f : Frame) (step : Z)
    (edge : bool) (a : ResetAction) :
  screen_logic u f step edge = Some (u1, a) ->
  (step = 0 -> settings u1 = settings u)
  /\ (hue u1 = hue u \/ screen u = 1)
  /\ (user_pct u1 = user_pct u \/ screen u = 2)
  /\ (_lang_idx u1 = _lang_idx u /\ language u1 = language u
      \/ screen u = 3)
  /\ (selection u1 = selection u \/ screen u = 4).
Proof.
  intros H. unfold settings.
  break_screen_logic H; try screen_number;
    cbn [hue user_pct _lang_idx language selection set_last_screen_change
         set_screen set_hue set_user_pct set_language set_lang_idx
         set_selection set_confirm_for];
    (split; [intros H0; subst step;
             try reflexivity; try discriminate|]);
    repeat split; auto.
Qed.

Lemma settings_stable (u w : UI) :
  stable w = stable u -> settings w = settings u.
Proof.
  intros H.
  destruct (stable_fields _ _ H)
    as (_ & S2 & _ & S4 & S5 & _ & S7 & S8 & _).
  unfold settings. congruence.
Qed.

Lemma settings_fields (u w : UI) :
  settings w = settings u ->
  hue w = hue u /\ user_pct w = user_pct u /\ _lang_idx w = _lang_idx u
  /\ language w = language u /\ selection w = selection u.
Proof.
  unfold settings. intros H. injection H. intros. repeat split; assumption.
Qed.

Lemma transitions_own_screen (u u1 : UI) (f : Frame) (a : ResetAction) :
  transitions u f = Some (u1, a) ->
  (fst (inputs f) = 0 \/ _oled_sleeping u = true -> settings u1 = settings u)
  /\ (hue u1 = hue u \/ screen u = 1)
  /\ (user_pct u1 = user_pct u \/ screen u = 2)
  /\ (_lang_idx u1 = _lang_idx u /\ language u1 = language u
      \/ screen u = 3)
  /\ (selection u1 = selection u \/ screen u = 4).
Proof.
  assert (Hsame : settings u1 = settings u ->
                  (fst (inputs f) = 0 \/ _oled_sleeping u = true ->
                   settings u1 = settings u)
                  /\ (hue u1 = hue u \/ screen u = 1)
                  /\ (user_pct u1 = user_pct u \/ screen u = 2)
                  /\ (_lang_idx u1 = _lang_idx u /\ language u1 = language u
                      \/ screen u = 3)
                  /\ (selection u1 = selection u \/ screen u = 4)).
  { intros H. destruct (settings_fields _ _ H) as (F1 & F2 & F3 & F4 & F5).
    repeat split; auto. }
  unfold transitions, inputs in *.
  destruct (encoder f) as [enc|].
  - destruct (read_inputs_safer enc) as [step raw]. cbn [fst snd] in *.
    destruct (track_button_stable u f raw) as (Hst & _ & _).
    pose proof (settings_stable _ _ Hst) as Hw.
    destruct (stable_fields _ _ Hst)
      as (S1 & _ & _ & _ & _ & _ & _ & _ & S9 & _).
    set (w := track_button u f raw) in *.
    rewrite S9. destruct (_oled_sleeping u) eqn:Hsl.
    + intros H. injection H as <- _. apply Hsame.
      destruct (negb (step =? 0) || pressed_edge u f raw);
        [unfold _wake_oled|]; exact Hw.
    + destruct (negb (negb (step =? 0) || pressed_edge u f raw) && _).
      * intros H. injection H as <- _. apply Hsame.
        unfold _sleep_oled. destruct (_oled_sleeping w); exact Hw.
      * intros H.
        set (v := if negb (step =? 0) || pressed_edge u f raw
                  then set_last_activity (now f) w else w) in H.
        assert (V1 : settings v = settings u)
          by (unfold v; destruct (negb (step =? 0) || pressed_edge u f raw);
              exact Hw).
        assert (V2 : screen v = screen u)
          by (unfold v; destruct (negb (step =? 0) || pressed_edge u f raw);
              exact S1).
        destruct (settings_fields _ _ V1) as (F1 & F2 & F3 & F4 & F5).
        destruct (screen_logic_own_screen v u1 f step _ a H)
          as (L0 & L1 & L2 & L3 & L4).
        rewrite F1, F2, F3, F4, F5, V2 in *.
        split; [|auto].
        intros [H0|H0]; [|discriminate H0].
        rewrite (L0 H0). exact V1.
  - intros H. injection H as <- _. apply Hsame.
    destruct (Py.ge _ OLED_SLEEP_SECS); [|reflexivity].
    destruct (negb (_oled_sleeping u)); [|reflexivity].
    unfold _sleep_oled. destruct (_oled_sleeping u); reflexivity.
Qed.

(** X17: each setting changes on its own screen only.  A frame without
    rotation, or with the display asleep, changes none of hue, brightness,
    language and menu selection, whatever the button does; and a frame that
    changes the hue was on the Color screen, one that changes the brightness
    on the Brightness screen, the language on the Language screen, the
    selection on the Reset menu. *)
Theorem settings_change_on_own_screen (u u' : UI) (f : Frame) (o : Out) :
  handle u f = Some (u', o) ->
  (fst (inputs f) = 0 \/ _oled_sleeping u = true -> settings u' = settings u)
  /\ (hue u' = hue u \/ screen u = 1)
  /\ (user_pct u' = user_pct u \/ screen u = 2)
  /\ (_lang_idx u' = _lang_idx u /\ language u' = language u
      \/ screen u = 3)
  /\ (selection u' = selection u \/ screen u = 4).
Proof.
  unfold handle. intros H.
  apply bind_some in H. destruct H as ([u1 a] & Ht & Hf).
  pose proof (finish_spec u1 f a) as Hs.
  destruct (Py.index (_lang_codes u1) (_lang_idx u1)); [|congruence].
  destruct Hs as (u2 & o2 & Hs & Hc & _). rewrite Hf in Hs.
  injection Hs as <- <-.
  destruct (core_fields _ _ Hc)
    as (_ & C2 & _ & C4 & C5 & _ & C7 & C8 & _).
  unfold settings. rewrite C2, C4, C5, C7, C8.
  exact (transitions_own_screen u u1 f a Ht).
Qed.

Lemma settings_change_on_own_screen_witness :
  handle (after to_color) (at_time 2 1 true)
  = Some (fst (result (after to_color) (at_time 2 1 true)),
          snd (result (after to_color) (at_time 2 1 true)))
  /\ user_pct (fst (result (after to_color) (at_time 2 1 true)))
     = user_pct (after to_color)
  /\ screen (after to_color) = 1.
Proof.
  assert (H : handle (after to_color) (at_time 2 1 true)
              = Some (fst (result (after to_color) (at_time 2 1 true)),
                      snd (result (after to_color) (at_time 2 1 true))))
    by (vm_compute; reflexivity).
  split; [exact H|].
  destruct (settings_change_on_own_screen _ _ _ _ H)
    as (_ & _ & [K|K] & _).
  - split; [exact K|vm_compute; reflexivity].
  - split; vm_compute; reflexivity.
Defined.

(** ** Going to sleep *)

Lemma screen_logic_awake (u u1 : UI) (f : Frame) (step : Z) (edge : bool)
    (a : ResetAction) :
  screen_logic u f step edge = Some (u1, a) ->
  _oled_sleeping u1 = _oled_sleeping u
  /\ _last_activity u1 = _last_activity u.
Proof.
  intros H. break_screen_logic H;
    cbn [_oled_sleeping _last_activity set_last_screen_change set_screen
         set_hue set_user_pct set_language set_lang_idx set_selection
         set_confirm_for];
    split; reflexivity.
Qed.

Lemma transitions_sleep (u u1 : UI) (f : Frame) (a : ResetAction) :
  transitions u f = Some (u1, a) ->
  _oled_sleeping u = false ->
  (_oled_sleeping u1
   = negb (has_activity u f)
     && Py.ge (PrimFloat.sub (now f) (_last_activity u)) OLED_SLEEP_SECS)
  /\ (_oled_sleeping u1 = true ->
      values u1 = values u /\ a = NONE
      /\ _last_activity u1 = _last_activity u)
  /\ (has_activity u f = true -> _last_activity u1 = now f).
Proof.
  unfold transitions, has_activity, inputs.
  destruct (encoder f) as [enc|].
  - destruct (read_inputs_safer enc) as [step raw]. cbn [fst snd].
    destruct (track_button_stable u f raw) as (Hst & _ & Hla).
    destruct (stable_fields _ _ Hst)
      as (S1 & S2 & S3 & S4 & S5 & S6 & S7 & S8 & S9 & S10).
    set (w := track_button u f raw) in *.
    assert (Hv : values w = values u)
      by (unfold values; congruence).
    intros H Hsl. rewrite S9, Hsl in H.
    destruct (negb (step =? 0) || pressed_edge u f raw) eqn:Hact;
      cbn [negb andb] in *.
    + apply screen_logic_awake in H.
      cbn [_oled_sleeping _last_activity set_last_activity] in H.
      destruct H as [H1 H2]. rewrite H1, S9, Hsl, H2.
      split; [reflexivity|]. split; [discriminate|auto].
    + rewrite Hla in H.
      destruct (Py.ge (PrimFloat.sub (now f) (_last_activity u))
                  OLED_SLEEP_SECS) eqn:Hidle.
      * injection H as <- <-. unfold _sleep_oled. rewrite S9, Hsl.
        cbn [_oled_sleeping set_oled_sleeping].
        split; [reflexivity|]. split; [|discriminate].
        intros _. split; [exact Hv|]. split; [reflexivity|exact Hla].
      * apply screen_logic_awake in H. destruct H as [H1 H2].
        rewrite H1, S9, Hsl. split; [reflexivity|].
        split; discriminate.
  - intros H Hsl. injection H as <- <-. cbn [negb andb].
    rewrite Hsl. cbn [negb].
    destruct (Py.ge (PrimFloat.sub (now f) (_last_activity u))
                OLED_SLEEP_SECS).
    + unfold _sleep_oled. rewrite Hsl.
      cbn [_oled_sleeping set_oled_sleeping].
      split; [reflexivity|]. split; [auto|discriminate].
    + rewrite Hsl. split; [reflexivity|]. split; discriminate.
Qed.

(** X24: going to sleep.  A frame that finds the display awake leaves it
    asleep exactly when it brought no activity (no rotation, no press edge,
    or no encoder at all) and came [OLED_SLEEP_SECS] or more after the last
    activity; such a frame changes no setting and no screen and returns no
    reset action.  A frame with activity stamps [_last_activity] with its
    own clock. *)
Theorem sleeps_after_idle (u u' : UI) (f : Frame) (o : Out) :
  handle u f = Some (u', o) ->
  _oled_sleeping u = false ->
  (_oled_sleeping u'
   = negb (has_activity u f)
     && Py.ge (PrimFloat.sub (now f) (_last_activity u)) OLED_SLEEP_SECS)
  /\ (_oled_sleeping u' = true ->
      values u' = values u /\ out_action o = NONE
      /\ _last_activity u' = _last_activity u)
  /\ (has_activity u f = true -> _last_activity u' = now f).
Proof.
  unfold handle. intros H Hsl.
  apply bind_some in H. destruct H as ([u1 a] & Ht & Hf).
  pose proof (finish_spec u1 f a) as Hs.
  destruct (Py.index (_lang_codes u1) (_lang_idx u1)); [|congruence].
  destruct Hs as (u2 & o2 & Hs & Hc & Ha & _). rewrite Hf in Hs.
  injection Hs as <- <-.
  destruct (core_fields _ _ Hc)
    as (C1 & C2 & C3 & C4 & C5 & C6 & C7 & C8 & C9 & C10 & C11).
  assert (Hv : values u' = values u1) by (unfold values; congruence).
  rewrite C9, C11, Hv, Ha.
  exact (transitions_sleep u u1 f a Ht Hsl).
Qed.

Lemma sleeps_after_idle_witness :
  (handle (after to_color) (at_time 12 0 false)
   = Some (fst (result (after to_color) (at_time 12 0 false)),
           snd (result (after to_color) (at_time 12 0 false)))
   /\ _oled_sleeping (after to_color) = false)
  /\ _oled_sleeping (fst (result (after to_color) (at_time 12 0 false)))
     = true.
Proof.
  assert (H1 : handle (after to_color) (at_time 12 0 false)
               = Some (fst (result (after to_color) (at_time 12 0 false)),
                       snd (result (after to_color) (at_time 12 0 false))))
    by (vm_compute; reflexivity).
  assert (H2 : _oled_sleeping (after to_color) = false)
    by (vm_compute; reflexivity).
  split; [exact (conj H1 H2)|].
  rewrite (proj1 (sleeps_after_idle _ _ _ _ H1 H2)).
  vm_compute. reflexivity.
Defined.

(** * Further properties of encoder.py *)

Import Encoder.
Import EncoderParts.

(** ** The burst reader *)

Lemma poll_call_side (e : Env) (s : Sampler) (r : Reads) :
  _ok (poll e s r) = _ok s /\ has_sw (poll e s r) = has_sw s
  /\ _stop (poll e s r) = _stop s
  /\ (_press_latch s = true -> _press_latch (poll e s r) = true).
Proof.
  destruct s as [ok sw stop al wait ce st acc stp latch bl blc].
  destruct r as [[[a b]|] rs t];
    unfold poll, release_wait, quad_section, button_section,
      note_error, decode; simpl;
    destruct al, wait, stop; simpl; try (repeat split; auto; fail);
    repeat match goal with
           | |- context [if ?c then _ else _] => destruct c; simpl
           | |- context [match ?c with Some _ => _ | None => _ end] =>
               destruct c; simpl
           end;
    repeat split; auto.
Qed.

Lemma polls_silent (e : Env) (rs : list Reads) : forall s,
  snd (run e s (map Poll rs)) = [].
Proof.
  induction rs as [|r rs IH]; intros s; [reflexivity|].
  cbn [map]. rewrite run_cons. cbn [step fst snd app]. apply IH.
Qed.

Lemma polls_call_side (e : Env) (rs : list Reads) : forall s,
  let s' := fst (run e s (map Poll rs)) in
  _ok s' = _ok s /\ has_sw s' = has_sw s
  /\ (_press_latch s = true -> _press_latch s' = true).
Proof.
  induction rs as [|r rs IH]; intros s; cbn zeta.
  - simpl. auto.
  - cbn [map]. rewrite run_cons. cbn [step fst snd].
    destruct (poll_call_side e s r) as (P1 & P2 & _ & P4).
    destruct (IH (poll e s r)) as (I1 & I2 & I3). cbn zeta in *.
    rewrite I1, I2, P1, P2. auto.
Qed.

Lemma burst_events_cons (g : list Reads * list Reads)
    (rest : list (list Reads * list Reads)) :
  burst_events (g :: rest)
  = map Poll (fst g)
    ++ CallSteps :: map Poll (snd g) ++ CallPressed :: burst_events rest.
Proof.
  unfold burst_events. cbn [flat_map]. rewrite <- !app_assoc.
  reflexivity.
Qed.

(** The burst is the run of its events. *)
Lemma burst_run (e : Env) (gaps : list (list Reads * list Reads)) :
  forall s,
  fst (burst e s gaps) = fst (run e s (burst_events gaps))
  /\ List.length (snd (burst e s gaps)) = List.length gaps
  /\ forall acc any,
      fold_left
        (fun (acc : Z * bool) (sample : option Z * option bool) =>
           let '(total_steps, any_press) := acc in
           let '(s, p) := sample in
           (match s with Some n => total_steps + n | None => total_steps end,
            match p with Some true => true | _ => any_press end))
        (snd (burst e s gaps)) (acc, any)
      = (acc + drained (snd (run e s (burst_events gaps))),
         any || (0 <? presses (snd (run e s (burst_events gaps))))).
Proof.
  induction gaps as [|[before between] rest IH]; intros s.
  - simpl. split; [reflexivity|]. split; [reflexivity|]. intros acc any.
    rewrite Z.add_0_r, orb_false_r. reflexivity.
  - rewrite burst_events_cons. cbn [burst fst snd].
    rewrite (run_app e (map Poll before)), polls_silent. cbn [fst snd app].
    set (s1 := fst (run e s (map Poll before))).
    rewrite run_cons. cbn [step].
    destruct (steps s1) as [n s2] eqn:Es. cbn [fst snd app].
    rewrite (run_app e (map Poll between)), polls_silent. cbn [fst snd app].
    set (s3 := fst (run e s2 (map Poll between))).
    rewrite run_cons. cbn [step].
    destruct (pressed s3) as [b s4] eqn:Ep. cbn [fst snd app].
    destruct (IH s4) as (I1 & I2 & I3).
    destruct (burst e s4 rest) as [s5 l] eqn:Eb. cbn [fst snd] in *.
    split; [exact I1|]. split; [simpl; congruence|].
    intros acc any. cbn [fold_left]. rewrite I3.
    cbn [drained presses].
    pose proof (presses_nonneg (snd (run e s4 (burst_events rest)))) as Hp.
    f_equal; [lia|].
    destruct b; cbn [presses].
    + replace (0 <? 1 + presses (snd (run e s4 (burst_events rest))))
        with true by (symmetry; apply Z.ltb_lt; lia).
      rewrite orb_true_r. reflexivity.
    + reflexivity.
Qed.

(** A latched press is still there after the first sample's turns. *)
Lemma burst_finds_latch (e : Env) (g : list Reads * list Reads)
    (rest : list (list Reads * list Reads)) (s : Sampler) :
  pending_press s = true ->
  0 < presses (snd (run e s (burst_events (g :: rest)))).
Proof.
  intros Hp. unfold pending_press in Hp.
  apply andb_prop in Hp. destruct Hp as [Hp Hl].
  apply andb_prop in Hp. destruct Hp as [Hok Hsw].
  destruct g as [before between].
  rewrite burst_events_cons. cbn [fst snd].
  rewrite (run_app e (map Poll before)), polls_silent. cbn [fst snd app].
  destruct (polls_call_side e before s) as (A1 & A2 & A3). cbn zeta in *.
  set (s1 := fst (run e s (map Poll before))) in *.
  rewrite run_cons. cbn [step].
  unfold steps. rewrite A1, Hok. cbn [negb fst snd app].
  set (s2 := set_quad (_state s1) (_accum s1) 0 s1).
  rewrite (run_app e (map Poll between)), polls_silent. cbn [fst snd app].
  destruct (polls_call_side e between s2) as (B1 & B2 & B3). cbn zeta in *.
  set (s3 := fst (run e s2 (map Poll between))) in *.
  rewrite run_cons. cbn [step].
  unfold pressed.
  assert (C1 : _ok s2 = true)
    by (unfold s2; cbn [_ok set_quad]; rewrite A1; exact Hok).
  assert (C2 : has_sw s2 = true)
    by (unfold s2; cbn [has_sw set_quad]; rewrite A2; exact Hsw).
  rewrite B1, B2, C1, C2. cbn [negb orb].
  rewrite B3 by (unfold s2; cbn [_press_latch set_quad]; apply A3, Hl).
  cbn [fst snd app presses].
  pose proof (presses_nonneg
                (snd (run e (set_latch false s3) (burst_events rest)))).
  lia.
Qed.

(** X5: the burst reader loses no rotation.  Over the five samples of
    [_read_inputs_safer] against a working [Encoder], with the thread taking
    any turns between the calls, the total it returns and what is still
    pending in the encoder account for every transition the table counted:
    [(total + _steps) * PPR + _accum] grows by exactly the sum of the deltas
    polled, and the residue stays below one detent.  A press that was
    latched when the burst began is reported by it. *)
Theorem burst_loses_nothing (e : Env) (s : Sampler)
    (gaps : list (list Reads * list Reads)) :
  _ok s = true -> Z.abs (_accum s) < PPR e -> List.length gaps = 5%nat ->
  let s' := fst (burst e s gaps) in
  let got := OledUI.read_inputs_safer (snd (burst e s gaps)) in
  let ds := deltas (_state s) (polled e s (burst_events gaps)) in
  (fst got + _steps s') * PPR e + _accum s'
  = _steps s * PPR e + _accum s + total ds
  /\ Z.abs (_accum s') < PPR e
  /\ (pending_press s = true -> snd got = true).
Proof.
  intros Hok Hacc Hlen. cbn zeta.
  destruct (burst_run e gaps s) as (R1 & R2 & R3).
  unfold OledUI.read_inputs_safer.
  rewrite firstn_all2 by lia. rewrite R3, R1. cbn [fst snd orb].
  destruct (run_account e (burst_events gaps) s Hok Hacc)
    as (_ & A2 & A3 & _). cbn zeta in *.
  split; [rewrite Z.add_0_l; exact A3|]. split; [exact A2|].
  intros Hp. destruct gaps as [|g rest]; [discriminate|].
  apply Z.ltb_lt. apply burst_finds_latch. exact Hp.
Qed.

Lemma burst_loses_nothing_witness :
  (_ok at_rest = true /\ Z.abs (_accum at_rest) < PPR default_env
   /\ List.length one_burst = 5%nat)
  /\ OledUI.read_inputs_safer (snd (burst default_env at_rest one_burst))
     = (-1, false)
  /\ (fst (OledUI.read_inputs_safer
             (snd (burst default_env at_rest one_burst)))
      + _steps (fst (burst default_env at_rest one_burst)))
     * PPR default_env
     + _accum (fst (burst default_env at_rest one_burst))
     = _steps at_rest * PPR default_env + _accum at_rest
       + total (deltas (_state at_rest)
                  (polled default_env at_rest (burst_events one_burst))).
Proof.
  assert (H1 : _ok at_rest = true) by reflexivity.
  assert (H2 : Z.abs (_accum at_rest) < PPR default_env)
    by (vm_compute; reflexivity).
  assert (H3 : List.length one_burst = 5%nat) by reflexivity.
  split; [exact (conj H1 (conj H2 H3))|].
  split; [vm_compute; reflexivity|].
  exact (proj1 (burst_loses_nothing default_env at_rest one_burst H1 H2 H3)).
Defined.

(** ** Which read failures stop the thread *)

Lemma poll_running (e : Env) (s : Sampler) (r : Reads) :
  running s -> quad_ok (Poll r) = true -> running (poll e s r).
Proof.
  destruct s as [ok sw stop al wait ce st acc stp latch bl blc].
  destruct r as [[[a b]|] rs t]; [|discriminate].
  unfold running, max_errors. simpl. intros (Ha & Hs & Hc & Hw) _.
  subst al stop.
  unfold poll, release_wait, quad_section, button_section, note_error,
    decode, max_errors; simpl.
  destruct wait; simpl.
  - specialize (Hw eq_refl).
    destruct rs as [lvl|]; simpl.
    + destruct (is_released e lvl); simpl; repeat split; auto; try lia;
        discriminate.
    + destruct (10 <? ce + 1) eqn:E; simpl.
      * apply Z.ltb_lt in E. lia.
      * repeat split; auto; try lia; discriminate.
  - repeat match goal with
           | |- context [if ?c then _ else _] => destruct c; simpl
           | |- context [match ?c with Some _ => _ | None => _ end] =>
               destruct c; simpl
           end;
      repeat split; auto; try lia; try discriminate.
Qed.

Lemma step_running (e : Env) (s : Sampler) (ev : event) :
  running s -> quad_ok ev = true -> running (fst (step e s ev)).
Proof.
  intros Hr Hq. destruct ev as [r| |]; cbn [step fst].
  - apply poll_running; assumption.
  - unfold steps. destruct (_ok s); exact Hr.
  - unfold pressed.
    destruct (_ok s), (has_sw s), (_press_latch s); exact Hr.
Qed.

Lemma run_running (e : Env) (evs : list event) : forall s,
  running s -> forallb quad_ok evs = true -> running (fst (run e s evs)).
Proof.
  induction evs as [|ev rest IH]; intros s Hr Hq; [exact Hr|].
  simpl in Hq. apply andb_prop in Hq. destruct Hq as [Hq Hrest].
  rewrite run_cons. cbn [fst]. apply IH; [|exact Hrest].
  apply step_running; assumption.
Qed.

(** X6: button read failures alone never stop the thread.  As long as the
    two quadrature reads of every turn succeed, the loop keeps running
    whatever the button pin does: a successful quadrature read resets the
    counter that the button's [except] increments, so it never passes
    [max_errors]. *)
Theorem button_errors_never_stop (e : Env) (s : Sampler)
    (evs : list event) :
  alive s = true -> _stop s = false ->
  consecutive_errors s < max_errors ->
  forallb quad_ok evs = true ->
  alive (fst (run e s evs)) = true
  /\ consecutive_errors (fst (run e s evs)) <= max_errors.
Proof.
  intros Ha Hs Hc Hq.
  assert (Hr : running s) by (repeat split; auto; lia).
  destruct (run_running e evs s Hr Hq) as (R1 & _ & R3 & _). auto.
Qed.

Lemma button_errors_never_stop_witness :
  (alive at_rest = true /\ _stop at_rest = false
   /\ consecutive_errors at_rest < max_errors
   /\ forallb quad_ok twelve_button_failures = true)
  /\ alive (fst (run default_env at_rest twelve_button_failures)) = true.
Proof.
  assert (H1 : alive at_rest = true) by reflexivity.
  assert (H2 : _stop at_rest = false) by reflexivity.
  assert (H3 : consecutive_errors at_rest < max_errors)
    by (vm_compute; reflexivity).
  assert (H4 : forallb quad_ok twelve_button_failures = true)
    by reflexivity.
  split; [exact (conj H1 (conj H2 (conj H3 H4)))|].
  exact (proj1 (button_errors_never_stop default_env at_rest
                  twelve_button_failures H1 H2 H3 H4)).
Defined.

Lemma lgpio_quad_ok (p : Pins) (x : action) :
  clk p = Lgpio -> dt p = Lgpio -> quad_ok (on_pins p x) = true.
Proof.
  intros Hc Hd. destruct x as [a b s t| |]; [|reflexivity|reflexivity].
  unfold on_pins, reads_of, quad_ok. cbn [rd_quad].
  rewrite Hc, Hd. reflexivity.
Qed.

Lemma start_running (e : Env) (p : Pins) (a b s : option bool)
    (now : float) (s0 : Sampler) :
  start e p a b s now = Some s0 ->
  running s0 /\ _ok s0 = true /\ _accum s0 = 0 /\ _steps s0 = 0
  /\ _press_latch s0 = false.
Proof.
  unfold start. intros H.
  destruct (read (clk p) a) as [x|]; [|discriminate].
  destruct (read (dt p) b) as [y|]; [|discriminate].
  destruct (sw p) as [k|].
  - destruct (read k s) as [z|]; [|discriminate]. injection H as <-.
    unfold running, max_errors. simpl.
    repeat split; auto; try lia; try discriminate.
  - injection H as <-.
    unfold running, max_errors. simpl.
    repeat split; auto; try lia; try discriminate.
Qed.

(** X7: on [_LgpioPin]s the thread is never soft-disabled.
    [_LgpioPin.read] turns a raising [gpio_read] into the level 1, so
    [__init__] succeeds and no turn of the loop sees an exception, whatever
    the library does and however the consumer's calls interleave. *)
Theorem lgpio_never_disabled (e : Env) (p : Pins) (a b s : option bool)
    (now : float) (acts : list action) :
  clk p = Lgpio -> dt p = Lgpio -> (sw p = Some Lgpio \/ sw p = None) ->
  exists s0,
    start e p a b s now = Some s0
    /\ alive (fst (run e s0 (map (on_pins p) acts))) = true.
Proof.
  intros Hc Hd Hs.
  assert (Hst : exists s0, start e p a b s now = Some s0).
  { unfold start. rewrite Hc, Hd. cbn [read].
    destruct Hs as [Hs|Hs]; rewrite Hs; cbn [read]; eauto. }
  destruct Hst as [s0 Hst]. exists s0. split; [exact Hst|].
  destruct (start_running e p a b s now s0 Hst) as (Hr & _).
  refine (proj1 (run_running e (map (on_pins p) acts) s0 Hr _)).
  apply forallb_forall. intros ev Hin. apply in_map_iff in Hin.
  destruct Hin as (x & <- & _). apply lgpio_quad_ok; assumption.
Qed.

Lemma lgpio_never_disabled_witness :
  exists s0,
    start default_env {| clk := Lgpio; dt := Lgpio; sw := Some Lgpio |}
      None None None 0 = Some s0
    /\ alive (fst (run default_env s0
                     (map (on_pins {| clk := Lgpio; dt := Lgpio;
                                      sw := Some Lgpio |})
                        (repeat (Turn None None None 1) 12))))
       = true.
Proof.
  exact (lgpio_never_disabled default_env
           {| clk := Lgpio; dt := Lgpio; sw := Some Lgpio |}
           None None None 0 (repeat (Turn None None None 1) 12)
           eq_refl eq_refl (or_introl eq_refl)).
Defined.

(** ** [close] *)

Lemma poll_stopped (e : Env) (s : Sampler) (r : Reads) :
  _stop s = true ->
  poll e s r
  = if alive s
    then if in_release_wait s then set_release_wait false s
         else set_alive false s
    else s.
Proof.
  intros Hs. unfold poll, release_wait. rewrite Hs.
  destruct (alive s), (in_release_wait s); reflexivity.
Qed.

Lemma run_stopped (e : Env) (evs : list event) : forall s,
  _stop s = true ->
  let r := run e s evs in
  polled e s evs = []
  /\ tview (fst r) = tview s
  /\ drained (snd r) + pending_steps (fst r) = pending_steps s
  /\ presses (snd r) + Z.b2z (pending_press (fst r))
     = Z.b2z (pending_press s)
  /\ ((turns_left s <= turns_in evs)%nat -> alive (fst r) = false).
Proof.
  induction evs as [|ev rest IH]; intros s Hs; cbn zeta.
  - cbn [run polled fst snd drained presses turns_in].
    split; [reflexivity|]. split; [reflexivity|].
    split; [lia|]. split; [lia|].
    unfold turns_left. destruct (alive s); [|reflexivity].
    destruct (in_release_wait s); intros H; inversion H.
  - rewrite run_cons. cbn [fst snd polled].
    destruct ev as [r| |]; cbn [step fst snd app turns_in].
    + rewrite (poll_stopped e s r Hs).
      assert (Hq : reads_quad s = false)
        by (unfold reads_quad; rewrite Hs;
            destruct (alive s), (in_release_wait s); reflexivity).
      rewrite Hq.
      set (s1 := if alive s
                 then if in_release_wait s then set_release_wait false s
                      else set_alive false s
                 else s).
      assert (H1 : _stop s1 = true
                   /\ tview s1 = tview s
                   /\ pending_steps s1 = pending_steps s
                   /\ pending_press s1 = pending_press s
                   /\ (turns_left s1 <= pred (turns_left s))%nat).
      { unfold s1, turns_left.
        destruct (alive s) eqn:Ha; [|rewrite Ha; auto].
        destruct (in_release_wait s) eqn:Hw;
          cbn [alive in_release_wait _stop set_release_wait set_alive Nat.pred];
          rewrite ?Ha; repeat split; auto. }
      destruct H1 as (K1 & K2 & K3 & K4 & K5).
      destruct (IH s1 K1) as (I1 & I2 & I3 & I4 & I5). cbn zeta in *.
      rewrite I1, I2, I3, I4, K2, K3, K4.
      split; [destruct (rd_quad r); reflexivity|].
      repeat split; auto. intros Hle. apply I5. lia.
    + assert (H1 : _stop (snd (steps s)) = true
                   /\ tview (snd (steps s)) = tview s
                   /\ fst (steps s) + pending_steps (snd (steps s))
                      = pending_steps s
                   /\ pending_press (snd (steps s)) = pending_press s
                   /\ turns_left (snd (steps s)) = turns_left s).
      { unfold steps, pending_steps, pending_press, turns_left.
        destruct (_ok s) eqn:Hok; cbn; rewrite ?Hok; cbn;
          repeat split; auto; try reflexivity; lia. }
      destruct (steps s) as [n s1]. cbn [fst snd] in *.
      destruct H1 as (K1 & K2 & K3 & K4 & K5).
      destruct (IH s1 K1) as (I1 & I2 & I3 & I4 & I5). cbn zeta in *.
      rewrite drained_app, presses_app. cbn [drained presses].
      rewrite I1, I2, K2, <- K3, <- K4, <- K5.
      repeat split; auto; lia.
    + assert (H1 : _stop (snd (pressed s)) = true
                   /\ tview (snd (pressed s)) = tview s
                   /\ pending_steps (snd (pressed s)) = pending_steps s
                   /\ Z.b2z (fst (pressed s))
                      + Z.b2z (pending_press (snd (pressed s)))
                      = Z.b2z (pending_press s)
                   /\ presses [GotPressed (fst (pressed s))]
                      = Z.b2z (fst (pressed s))
                   /\ turns_left (snd (pressed s)) = turns_left s).
      { unfold pressed, pending_steps, pending_press, turns_left.
        destruct (_ok s) eqn:Hok, (has_sw s) eqn:Hsw,
          (_press_latch s) eqn:Hl; cbn; rewrite ?Hok, ?Hsw, ?Hl; cbn;
          repeat split; auto. }
      destruct (pressed s) as [b s1]. cbn [fst snd] in *.
      destruct H1 as (K1 & K2 & K3 & K4 & K5 & K6).
      destruct (IH s1 K1) as (I1 & I2 & I3 & I4 & I5). cbn zeta in *.
      rewrite drained_app, presses_app, K5. cbn [drained].
      rewrite I1, I2, K2, <- K3, <- K4, <- K6.
      repeat split; auto; lia.
Qed.

(** X8: after [close()] the thread reads no quadrature pair and changes
    none of its fields; [steps()] and [pressed()] hand out what was pending
    at the time, once, and nothing else; and the thread has left its loop
    after two turns at most (one to leave the release wait, one to see
    [_stop]). *)
Theorem close_stops_thread (e : Env) (s : Sampler) (evs : list event) :
  let r := run e (close s) evs in
  polled e (close s) evs = []
  /\ tview (fst r) = tview s
  /\ drained (snd r) + pending_steps (fst r) = pending_steps s
  /\ presses (snd r) + Z.b2z (pending_press (fst r))
     = Z.b2z (pending_press s)
  /\ ((2 <= turns_in evs)%nat -> alive (fst r) = false).
Proof.
  cbn zeta.
  destruct (run_stopped e evs (close s) eq_refl) as (R1 & R2 & R3 & R4 & R5).
  cbn zeta in *.
  split; [exact R1|]. split; [exact R2|]. split; [exact R3|].
  split; [exact R4|].
  intros H. apply R5. unfold turns_left, close. cbn [alive set_stop in_release_wait].
  destruct (alive s), (in_release_wait s); lia.
Qed.

(** ** Turning while the button is down *)

Lemma down_poll (e : Env) (r : Reads) :
  down e (Poll r) = true ->
  exists lvl, rd_sw r = Some lvl /\ is_active e lvl = true.
Proof.
  simpl. destruct (rd_sw r) as [lvl|]; [|discriminate]. eauto.
Qed.

(** X9: rotation while the button is held is not seen.  Once a press is
    latched the thread stays in the inner loop until the release, and that
    loop reads the button only: however the knob turns meanwhile, no
    quadrature pair is polled, [_state] and [_accum] stay as they were, and
    [steps()] hands out only what was counted before. *)
Theorem held_button_hides_rotation (e : Env) (s : Sampler)
    (evs : list event) :
  waiting s = true -> forallb (down e) evs = true ->
  let r := run e s evs in
  polled e s evs = []
  /\ _state (fst r) = _state s /\ _accum (fst r) = _accum s
  /\ drained (snd r) + _steps (fst r) = _steps s
  /\ waiting (fst r) = true.
Proof.
  revert s. induction evs as [|ev rest IH]; intros s Hw Hd; cbn zeta.
  - cbn. repeat split; auto.
  - simpl in Hd. apply andb_prop in Hd. destruct Hd as [Hev Hrest].
    rewrite run_cons. cbn [fst snd polled].
    destruct (waiting_fields s Hw) as (Hok & Hsw & Hal & Hst & Hwt).
    destruct ev as [r| |]; cbn [step fst snd app].
    + destruct (down_poll e r Hev) as (lvl & Hr & Hact).
      rewrite (release_wait_blocks e s r lvl) by assumption.
      assert (Hq : reads_quad s = false)
        by (unfold reads_quad; rewrite Hwt, Hal; reflexivity).
      rewrite Hq.
      destruct (IH s Hw Hrest) as (I1 & I2). cbn zeta in *.
      rewrite I1. split; [destruct (rd_quad r); reflexivity|exact I2].
    + unfold steps. rewrite Hok. cbn [negb fst snd].
      set (s1 := set_quad (_state s) (_accum s) 0 s).
      assert (Hw1 : waiting s1 = true) by exact Hw.
      destruct (IH s1 Hw1 Hrest) as (I1 & I2 & I3 & I4 & I5).
      cbn zeta in *. rewrite drained_app. cbn [drained].
      repeat split; auto.
      change (_steps s1) with 0 in I4. lia.
    + unfold pressed. rewrite Hok, Hsw. cbn [negb orb].
      destruct (_press_latch s) eqn:Hl; cbn [fst snd].
      * assert (Hw1 : waiting (set_latch false s) = true) by exact Hw.
        destruct (IH _ Hw1 Hrest) as (I1 & I2 & I3 & I4 & I5).
        cbn zeta in *. rewrite drained_app. cbn [drained].
        repeat split; auto.
      * destruct (IH s Hw Hrest) as (I1 & I2 & I3 & I4 & I5).
        cbn zeta in *. rewrite drained_app. cbn [drained].
        repeat split; auto.
Qed.

Lemma held_button_hides_rotation_witness :
  (waiting held = true
   /\ forallb (down default_env) (turn_while_held ++ [CallSteps]) = true)
  /\ drained (snd (run default_env held (turn_while_held ++ [CallSteps])))
     + _steps (fst (run default_env held (turn_while_held ++ [CallSteps])))
     = _steps held.
Proof.
  assert (H1 : waiting held = true) by reflexivity.
  assert (H2 : forallb (down default_env) (turn_while_held ++ [CallSteps])
               = true) by reflexivity.
  split; [exact (conj H1 H2)|].
  destruct (held_button_hides_rotation default_env held
              (turn_while_held ++ [CallSteps]) H1 H2) as (_ & _ & _ & K & _).
  exact K.
Defined.

(** ** Without a GPIO backend *)

Lemma make_pin_dummy (force : string) (constructs : Backend -> bool) :
  (forall k, In k (order force) -> constructs k = false) ->
  _make_pin force constructs = Dummy.
Proof.
  intros H. unfold _make_pin.
  destruct (find constructs (order force)) as [k|] eqn:E; [|reflexivity].
  apply find_some in E. destruct E as [Hin Hk].
  rewrite (H k Hin) in Hk. discriminate.
Qed.

Lemma poll_quiet (e : Env) (s : Sampler) (lvl : option bool) (t : float) :
  (has_sw s = true -> lvl = Some true) ->
  quiet e s ->
  quiet e (poll e s {| rd_quad := Some (true, true); rd_sw := lvl;
                       rd_now := t |}).
Proof.
  destruct s as [ok sw stop al wait ce st acc stp latch bl blc].
  unfold quiet. cbn [_state _accum _steps _press_latch in_release_wait
                       _btn_last has_sw].
  intros Hl (H1 & H2 & H3 & H4). subst st acc stp.
  unfold poll, release_wait, quad_section, button_section, decode,
    note_error, is_active, is_released.
  destruct (BTN_ACTIVE_LOW e) eqn:Eal.
  - destruct (H4 eq_refl) as (-> & -> & ->).
    destruct sw.
    + rewrite (Hl eq_refl). simpl.
      destruct al, stop; simpl; repeat split; auto.
    + simpl. destruct al, stop; simpl; repeat split; auto.
  - destruct sw.
    + rewrite (Hl eq_refl). simpl.
      destruct al, wait, stop; simpl;
        repeat match goal with
               | |- context [if ?c then _ else _] => destruct c; simpl
               end;
        (split; [reflexivity|split; [reflexivity|split; [reflexivity|intros E; discriminate E]]]).
    + simpl. destruct al, wait, stop; simpl;
        repeat match goal with
               | |- context [if ?c then _ else _] => destruct c; simpl
               | |- context [match ?c with Some _ => _ | None => _ end] =>
                   destruct c; simpl
               end;
        (split; [reflexivity|split; [reflexivity|split; [reflexivity|intros E; discriminate E]]]).
Qed.

Lemma run_quiet (e : Env) (p : Pins) (acts : list action) : forall s,
  clk p = Dummy -> dt p = Dummy ->
  (has_sw s = true -> sw p = Some Dummy) ->
  quiet e s ->
  let o := snd (run e s (map (on_pins p) acts)) in
  Forall (fun n => n = 0) (steps_seen o)
  /\ (BTN_ACTIVE_LOW e = true -> Forall (fun b => b = false) (pressed_seen o)).
Proof.
  induction acts as [|x rest IH]; intros s Hc Hd Hs Hq; cbn zeta.
  - cbn. split; [constructor|]. intros _. constructor.
  - cbn [map]. rewrite run_cons. cbn [snd fst].
    rewrite steps_seen_app, pressed_seen_app.
    destruct x as [a b l t| |]; cbn [on_pins step fst snd app].
    + unfold reads_of. rewrite Hc, Hd. cbn [read].
      apply IH; auto.
      * intros H. apply Hs. rewrite <- H. symmetry.
        apply poll_call_side.
      * apply poll_quiet; [|exact Hq].
        intros H. rewrite (Hs H). reflexivity.
    + destruct Hq as (Q1 & Q2 & Q3 & Q4).
      assert (K : fst (steps s) = 0 /\ has_sw (snd (steps s)) = has_sw s
                  /\ quiet e (snd (steps s))).
      { unfold steps. destruct (_ok s); cbn [negb fst snd].
        - split; [exact Q3|]. split; [reflexivity|]. unfold quiet.
          cbn [_state _accum _steps _press_latch in_release_wait
                 _btn_last set_quad]. auto.
        - split; [reflexivity|]. split; [reflexivity|]. unfold quiet. auto. }
      destruct (steps s) as [n s1]. cbn [fst snd] in *.
      destruct K as (-> & K2 & K3).
      destruct (IH s1 Hc Hd) as (I1 & I2); auto.
      { rewrite K2. exact Hs. }
      cbn zeta in *. cbn [steps_seen pressed_seen app].
      split; [constructor; [reflexivity|exact I1]|exact I2].
    + destruct Hq as (Q1 & Q2 & Q3 & Q4).
      assert (K : (BTN_ACTIVE_LOW e = true -> fst (pressed s) = false)
                  /\ has_sw (snd (pressed s)) = has_sw s
                  /\ quiet e (snd (pressed s))).
      { unfold pressed.
        destruct (negb (_ok s) || negb (has_sw s)); cbn [fst snd].
        - split; [reflexivity|]. split; [reflexivity|].
          unfold quiet. auto.
        - destruct (_press_latch s) eqn:El; cbn [fst snd].
          + split; [intros E; destruct (Q4 E) as (C & _); discriminate C|].
            split; [reflexivity|]. unfold quiet.
            cbn [_state _accum _steps _press_latch in_release_wait
                   _btn_last set_latch].
            split; [exact Q1|]. split; [exact Q2|]. split; [exact Q3|].
            intros E. destruct (Q4 E) as (C & _). discriminate C.
          + split; [reflexivity|]. split; [reflexivity|].
            unfold quiet. rewrite El. auto. }
      destruct (pressed s) as [b s1]. cbn [fst snd] in *.
      destruct K as (K1 & K2 & K3).
      destruct (IH s1 Hc Hd) as (I1 & I2); auto.
      { rewrite K2. exact Hs. }
      cbn zeta in *. cbn [steps_seen pressed_seen app].
      split; [exact I1|]. intros E. constructor; [exact (K1 E)|exact (I2 E)].
Qed.

(** X10: without a GPIO backend the encoder is silent.  When no class of
    [_make_pin]'s order constructs, all pins are [_DummyPin]s, [__init__]
    succeeds, every [steps()] answers 0, and with an active-low button
    every [pressed()] answers [False]. *)
Theorem dummy_pins_are_silent (e : Env) (force : string)
    (constructs : Z -> Backend -> bool) (clk_pin dt_pin : Z)
    (btn_pin : option Z) (a b s : option bool) (now : float)
    (acts : list action) :
  (forall line k, In k (order force) -> constructs line k = false) ->
  let p := {| clk := _make_pin force (constructs clk_pin);
              dt := _make_pin force (constructs dt_pin);
              sw := option_map (fun line => _make_pin force (constructs line))
                      btn_pin |} in
  exists s0,
    start e p a b s now = Some s0
    /\ Forall (fun n => n = 0)
         (steps_seen (snd (run e s0 (map (on_pins p) acts))))
    /\ (BTN_ACTIVE_LOW e = true ->
        Forall (fun x => x = false)
          (pressed_seen (snd (run e s0 (map (on_pins p) acts))))).
Proof.
  intros H. cbn zeta.
  rewrite !(make_pin_dummy force) by (apply H).
  assert (Hsw : option_map (fun line => _make_pin force (constructs line))
                  btn_pin
                = option_map (fun _ => Dummy) btn_pin).
  { destruct btn_pin as [line|]; [|reflexivity]. cbn.
    rewrite make_pin_dummy by (apply H). reflexivity. }
  rewrite Hsw.
  set (p := {| clk := Dummy; dt := Dummy;
               sw := option_map (fun _ => Dummy) btn_pin |}).
  assert (Hst : exists s0, start e p a b s now = Some s0
                           /\ quiet e s0
                           /\ (has_sw s0 = true -> sw p = Some Dummy)).
  { unfold start, p. cbn [clk dt sw read].
    destruct btn_pin as [line|]; cbn [option_map read].
    - eexists. split; [reflexivity|]. split.
      + unfold quiet. cbn. repeat split; auto.
      + reflexivity.
    - eexists. split; [reflexivity|]. split.
      + unfold quiet. cbn. repeat split; auto.
      + cbn. discriminate. }
  destruct Hst as (s0 & Hst & Hq & Hs). exists s0. split; [exact Hst|].
  exact (run_quiet e p acts s0 eq_refl eq_refl Hs Hq).
Qed.

Lemma dummy_pins_are_silent_witness :
  (forall (line : Z) (k : Backend),
      In k (order "") -> (fun (_ : Z) (_ : Backend) => false) line k = false)
  /\ exists s0,
      start default_env {| clk := Dummy; dt := Dummy; sw := Some Dummy |}
        None None None 0 = Some s0
      /\ Forall (fun n => n = 0)
           (steps_seen
              (snd (run default_env s0
                      (map (on_pins {| clk := Dummy; dt := Dummy;
                                       sw := Some Dummy |})
                         [Turn None None None 1; AskSteps; AskPressed])))).
Proof.
  split; [intros line k _; reflexivity|].
  destruct (dummy_pins_are_silent default_env "" (fun _ _ => false) 23 24
              (Some 25) None None None 0
              [Turn None None None 1; AskSteps; AskPressed]
              (fun _ _ _ => eq_refl)) as (s0 & H1 & H2 & _).
  exists s0. exact (conj H1 H2).
Defined.

(** ** The registry of claimed lines *)

Lemma library_holds_app (log calls : list Call) :
  library_holds (log ++ calls) = fold_left holds_step calls (library_holds log).
Proof. unfold library_holds. apply fold_left_app. Qed.

Lemma is_claimed_in (line : Z) (r : Registry) :
  is_claimed line r = true <-> In line (_claimed_pins r).
Proof.
  unfold is_claimed. rewrite existsb_exists. split.
  - intros (x & Hin & E). apply Z.eqb_eq in E. subst x. exact Hin.
  - intros Hin. exists line. split; [exact Hin|apply Z.eqb_refl].
Qed.

Lemma in_without (line l : Z) (s : list Z) :
  In l (filter (fun x => negb (x =? line)) s) <-> In l s /\ l <> line.
Proof.
  rewrite filter_In. split; intros [H1 H2]; split; auto.
  - apply negb_true_iff, Z.eqb_neq in H2. exact H2.
  - apply negb_true_iff, Z.eqb_neq. exact H2.
Qed.

Lemma apply_op_tracked (st : Registry * list Call) (op : Op) :
  tracked st -> tracked (apply_op st op).
Proof.
  destruct st as [[chip pins] log]. unfold tracked. cbn [fst snd].
  cbn [_chip _claimed_pins]. intros (Hnd & Hch & Hin).
  destruct op as [line opened ok|line ok|]; cbn [apply_op].
  - unfold lgpio_new. cbn [_chip _claimed_pins].
    destruct (is_claimed line _) eqn:Ec.
    { cbn [fst snd _chip _claimed_pins]. rewrite app_nil_r. auto. }
    assert (Hnot : ~ In line pins).
    { intros Hc. apply (is_claimed_in line {| _chip := chip;
                                             _claimed_pins := pins |}) in Hc.
      congruence. }
    destruct chip as [h|]; [|destruct opened as [h|]];
      try destruct ok; cbn [fst snd _chip _claimed_pins app];
      rewrite ?library_holds_app; cbn [fold_left holds_step app];
      repeat split; auto; try discriminate;
      try (constructor; assumption);
      try (intros l [<-|Hl]; [left; reflexivity|right; auto]).
    all: destruct pins; [intros l []|exfalso; apply Hch; [discriminate|reflexivity]].
  - unfold lgpio_close. cbn [_chip _claimed_pins].
    destruct (is_claimed line _) eqn:Ec;
      [|cbn [fst snd _chip _claimed_pins]; rewrite app_nil_r; auto].
    destruct chip as [h|];
      [|cbn [fst snd _chip _claimed_pins]; rewrite app_nil_r; auto].
    destruct ok; cbn [fst snd _chip _claimed_pins];
      rewrite library_holds_app; cbn [fold_left holds_step].
    + split; [apply NoDup_filter; exact Hnd|].
      split; [discriminate|].
      intros l Hl. apply in_without in Hl. apply in_without.
      destruct Hl as [Hl Hne]. auto.
    + auto.
  - unfold cleanup_all. cbn [_chip _claimed_pins].
    destruct chip as [h|]; cbn [fst snd _chip _claimed_pins];
      rewrite app_nil_r; [|auto].
    split; [constructor|]. split; [congruence|]. intros l [].
Qed.

Lemma apply_op_exact (st : Registry * list Call) (op : Op) :
  is_cleanup op = false ->
  (forall l, In l (library_holds (snd st)) -> In l (_claimed_pins (fst st))) ->
  forall l, In l (library_holds (snd (apply_op st op))) ->
            In l (_claimed_pins (fst (apply_op st op))).
Proof.
  destruct st as [[chip pins] log]. cbn [fst snd _claimed_pins].
  intros Hop Hex.
  destruct op as [line opened ok|line ok|]; [| |discriminate];
    cbn [apply_op].
  - unfold lgpio_new. cbn [_chip _claimed_pins].
    destruct (is_claimed line _);
      [cbn [fst snd _claimed_pins]; rewrite app_nil_r; exact Hex|].
    destruct chip as [h|]; [|destruct opened as [h|]];
      try destruct ok; cbn [fst snd _chip _claimed_pins app];
      rewrite ?library_holds_app; cbn [fold_left holds_step app];
      try exact Hex;
      (intros l [<-|Hl]; [left; reflexivity|right; auto]).
  - unfold lgpio_close. cbn [_chip _claimed_pins].
    destruct (is_claimed line _);
      [|cbn [fst snd _claimed_pins]; rewrite app_nil_r; exact Hex].
    destruct chip as [h|];
      [|cbn [fst snd _claimed_pins]; rewrite app_nil_r; exact Hex].
    destruct ok; cbn [fst snd _chip _claimed_pins];
      rewrite library_holds_app; cbn [fold_left holds_step]; [|exact Hex].
    intros l Hl. apply in_without in Hl. apply in_without.
    destruct Hl as [Hl Hne]. auto.
Qed.

Lemma fold_ops_tracked (ops : list Op) : forall st,
  tracked st -> tracked (fold_left apply_op ops st).
Proof.
  induction ops as [|op rest IH]; intros st H; [exact H|].
  cbn [fold_left]. apply IH. apply apply_op_tracked. exact H.
Qed.

Lemma fold_ops_exact (ops : list Op) : forall st,
  forallb (fun op => negb (is_cleanup op)) ops = true ->
  (forall l, In l (library_holds (snd st)) -> In l (_claimed_pins (fst st))) ->
  forall l, In l (library_holds (snd (fold_left apply_op ops st))) ->
            In l (_claimed_pins (fst (fold_left apply_op ops st))).
Proof.
  induction ops as [|op rest IH]; intros st Hn H; [exact H|].
  cbn [forallb] in Hn. apply andb_prop in Hn. destruct Hn as [Hop Hrest].
  cbn [fold_left]. apply IH; [exact Hrest|].
  apply apply_op_exact; [apply negb_true_iff; exact Hop|exact H].
Qed.

(** X15: the registry of [_LgpioPin].  After any sequence of constructions,
    [close]s and [cleanup_all]s, no line is registered twice, a chip handle
    is open whenever a line is registered, and every registered line is one
    the library holds (claimed, not freed since).  Without [cleanup_all] the
    converse holds too: the registry is exactly what the library holds.
    [cleanup_all] itself frees nothing: it empties the registry and leaves
    the library holding what it held. *)
Theorem registry_tracks_claims (ops : list Op) :
  let st := run_ops ops in
  NoDup (_claimed_pins (fst st))
  /\ (_claimed_pins (fst st) <> [] -> _chip (fst st) <> None)
  /\ (forall l, In l (_claimed_pins (fst st)) -> In l (library_holds (snd st)))
  /\ (forallb (fun op => negb (is_cleanup op)) ops = true ->
      forall l, In l (library_holds (snd st)) -> In l (_claimed_pins (fst st)))
  /\ library_holds (snd (run_ops (ops ++ [CleanupAll]))) = library_holds (snd st)
  /\ _claimed_pins (fst (run_ops (ops ++ [CleanupAll]))) = [].
Proof.
  cbn zeta. unfold run_ops.
  assert (H0 : tracked unused).
  { unfold tracked, unused. cbn. split; [constructor|].
    split; [congruence|]. intros l []. }
  destruct (fold_ops_tracked ops unused H0) as (T1 & T2 & T3).
  split; [exact T1|]. split; [exact T2|]. split; [exact T3|]. split.
  - intros Hn. apply fold_ops_exact; [exact Hn|]. intros l [].
  - rewrite fold_left_app. cbn [fold_left].
    destruct (fold_left apply_op ops unused) as [[chip pins] log].
    cbn [apply_op _chip _claimed_pins fst snd] in *. unfold cleanup_all.
    destruct chip as [h|]; cbn [fst snd _chip _claimed_pins];
      rewrite app_nil_r; split; try reflexivity.
    destruct pins; [reflexivity|]. exfalso. apply T2; [discriminate|reflexivity].
Qed.

(** * Properties of led_display.py *)

Import Ascii.
Import LedDisplay.

(** ** The seven-segment digits *)

Lemma put_length {A : Type} (n : nat) (x : A) (l : list A) :
  List.length (put n x l) = List.length l.
Proof.
  revert n. induction l as [|h t IH]; intros [|k]; cbn [put List.length];
    try reflexivity. rewrite IH. reflexivity.
Qed.

Lemma put_nth {A : Type} (n : nat) (x : A) (l : list A) (j : nat) :
  (n < List.length l)%nat ->
  nth_error (put n x l) j = if Nat.eqb j n then Some x else nth_error l j.
Proof.
  revert n j. induction l as [|h t IH]; intros n j Hn;
    [cbn in Hn; lia|].
  destruct n as [|k], j as [|i]; cbn [put nth_error Nat.eqb];
    try reflexivity.
  apply IH. cbn in Hn. lia.
Qed.

Lemma set_length (i : Z) (rgb : Pixel) (s : Strip) :
  List.length (set i rgb s) = List.length s.
Proof.
  unfold set. destruct ((0 <=? i) && _); [apply put_length|reflexivity].
Qed.

Lemma set_nth (i : Z) (rgb : Pixel) (s : Strip) (j : Z) :
  0 <= j < Z.of_nat (List.length s) ->
  nth_error (set i rgb s) (Z.to_nat j)
  = if j =? i then Some (clamped rgb) else nth_error s (Z.to_nat j).
Proof.
  intros Hj. unfold set.
  destruct ((0 <=? i) && (i <? Z.of_nat (List.length s))) eqn:E.
  - apply andb_prop in E. destruct E as [E1 E2].
    apply Z.leb_le in E1. apply Z.ltb_lt in E2.
    rewrite put_nth by lia.
    destruct (Z.eqb_spec j i) as [->|Hne].
    + rewrite Nat.eqb_refl. reflexivity.
    + destruct (Nat.eqb_spec (Z.to_nat j) (Z.to_nat i)); [lia|reflexivity].
  - destruct (Z.eqb_spec j i) as [->|Hne]; [|reflexivity].
    apply andb_false_iff in E.
    destruct E as [E|E]; [apply Z.leb_gt in E|apply Z.ltb_ge in E]; lia.
Qed.

(** Setting a list of pixels to one colour. *)
Lemma paint_spec (c : Pixel) (idxs : list Z) : forall (s : Strip) (j : Z),
  0 <= j < Z.of_nat (List.length s) ->
  List.length (fold_left (fun s idx => set idx c s) idxs s) = List.length s
  /\ nth_error (fold_left (fun s idx => set idx c s) idxs s) (Z.to_nat j)
     = if existsb (Z.eqb j) idxs then Some (clamped c)
       else nth_error s (Z.to_nat j).
Proof.
  induction idxs as [|i rest IH]; intros s j Hj; cbn [fold_left existsb].
  - auto.
  - destruct (IH (set i c s) j) as [I1 I2];
      [rewrite set_length; exact Hj|].
    rewrite I1, I2, set_length, set_nth by exact Hj.
    split; [reflexivity|].
    destruct (existsb (Z.eqb j) rest); [rewrite orb_true_r; reflexivity|].
    rewrite orb_false_r. reflexivity.
Qed.

Lemma fold_flat_map {A B S : Type} (f : S -> B -> S) (g : A -> list B)
    (l : list A) : forall s,
  fold_left (fun s a => fold_left f (g a) s) l s
  = fold_left f (flat_map g l) s.
Proof.
  induction l as [|a rest IH]; intros s; cbn [fold_left flat_map];
    [reflexivity|].
  rewrite fold_left_app. apply IH.
Qed.

Lemma locals_cases (local : Z) :
  1 <= local <= 21 ->
  In local [1; 2; 3; 4; 5; 6; 7; 8; 9; 10; 11; 12; 13; 14; 15; 16; 17; 18;
            19; 20; 21].
Proof.
  intros H. cbn [In].
  assert (local = 1 \/ local = 2 \/ local = 3 \/ local = 4 \/ local = 5
          \/ local = 6 \/ local = 7 \/ local = 8 \/ local = 9 \/ local = 10
          \/ local = 11 \/ local = 12 \/ local = 13 \/ local = 14
          \/ local = 15 \/ local = 16 \/ local = 17 \/ local = 18
          \/ local = 19 \/ local = 20 \/ local = 21) as K by lia.
  intuition.
Qed.

(** [SEGMENT_TO_LEDS] read backwards: the three pixels of a segment are the
    ones whose place, counted in threes, is the segment's letter. *)
Lemma segment_leds_spec (seg : ascii) (local : Z) :
  In local (SEGMENT_TO_LEDS seg)
  <-> 1 <= local <= 21 /\ segment_at (local - 1) = seg.
Proof.
  split.
  - unfold SEGMENT_TO_LEDS.
    repeat match goal with
           | |- context [Ascii.eqb seg ?c] =>
               destruct (Ascii.eqb_spec seg c); [subst seg|]
           end;
      cbn [In]; intros H;
      repeat match goal with
             | H : _ \/ _ |- _ => destruct H as [H|H]
             end;
      try contradiction; subst local; split; try lia; reflexivity.
  - intros [H Hs]. apply locals_cases in H. cbn [In] in H.
    repeat match goal with
           | H : _ \/ _ |- _ => destruct H as [H|H]
           end;
      try contradiction; subst local; subst seg;
      vm_compute; auto 10.
Qed.

Lemma leds_for_segments_spec (d j : Z) (segs : list ascii) :
  In j (_leds_for_segments d segs)
  <-> 0 <= j - d * 21 < 21 /\ In (segment_at (j - d * 21)) segs.
Proof.
  unfold _leds_for_segments. rewrite in_flat_map. split.
  - intros (seg & Hseg & Hin). apply in_map_iff in Hin.
    destruct Hin as (local & Hj & Hl).
    apply segment_leds_spec in Hl. destruct Hl as [Hr Hs].
    unfold _local_to_phys, _digit_base, LEDS_PER_DIGIT in Hj. subst j.
    replace (d * 21 + (local - 1) - d * 21) with (local - 1) by lia.
    split; [lia|]. rewrite Hs. exact Hseg.
  - intros [Hr Hin]. exists (segment_at (j - d * 21)).
    split; [exact Hin|]. apply in_map_iff.
    exists (j - d * 21 + 1). split.
    + unfold _local_to_phys, _digit_base, LEDS_PER_DIGIT. lia.
    + apply segment_leds_spec. split; [lia|].
      f_equal. lia.
Qed.

Lemma range_in (n j : Z) : In j (range n) <-> 0 <= j < n.
Proof.
  unfold range. rewrite in_map_iff. split.
  - intros (k & <- & Hk). apply in_seq in Hk. lia.
  - intros H. exists (Z.to_nat j). split; [lia|]. apply in_seq. lia.
Qed.

Lemma existsb_in (j : Z) (l : list Z) :
  existsb (Z.eqb j) l = true <-> In j l.
Proof.
  rewrite existsb_exists. split.
  - intros (x & Hin & E). apply Z.eqb_eq in E. subst x. exact Hin.
  - intros H. exists j. split; [exact H|apply Z.eqb_refl].
Qed.

Lemma existsb_ascii_in (c : ascii) (l : list ascii) :
  existsb (Ascii.eqb c) l = true <-> In c l.
Proof.
  rewrite existsb_exists. split.
  - intros (x & Hin & E). apply Ascii.eqb_eq in E. subst x. exact Hin.
  - intros H. exists c. split; [exact H|apply Ascii.eqb_refl].
Qed.

(** The pixels [_draw_digits] turns on are the lit ones of the six blocks. *)
Lemma digits_leds_spec (code6 : list ascii) (j : Z) :
  existsb (Z.eqb j)
    (flat_map (fun d => _leds_for_segments d
                          (_segments_for_digit_char (char_at code6 d)))
       (range NUM_DIGITS))
  = (0 <=? j) && (j <? 126) && lit code6 j.
Proof.
  apply eq_true_iff_eq. rewrite existsb_in, in_flat_map.
  rewrite !andb_true_iff, Z.leb_le, Z.ltb_lt.
  unfold lit, LEDS_PER_DIGIT, NUM_DIGITS. rewrite existsb_ascii_in. split.
  - intros (d & Hd & Hin). apply range_in in Hd.
    apply leds_for_segments_spec in Hin. destruct Hin as [Hr Hin].
    assert (Hq : j / 21 = d)
      by (symmetry; apply Z.div_unique with (r := j - d * 21); lia).
    assert (Hm : j mod 21 = j - d * 21)
      by (symmetry; apply Z.mod_unique with (q := d); lia).
    rewrite Hq, Hm. split; [lia|exact Hin].
  - intros [[H0 H1] Hin]. exists (j / 21).
    pose proof (Z.div_mod j 21 ltac:(lia)) as Hdm.
    pose proof (Z.mod_pos_bound j 21 ltac:(lia)) as Hmb.
    split; [apply range_in; split;
            [apply Z.div_pos; lia|apply Z.div_lt_upper_bound; lia]|].
    apply leds_for_segments_spec.
    replace (j - j / 21 * 21) with (j mod 21) by lia.
    split; [lia|exact Hin].
Qed.

Lemma draw_digits_spec (strip : Strip) (code6 : list ascii)
    (color_on color_off : Pixel) (i : Z) :
  0 <= i < Z.of_nat (List.length strip) ->
  List.length (_draw_digits strip code6 color_on color_off)
  = List.length strip
  /\ nth_error (_draw_digits strip code6 color_on color_off) (Z.to_nat i)
     = if i <? NUM_DIGITS * LEDS_PER_DIGIT
       then Some (clamped (if lit code6 i then color_on else color_off))
       else nth_error strip (Z.to_nat i).
Proof.
  intros Hi. unfold _draw_digits.
  set (cleared := fold_left (fun s i => set i color_off s)
                    (range (NUM_DIGITS * LEDS_PER_DIGIT)) strip).
  destruct (paint_spec color_off (range (NUM_DIGITS * LEDS_PER_DIGIT))
              strip i Hi) as [C1 C2].
  fold cleared in C1, C2.
  rewrite (fold_flat_map (fun s idx => set idx color_on s)
             (fun d => _leds_for_segments d
                         (_segments_for_digit_char (char_at code6 d)))).
  destruct (paint_spec color_on
              (flat_map (fun d => _leds_for_segments d
                                    (_segments_for_digit_char
                                       (char_at code6 d)))
                 (range NUM_DIGITS)) cleared i) as [D1 D2];
    [rewrite C1; exact Hi|].
  rewrite D1, D2, C1, C2, digits_leds_spec.
  split; [reflexivity|].
  change (NUM_DIGITS * LEDS_PER_DIGIT) with 126.
  assert (E0 : (0 <=? i) = true) by (apply Z.leb_le; lia).
  rewrite E0. cbn [andb].
  destruct (i <? 126) eqn:E1; cbn [andb].
  - assert (Er : existsb (Z.eqb i) (range 126) = true)
      by (apply existsb_in, range_in; apply Z.ltb_lt in E1; lia).
    rewrite Er. destruct (lit code6 i); reflexivity.
  - assert (Er : existsb (Z.eqb i) (range 126) = false).
    { apply not_true_is_false. intros H.
      apply existsb_in, range_in in H. apply Z.ltb_ge in E1. lia. }
    rewrite Er. reflexivity.
Qed.

(** X18: [_draw_digits] pixel by pixel.  The strip keeps its length; a
    pixel past the six digit blocks is left as it was, and so is the whole
    countdown bar of [_timer_range]; a pixel [i] of the blocks ends as the on colour when the
    character at place [i / 21] of the code lights the segment that pixel
    [i % 21] of a block belongs to, and as the off colour otherwise, each
    channel clamped to [0, 255].  A character outside 0-9, or a place past
    the end of the code, lights nothing. *)
Theorem digits_show_their_segments (strip : Strip) (code6 : list ascii)
    (color_on color_off : Pixel) (i : Z) :
  0 <= i < Z.of_nat (List.length strip) ->
  List.length (_draw_digits strip code6 color_on color_off)
  = List.length strip
  /\ nth_error (_draw_digits strip code6 color_on color_off) (Z.to_nat i)
     = (if i <? NUM_DIGITS * LEDS_PER_DIGIT
        then Some (clamped (if lit code6 i then color_on else color_off))
        else nth_error strip (Z.to_nat i))
  /\ Forall (fun j =>
               nth_error (_draw_digits strip code6 color_on color_off)
                 (Z.to_nat j)
               = nth_error strip (Z.to_nat j)) _timer_range.
Proof.
  intros Hi.
  destruct (draw_digits_spec strip code6 color_on color_off i Hi)
    as [Hlen Hpix].
  split; [exact Hlen|]. split; [exact Hpix|].
  apply Forall_forall. intros j Hj. unfold _timer_range in Hj.
  apply in_map_iff in Hj. destruct Hj as (k & <- & Hk).
  apply range_in in Hk.
  change (NUM_DIGITS * LEDS_PER_DIGIT) with 126.
  change TIMER_LED_COUNT with 25 in Hk.
  destruct (Z.lt_ge_cases (126 + k) (Z.of_nat (List.length strip)))
    as [Hlt|Hge].
  - rewrite (proj2 (draw_digits_spec strip code6 color_on color_off
                      (126 + k) ltac:(lia))).
    change (NUM_DIGITS * LEDS_PER_DIGIT) with 126.
    destruct (Z.ltb_spec (126 + k) 126); [lia|reflexivity].
  - assert (N1 : nth_error strip (Z.to_nat (126 + k)) = None)
      by (apply nth_error_None; lia).
    assert (N2 : nth_error (_draw_digits strip code6 color_on color_off)
                   (Z.to_nat (126 + k)) = None)
      by (apply nth_error_None; rewrite Hlen; lia).
    rewrite N1, N2. reflexivity.
Qed.

Lemma digits_show_their_segments_witness :
  0 <= 3 < Z.of_nat (List.length (repeat (9, 9, 9) 151))
  /\ nth_error (_draw_digits (repeat (9, 9, 9) 151)
                  ["1"; "2"; "3"; "4"; "5"; "6"]%char (0, 300, 0) (0, 0, 0))
       (Z.to_nat 3)
     = Some (0, 255, 0).
Proof.
  assert (H : 0 <= 3 < Z.of_nat (List.length (repeat (9, 9, 9) 151)))
    by (vm_compute; split; [discriminate|reflexivity]).
  split; [exact H|].
  rewrite (proj1 (proj2 (digits_show_their_segments (repeat (9, 9, 9) 151)
                           ["1"; "2"; "3"; "4"; "5"; "6"]%char (0, 300, 0)
                           (0, 0, 0) 3 H))).
  reflexivity.
Defined.

(** ** Two codes never look alike *)

Lemma digit_cases (ch : ascii) :
  is_digit ch = true ->
  In ch ["0"; "1"; "2"; "3"; "4"; "5"; "6"; "7"; "8"; "9"]%char.
Proof. unfold is_digit. apply existsb_ascii_in. Qed.

Lemma signature_injective (a b : ascii) :
  is_digit a = true -> is_digit b = true ->
  signature a = signature b -> a = b.
Proof.
  intros Ha Hb. apply digit_cases in Ha. apply digit_cases in Hb.
  cbn [In] in Ha, Hb.
  repeat match goal with
         | H : _ \/ _ |- _ => destruct H as [H|H]
         end;
    try contradiction; subst a b; intros H;
    try reflexivity; vm_compute in H; discriminate H.
Qed.

Lemma lit_at (code6 : list ascii) (d k : Z) :
  0 <= k < 7 ->
  lit code6 (21 * d + 3 * k)
  = nth (Z.to_nat k) (signature (char_at code6 d)) false.
Proof.
  intros Hk. unfold lit, LEDS_PER_DIGIT.
  assert (Hq : (21 * d + 3 * k) / 21 = d)
    by (symmetry; apply Z.div_unique with (r := 3 * k); lia).
  assert (Hm : (21 * d + 3 * k) mod 21 = 3 * k)
    by (symmetry; apply Z.mod_unique with (q := d); lia).
  rewrite Hq, Hm.
  assert (K : k = 0 \/ k = 1 \/ k = 2 \/ k = 3 \/ k = 4 \/ k = 5 \/ k = 6)
    by lia.
  repeat match goal with
         | H : _ \/ _ |- _ => destruct H as [H|H]
         end;
    subst k; reflexivity.
Qed.

Lemma signature_by_places (a b : ascii) :
  (forall k, 0 <= k < 7 ->
     nth (Z.to_nat k) (signature a) false
     = nth (Z.to_nat k) (signature b) false) ->
  signature a = signature b.
Proof.
  intros H.
  pose proof (H 0 ltac:(lia)) as H0. pose proof (H 1 ltac:(lia)) as H1.
  pose proof (H 2 ltac:(lia)) as H2. pose proof (H 3 ltac:(lia)) as H3.
  pose proof (H 4 ltac:(lia)) as H4. pose proof (H 5 ltac:(lia)) as H5.
  pose proof (H 6 ltac:(lia)) as H6.
  unfold signature in *. cbn [map] in *.
  change (Z.to_nat 0) with 0%nat in H0. change (Z.to_nat 1) with 1%nat in H1.
  change (Z.to_nat 2) with 2%nat in H2. change (Z.to_nat 3) with 3%nat in H3.
  change (Z.to_nat 4) with 4%nat in H4. change (Z.to_nat 5) with 5%nat in H5.
  change (Z.to_nat 6) with 6%nat in H6.
  cbn [nth] in *. congruence.
Qed.

Lemma six_chars (code6 : list ascii) :
  List.length code6 = 6%nat ->
  code6 = map (char_at code6) [0; 1; 2; 3; 4; 5].
Proof.
  destruct code6 as [|c0 [|c1 [|c2 [|c3 [|c4 [|c5 [|c6 rest]]]]]]];
    try discriminate. intros _. reflexivity.
Qed.

Lemma all_digits_at (code6 : list ascii) (d : Z) :
  List.length code6 = 6%nat -> forallb is_digit code6 = true ->
  0 <= d < 6 -> is_digit (char_at code6 d) = true.
Proof.
  intros Hl Hd Hr. rewrite forallb_forall in Hd. apply Hd.
  unfold char_at.
  destruct (Z.ltb_spec d (Z.of_nat (List.length code6))) as [_|Hge]; [|lia].
  apply nth_In. lia.
Qed.

(** X19: two codes never look alike.  On a strip that holds the six digit
    blocks, with on and off colours that differ once clamped, two six-digit
    codes that [_draw_digits] draws to the same pixels are the same code:
    the ten digits have ten different segment sets, and every segment has
    pixels of its own. *)
Theorem display_is_unambiguous (strip : Strip) (code1 code2 : list ascii)
    (color_on color_off : Pixel) :
  NUM_DIGITS * LEDS_PER_DIGIT <= Z.of_nat (List.length strip) ->
  clamped color_on <> clamped color_off ->
  List.length code1 = 6%nat -> List.length code2 = 6%nat ->
  forallb is_digit code1 = true -> forallb is_digit code2 = true ->
  _draw_digits strip code1 color_on color_off
  = _draw_digits strip code2 color_on color_off ->
  code1 = code2.
Proof.
  change (NUM_DIGITS * LEDS_PER_DIGIT) with 126.
  intros Hn Hc L1 L2 D1 D2 Heq.
  assert (Hlit : forall i, 0 <= i < 126 -> lit code1 i = lit code2 i).
  { intros i Hi.
    assert (Hi' : 0 <= i < Z.of_nat (List.length strip)) by lia.
    destruct (draw_digits_spec strip code1 color_on color_off i Hi')
      as [_ S1].
    destruct (draw_digits_spec strip code2 color_on color_off i Hi')
      as [_ S2].
    rewrite Heq, S2 in S1.
    change (NUM_DIGITS * LEDS_PER_DIGIT) with 126 in S1.
    destruct (Z.ltb_spec i 126) as [_|Hge]; [|lia].
    injection S1 as S1.
    destruct (lit code1 i), (lit code2 i); try reflexivity;
      exfalso; apply Hc; congruence. }
  assert (Hch : forall d, 0 <= d < 6 -> char_at code1 d = char_at code2 d).
  { intros d Hd. apply signature_injective.
    - apply all_digits_at; assumption.
    - apply all_digits_at; assumption.
    - apply signature_by_places. intros k Hk.
      rewrite <- !lit_at by exact Hk. apply Hlit. lia. }
  rewrite (six_chars code1 L1), (six_chars code2 L2). cbn [map].
  rewrite !Hch by lia. reflexivity.
Qed.

Lemma display_is_unambiguous_witness :
  (NUM_DIGITS * LEDS_PER_DIGIT
   <= Z.of_nat (List.length (repeat (0, 0, 0) 151))
   /\ List.length ["1"; "2"; "3"; "4"; "5"; "6"]%char = 6%nat
   /\ forallb is_digit ["1"; "2"; "3"; "4"; "5"; "6"]%char = true)
  /\ ["1"; "2"; "3"; "4"; "5"; "6"]%char = ["1"; "2"; "3"; "4"; "5"; "6"]%char.
Proof.
  assert (H1 : NUM_DIGITS * LEDS_PER_DIGIT
               <= Z.of_nat (List.length (repeat (0, 0, 0) 151)))
    by (vm_compute; discriminate).
  assert (H2 : clamped (0, 255, 0) <> clamped (0, 0, 0))
    by (vm_compute; discriminate).
  assert (H3 : List.length ["1"; "2"; "3"; "4"; "5"; "6"]%char = 6%nat)
    by reflexivity.
  assert (H4 : forallb is_digit ["1"; "2"; "3"; "4"; "5"; "6"]%char = true)
    by reflexivity.
  split; [exact (conj H1 (conj H3 H4))|].
  exact (display_is_unambiguous (repeat (0, 0, 0) 151)
           ["1"; "2"; "3"; "4"; "5"; "6"]%char
           ["1"; "2"; "3"; "4"; "5"; "6"]%char (0, 255, 0) (0, 0, 0)
           H1 H2 H3 H3 H4 H4 eq_refl).
Defined.

(** * Properties of main.py *)

Import OledUI.
Import OledParts.
Import Main.

(** ** The settings file *)

Lemma ltb_leb (x y : float) : PrimFloat.ltb x y = true -> PrimFloat.leb x y = true.
Proof.
  rewrite ltb_spec, leb_spec. unfold SFltb, SFleb.
  destruct (SFcompare (Prim2SF x) (Prim2SF y)) as [[| |]|];
    intros H; try discriminate H; reflexivity.
Qed.

Lemma unit_clamp_range (x : float) :
  PrimFloat.leb 0 (unit_clamp x) = true
  /\ PrimFloat.leb (unit_clamp x) 1 = true.
Proof.
  unfold unit_clamp, Py.max, py_min.
  destruct (PrimFloat.ltb x 1) eqn:E1.
  - destruct (PrimFloat.ltb 0 x) eqn:E0.
    + split; apply ltb_leb; assumption.
    + split; reflexivity.
  - split; reflexivity.
Qed.

(** X20: [load_user_settings] always answers a hue and a brightness
    between 0 and 1, whatever the file holds: a missing or unreadable file
    or key gives the defaults, and [max(0.0, min(1.0, x))] takes every float
    into the range, NaN (to 1.0) and the infinities included. *)
Theorem loaded_settings_in_unit_range (file : option (Entry * Entry)) :
  let s := load_user_settings file in
  PrimFloat.leb 0 (hue s) = true /\ PrimFloat.leb (hue s) 1 = true
  /\ PrimFloat.leb 0 (brightness s) = true
  /\ PrimFloat.leb (brightness s) 1 = true.
Proof.
  cbn zeta.
  destruct file as [[[|x|] [|y|]]|]; cbn [load_user_settings hue brightness];
    repeat split;
    try apply (proj1 (unit_clamp_range _));
    try apply (proj2 (unit_clamp_range _));
    reflexivity.
Qed.

Lemma percent_loads_as_full :
  Forall (fun pct =>
            match Py.float_of_int pct with
            | Some k => unit_clamp k = if pct =? 0 then 0%float else 1%float
            | None => False
            end) percents.
Proof.
  unfold percents. cbn [seq map Z.of_nat].
  repeat (constructor; [vm_compute; reflexivity|]).
  constructor.
Qed.

(** X21: on a file with the content that [_save_settings] of oled_ui.py
    writes (the brightness as an integer percentage) [load_user_settings]
    clamps the percentage as a fraction: every percentage from 1 to 100
    loads as the brightness 1.0, and 0 as 0.0. *)
Theorem saved_percent_loads_as_full (st : Settings) :
  0 <= s_brightness st <= 100 ->
  brightness (load_user_settings (read_back st))
  = if s_brightness st =? 0 then 0%float else 1%float.
Proof.
  intros H.
  pose proof (percents_cover _ percent_loads_as_full (s_brightness st) H)
    as K.
  cbv beta in K. unfold read_back. revert K.
  destruct (Py.float_of_int (s_brightness st)) as [k|];
    [|intros K; destruct K].
  intros K. cbn [load_user_settings brightness]. exact K.
Qed.

Lemma saved_percent_loads_as_full_witness :
  0 <= s_brightness written <= 100
  /\ brightness (load_user_settings (read_back written)) = 1%float.
Proof.
  assert (E : s_brightness written = 50) by (vm_compute; reflexivity).
  assert (H : 0 <= s_brightness written <= 100) by (rewrite E; lia).
  split; [exact H|].
  rewrite (saved_percent_loads_as_full written H).
  vm_compute. reflexivity.
Defined.

(** ** The language picker *)

Import Encoder.
Import EncoderParts.
Import Main.

Lemma picker_events_cons (p : Pins) (pass : Pass) (rest : list Pass) :
  picker_events p (pass :: rest)
  = turns p (before pass)
    ++ CallSteps :: CallPressed :: picker_events p rest.
Proof.
  unfold picker_events. cbn [flat_map]. rewrite <- app_assoc. reflexivity.
Qed.

Lemma turns_silent (e : Env) (p : Pins) (s : Sampler)
    (raw : list (option bool * option bool * option bool * float)) :
  snd (run e s (turns p raw)) = [].
Proof. unfold turns. apply polls_silent. Qed.

Lemma last_cons_default (A : Type) (x d : A) (l : list A) :
  last (x :: l) d = last l x.
Proof.
  revert x d. induction l as [|y l IH]; intros x d; [reflexivity|].
  change (last (x :: y :: l) d) with (last (y :: l) d).
  rewrite (IH y d), (IH y x). reflexivity.
Qed.

(** What the loop has turned to, and what it returns, is the sum of the
    detents it was handed, along the list and around it; the pass that ends
    the loop is the first whose drawing raises or whose [pressed()] answers
    [True] after a [False]. *)
Lemma picking_total (e : Env) (p : Pins) (codes : list string)
    (passes : list Pass) : forall (s : Sampler) (idx : Z) (was : bool),
  0 <= idx < Z.of_nat (List.length codes) ->
  match picking e p codes s idx was passes with
  | Running idx' =>
      idx' = (idx + drained (snd (run e s (picker_events p passes))))
             mod Z.of_nat (List.length codes)
  | Chose code =>
      exists (k : nat) (pass : Pass),
        nth_error passes k = Some pass
        /\ (exists i,
              picking e p codes s idx was (firstn k passes) = Running i)
        /\ picking e p codes s idx was (firstn (S k) passes) = Chose code
        /\ Py.index codes
             ((idx + drained (snd (run e s (picker_events p
                                              (firstn (S k) passes)))))
              mod Z.of_nat (List.length codes))
           = Some code
        /\ (draw_raises pass = true
            \/ exists prev,
                 pressed_seen (snd (run e s (picker_events p
                                               (firstn (S k) passes))))
                 = prev ++ [true]
                 /\ last prev was = false)
  | Raised => False
  end.
Proof.
  set (n := Z.of_nat (List.length codes)).
  induction passes as [|pass rest IH]; intros s idx was Hidx.
  - cbn. rewrite Z.add_0_r, Z.mod_small by exact Hidx. reflexivity.
  - assert (Hev : forall k,
               snd (run e s (picker_events p (firstn (S k) (pass :: rest))))
               = GotSteps (fst (steps (fst (run e s (turns p (before pass))))))
                 :: GotPressed
                      (fst (pressed
                              (snd (steps (fst (run e s
                                                  (turns p (before pass)))))))
                      )
                 :: snd (run e
                           (snd (pressed
                                   (snd (steps
                                           (fst (run e s
                                                   (turns p (before pass)))))
                                   )))
                           (picker_events p (firstn k rest)))).
    { intros k. cbn [firstn]. rewrite picker_events_cons.
      rewrite run_app, turns_silent.
      cbn [fst snd app]. rewrite run_cons. cbn [step].
      destruct (steps (fst (run e s (turns p (before pass))))) as [st s2].
      cbn [fst snd app]. rewrite run_cons. cbn [step].
      destruct (pressed s2) as [rp s3]. cbn [fst snd app]. reflexivity. }
    assert (Hunf : forall rest',
               picking e p codes s idx was (pass :: rest')
               = let s1 := fst (run e s (turns p (before pass))) in
                 let st := fst (steps s1) in
                 let rp := fst (pressed (snd (steps s1))) in
                 let s3 := snd (pressed (snd (steps s1))) in
                 if negb (st =? 0) && (n =? 0) then chosen codes idx
                 else
                   let idx1 :=
                     if negb (st =? 0) then (idx + st) mod n else idx in
                   match Py.index codes idx1 with
                   | None => chosen codes idx1
                   | Some _ =>
                       if draw_raises pass then chosen codes idx1
                       else if rp && negb was then chosen codes idx1
                       else picking e p codes s3 idx1 rp rest'
                   end).
    { intros rest'. cbn [picking]. fold n. cbn zeta.
      destruct (steps (fst (run e s (turns p (before pass))))) as [st s2].
      cbn [fst snd]. destruct (pressed s2) as [rp s3]. reflexivity. }
    cbn zeta in Hunf.
    set (s1 := fst (run e s (turns p (before pass)))) in *.
    destruct (steps s1) as [st s2] eqn:Es. cbn [fst snd] in Hev, Hunf.
    destruct (pressed s2) as [rp s3] eqn:Ep. cbn [fst snd] in Hev, Hunf.
    assert (Hn : 0 < n) by lia.
    destruct (n =? 0) eqn:En; [apply Z.eqb_eq in En; lia|].
    rewrite andb_false_r in Hunf.
    set (idx1 := if negb (st =? 0) then (idx + st) mod n else idx) in *.
    assert (H1 : 0 <= idx1 < n /\ idx1 = (idx + st) mod n).
    { unfold idx1. destruct (Z.eqb_spec st 0) as [->|Hne]; cbn [negb].
      - rewrite Z.add_0_r, Z.mod_small by exact Hidx. auto.
      - split; [apply Z.mod_pos_bound; lia|reflexivity]. }
    destruct H1 as [Hr1 Hi1].
    destruct (index_some codes idx1 Hr1) as [code Hcode].
    rewrite Hcode in Hunf. unfold chosen in Hunf. rewrite Hcode in Hunf.
    assert (Hone : draw_raises pass = true \/ rp && negb was = true ->
              exists (k : nat) (pass0 : Pass),
                nth_error (pass :: rest) k = Some pass0
                /\ (exists i,
                      picking e p codes s idx was (firstn k (pass :: rest))
                      = Running i)
                /\ picking e p codes s idx was (firstn (S k) (pass :: rest))
                   = Chose code
                /\ Py.index codes
                     ((idx + drained
                               (snd (run e s
                                       (picker_events p
                                          (firstn (S k) (pass :: rest))))))
                      mod n) = Some code
                /\ (draw_raises pass0 = true
                    \/ exists prev,
                         pressed_seen
                           (snd (run e s (picker_events p
                                            (firstn (S k) (pass :: rest)))))
                         = prev ++ [true]
                         /\ last prev was = false)).
    { intros Hend. exists 0%nat, pass.
      split; [reflexivity|]. split; [exists idx; reflexivity|].
      split.
      - cbn [firstn]. rewrite Hunf.
        destruct (draw_raises pass); [reflexivity|].
        destruct Hend as [Hd|Hc]; [discriminate Hd|]. rewrite Hc. reflexivity.
      - split.
        + rewrite (Hev 0%nat).
          cbn [firstn picker_events flat_map run snd drained].
          rewrite Z.add_0_r, <- Hi1. exact Hcode.
        + destruct (draw_raises pass) eqn:Hd; [left; reflexivity|].
          destruct Hend as [Hd'|Hc]; [discriminate Hd'|].
          right. exists []. rewrite (Hev 0%nat).
          cbn [firstn picker_events flat_map run snd pressed_seen app last].
          apply andb_prop in Hc. destruct Hc as [-> Hw].
          apply negb_true_iff in Hw. auto. }
    rewrite Hunf.
    destruct (draw_raises pass) eqn:Hdraw; [apply Hone; left; reflexivity|].
    destruct (rp && negb was) eqn:Hconf; [apply Hone; right; reflexivity|].
    specialize (IH s3 idx1 rp Hr1).
    destruct (picking e p codes s3 idx1 rp rest) as [idx'|code'|] eqn:Epk.
    + rewrite IH, Hi1.
      pose proof (Hev (List.length rest)) as Hall.
      rewrite firstn_all in Hall.
      change (firstn (S (List.length rest)) (pass :: rest))
        with (pass :: firstn (List.length rest) rest) in Hall.
      rewrite firstn_all in Hall. rewrite Hall.
      cbn [drained]. rewrite Z.add_mod_idemp_l by lia.
      f_equal. lia.
    + destruct IH as (k & pass0 & Hk & (i & Hrun) & Hch & Hc & Hwhy).
      exists (S k), pass0.
      split; [exact Hk|].
      split; [exists i; cbn [firstn]; rewrite Hunf; exact Hrun|].
      split; [change (firstn (S (S k)) (pass :: rest))
                with (pass :: firstn (S k) rest);
              rewrite Hunf; exact Hch|].
      split.
      * rewrite (Hev (S k)). cbn [drained].
        rewrite Hi1, Z.add_mod_idemp_l in Hc by lia.
        rewrite <- Hc. f_equal. f_equal. lia.
      * destruct Hwhy as [Hd|(prev & Hp & Hl)]; [left; exact Hd|].
        right. exists (rp :: prev). rewrite (Hev (S k)).
        cbn [pressed_seen]. rewrite Hp. split; [reflexivity|].
        rewrite last_cons_default. exact Hl.
    + exact IH.
Qed.

(** X22: the language picker lands on the sum of the detents.  Over a
    language list that is not empty, [run_language_picker] never leaves
    through an exception of its own; while it loops its index is the sum of
    all the detents [steps()] handed it, modulo the length of the list.
    When it has returned, some pass ended the loop: the passes before it
    leave the loop running, the passes up to and including it return the
    code, that code is the one at the sum of the detents handed out up to
    and including that pass, and on that pass drawing raised or [pressed()]
    answered [True] right after a [False] (or as the first answer). *)
Theorem picker_lands_on_total (e : Env) (p : Pins) (codes : list string)
    (s : Sampler) (passes : list Pass) :
  codes <> [] ->
  match picking e p codes s 0 false passes with
  | Running idx =>
      idx = drained (snd (run e s (picker_events p passes)))
            mod Z.of_nat (List.length codes)
  | Chose code =>
      exists (k : nat) (pass : Pass),
        nth_error passes k = Some pass
        /\ (exists i,
              picking e p codes s 0 false (firstn k passes) = Running i)
        /\ picking e p codes s 0 false (firstn (S k) passes) = Chose code
        /\ Py.index codes
             (drained (snd (run e s (picker_events p (firstn (S k) passes))))
              mod Z.of_nat (List.length codes))
           = Some code
        /\ (draw_raises pass = true
            \/ exists prev,
                 pressed_seen (snd (run e s (picker_events p
                                               (firstn (S k) passes))))
                 = prev ++ [true]
                 /\ last prev false = false)
  | Raised => False
  end.
Proof.
  intros Hne.
  assert (H0 : 0 <= 0 < Z.of_nat (List.length codes))
    by (destruct codes; [congruence|cbn [List.length]; lia]).
  exact (picking_total e p codes passes s 0 false H0).
Qed.

Lemma picker_lands_on_total_witness :
  picking default_env lgpio_pins ["en"; "de"]%string at_rest 0 false
    two_passes = Chose "de"%string
  /\ exists (k : nat) (pass : Pass),
       nth_error two_passes k = Some pass
       /\ (exists i,
             picking default_env lgpio_pins ["en"; "de"]%string at_rest 0
               false (firstn k two_passes) = Running i)
       /\ picking default_env lgpio_pins ["en"; "de"]%string at_rest 0 false
            (firstn (S k) two_passes) = Chose "de"%string
       /\ Py.index ["en"; "de"]%string
            (drained (snd (run default_env at_rest
                             (picker_events lgpio_pins
                                (firstn (S k) two_passes))))
             mod Z.of_nat (List.length ["en"; "de"]%string))
          = Some "de"%string
       /\ (draw_raises pass = true
           \/ exists prev,
                pressed_seen (snd (run default_env at_rest
                                     (picker_events lgpio_pins
                                        (firstn (S k) two_passes))))
                = prev ++ [true]
                /\ last prev false = false).
Proof.
  assert (E : picking default_env lgpio_pins ["en"; "de"]%string at_rest 0
                false two_passes = Chose "de"%string)
    by (vm_compute; reflexivity).
  assert (Hne : ["en"; "de"]%string <> []) by discriminate.
  split; [exact E|].
  pose proof (picker_lands_on_total default_env lgpio_pins
                ["en"; "de"]%string at_rest two_passes Hne) as K.
  rewrite E in K. exact K.
Defined.

Lemma turns_quiet (e : Env) (p : Pins)
    (raw : list (option bool * option bool * option bool * float)) :
  forall s,
  clk p = Dummy -> dt p = Dummy ->
  (has_sw s = true -> sw p = Some Dummy) ->
  quiet e s ->
  quiet e (fst (run e s (turns p raw)))
  /\ has_sw (fst (run e s (turns p raw))) = has_sw s.
Proof.
  unfold turns.
  induction raw as [|[[[a b] l] t] rest IH]; intros s Hc Hd Hs Hq.
  - cbn. auto.
  - cbn [map]. rewrite run_cons. cbn [step fst snd].
    unfold reads_of at 1 3. rewrite Hc, Hd. cbn [read].
    set (r := {| rd_quad := Some (true, true);
                 rd_sw := match sw p with
                          | Some k => read k l
                          | None => None
                          end;
                 rd_now := t |}).
    destruct (poll_call_side e s r) as (_ & P2 & _).
    destruct (IH (poll e s r) Hc Hd) as [I1 I2].
    + rewrite P2. exact Hs.
    + apply poll_quiet; [|exact Hq]. intros H. rewrite (Hs H). reflexivity.
    + split; [exact I1|]. rewrite I2. exact P2.
Qed.

Lemma picking_waits (e : Env) (p : Pins) (codes : list string)
    (passes : list Pass) : forall (s : Sampler) (idx : Z) (was : bool),
  clk p = Dummy -> dt p = Dummy ->
  (has_sw s = true -> sw p = Some Dummy) ->
  BTN_ACTIVE_LOW e = true -> quiet e s ->
  0 <= idx < Z.of_nat (List.length codes) ->
  Forall (fun pass => draw_raises pass = false) passes ->
  picking e p codes s idx was passes = Running idx.
Proof.
  induction passes as [|pass rest IH]; intros s idx was Hc Hd Hs Hal Hq Hi HF;
    [reflexivity|].
  inversion HF as [|x l Hdraw Hrest]; subst x l.
  cbn [picking].
  destruct (turns_quiet e p (before pass) s Hc Hd Hs Hq) as [Q1 Q2].
  set (s1 := fst (run e s (turns p (before pass)))) in *.
  destruct Q1 as (K1 & K2 & K3 & K4).
  destruct (K4 Hal) as (L1 & L2 & L3).
  assert (Hst : steps s1 = (0, s1) \/ steps s1
                = (0, set_quad (_state s1) (_accum s1) 0 s1)).
  { unfold steps. destruct (_ok s1); cbn [negb]; [right|left];
      [rewrite K3|]; reflexivity. }
  assert (Hq2 : forall s2, s2 = s1
                           \/ s2 = set_quad (_state s1) (_accum s1) 0 s1 ->
                pressed s2 = (false, s2) /\ quiet e s2
                /\ has_sw s2 = has_sw s1).
  { intros s2 [->| ->].
    - split; [|split; [|reflexivity]].
      + unfold pressed. rewrite L1.
        destruct (negb (_ok s1) || negb (has_sw s1)); reflexivity.
      + unfold quiet. auto.
    - split; [|split; [|reflexivity]].
      + unfold pressed. cbn [_ok has_sw _press_latch set_quad]. rewrite L1.
        destruct (negb (_ok s1) || negb (has_sw s1)); reflexivity.
      + unfold quiet.
        cbn [_state _accum _steps _press_latch in_release_wait _btn_last
               set_quad]. auto. }
  destruct Hst as [Hst|Hst]; rewrite Hst;
    [destruct (Hq2 s1 (or_introl eq_refl)) as (P1 & P2 & P3)
    |destruct (Hq2 _ (or_intror eq_refl)) as (P1 & P2 & P3)];
    rewrite P1; cbn [Z.eqb negb andb];
    destruct (index_some codes idx Hi) as [code Hcode];
    rewrite Hcode, Hdraw;
    (apply IH; [exact Hc|exact Hd|intros Hh; apply Hs; congruence|exact Hal
               |exact P2|exact Hi|exact Hrest]).
Qed.

(** X23: without a GPIO backend the language picker never returns.  When
    no class of [_make_pin]'s order constructs, [Encoder()] still succeeds,
    on dummy pins, so the picker does not fall back to "en": with an
    active-low button no pass sees a press, and after any number of passes
    whose drawing goes through the loop is still running, at index 0. *)
Theorem picker_waits_without_gpio (e : Env) (force : string)
    (constructs : Z -> Backend -> bool) (clk_pin dt_pin : Z)
    (btn_pin : option Z) (a b l : option bool) (now : float)
    (codes : list string) (passes : list Pass) :
  (forall line k, In k (order force) -> constructs line k = false) ->
  BTN_ACTIVE_LOW e = true ->
  codes <> [] ->
  Forall (fun pass => draw_raises pass = false) passes ->
  let p := {| clk := _make_pin force (constructs clk_pin);
              dt := _make_pin force (constructs dt_pin);
              sw := option_map (fun line => _make_pin force (constructs line))
                      btn_pin |} in
  exists s0,
    start e p a b l now = Some s0
    /\ picking e p codes s0 0 false passes = Running 0.
Proof.
  intros H Hal Hne HF. cbn zeta.
  rewrite !(make_pin_dummy force) by (apply H).
  assert (Hsw : option_map (fun line => _make_pin force (constructs line))
                  btn_pin
                = option_map (fun _ => Dummy) btn_pin).
  { destruct btn_pin as [line|]; [|reflexivity]. cbn.
    rewrite make_pin_dummy by (apply H). reflexivity. }
  rewrite Hsw.
  set (p := {| clk := Dummy; dt := Dummy;
               sw := option_map (fun _ => Dummy) btn_pin |}).
  assert (Hst : exists s0, start e p a b l now = Some s0
                           /\ quiet e s0
                           /\ (has_sw s0 = true -> sw p = Some Dummy)).
  { unfold start, p. cbn [clk dt sw read].
    destruct btn_pin as [line|]; cbn [option_map read].
    - eexists. split; [reflexivity|]. split.
      + unfold quiet. cbn. repeat split; auto.
      + reflexivity.
    - eexists. split; [reflexivity|]. split.
      + unfold quiet. cbn. repeat split; auto.
      + cbn. discriminate. }
  destruct Hst as (s0 & Hst & Hq & Hs). exists s0. split; [exact Hst|].
  apply picking_waits; auto.
  destruct codes; [congruence|cbn [List.length]; lia].
Qed.

Lemma picker_waits_without_gpio_witness :
  (forall (line : Z) (k : Backend),
      In k (order "") -> (fun (_ : Z) (_ : Backend) => false) line k = false)
  /\ exists s0,
      start default_env {| clk := Dummy; dt := Dummy; sw := Some Dummy |}
        None None None 0 = Some s0
      /\ picking default_env {| clk := Dummy; dt := Dummy; sw := Some Dummy |}
           ["en"; "de"]%string s0 0 false two_passes = Running 0.
Proof.
  split; [intros line k _; reflexivity|].
  assert (Hne : ["en"; "de"]%string <> []) by discriminate.
  assert (HF : Forall (fun pass => draw_raises pass = false) two_passes)
    by (repeat constructor).
  exact (picker_waits_without_gpio default_env "" (fun _ _ => false) 23 24
           (Some 25) None None None 0 ["en"; "de"]%string two_passes
           (fun _ _ _ => eq_refl) eq_refl Hne HF).
Defined.
